(** * Miro board export to Mermaid flowchart: the pipeline of
      [fixed_mermaid_generator.py] (class [FixedMermaidGenerator])

    A shallow embedding of the generator and the properties of its stages:
    the text normalizer [_html_to_text], the identifier sanitizer
    [sanitize_id], the classification loop and the connector loop of
    [extract_nodes_and_connections], the label renderer [get_mermaid_shape],
    the start-node resolver [find_start_node] and the serializer
    [generate_mermaid]; and of the two scripts that precede it in the
    repository, the cleaner [_clean_text] and the generator
    [generate_mermaid] of [miro_extractor.py], and the extraction
    [extract_nodes_and_edges] and the writer [write_mermaid] of
    [GPT_raw_to_mermaid.py].

    Modelling conventions.
    - A Python [str] is the list of its Unicode code points ([pystr]); [len],
      slicing and indexing of Python strings count code points, and so do
      [length], [firstn] and [skipn] here.
    - A Python [dict] is an association list in insertion order with unique
      keys: assignment to an existing key keeps the key's position.
    - [re.sub] is modelled by one scanning function, [Re.sub], shared by all
      the patterns of the program; each pattern is given as the function that
      matches it at the beginning of a string.
    - A JSON object of the board export is a record.  A key that holds a
      string is an [option] field whose [None] is the absent key or [null]:
      the source reads these keys with [.get] and treats the two alike.  The
      keys ['data'], ['startItem'] and ['endItem'] hold an object; their field
      is an [option] whose [None] is the absent key only.  The source calls
      [.get] on the value of these three keys without a test, so an export in
      which one of them is [null] makes it raise [AttributeError]; such an
      export is not a value of these record types.  The keys that hold a list
      hold a list when they are present; an absent list is the empty list.
    - Writing a file under [encoding='utf-8'] raises [UnicodeEncodeError] when
      the text holds a surrogate code point; this is part of the model of the
      functions that write. *)

From Stdlib Require Import String Ascii DecimalString DecimalNat List NArith Lia Bool Arith.
Import ListNotations.

(* ================================================================== *)
(** ** Python strings *)

Module PyStr.

(** A character is its code point. *)
Definition char := N.
Definition pystr := list char.

(** String literals of the source are written [str "..."] and character
    literals [ch "c"] (ASCII only). *)
Definition ch (a : ascii) : char := N_of_ascii a.
Definition str (s : string) : pystr :=
  List.map N_of_ascii (list_ascii_of_string s).
Arguments ch _%_char.
Arguments str _%_string.

(** The double quote and the newline. *)
Definition dquote : char := 34%N.
Definition newline : char := 10%N.

Definition char_eqb (a b : char) : bool := N.eqb a b.

Fixpoint eqb (s t : pystr) : bool :=
  match s, t with
  | [], [] => true
  | a :: s', b :: t' => char_eqb a b && eqb s' t'
  | _, _ => false
  end.

(** [c in s] for a single character [c]. *)
Definition mem (c : char) (s : pystr) : bool := existsb (char_eqb c) s.

(** [s.startswith(p)]. *)
Fixpoint startswith (p s : pystr) : bool :=
  match p, s with
  | [], _ => true
  | a :: p', b :: s' => char_eqb a b && startswith p' s'
  | _ :: _, [] => false
  end.

(** [p in s] for strings: [p] occurs as a contiguous substring of [s]. *)
Fixpoint contains (p s : pystr) : bool :=
  startswith p s ||
  match s with
  | [] => false
  | _ :: s' => contains p s'
  end.

(** Number of leading characters of [s] that satisfy [p]. *)
Fixpoint span_len (p : char -> bool) (s : pystr) : nat :=
  match s with
  | c :: r => if p c then S (span_len p r) else 0
  | [] => 0
  end.

Local Open Scope N_scope.

Definition in_range (lo hi c : char) : bool := N.leb lo c && N.leb c hi.

(** The character classes of the patterns; all are the ASCII ranges the
    patterns spell out. *)
Definition is_digit (c : char) : bool := in_range 48 57 c.
Definition is_upper (c : char) : bool := in_range 65 90 c.
Definition is_lower (c : char) : bool := in_range 97 122 c.
Definition is_letter_or_underscore (c : char) : bool :=
  is_upper c || is_lower c || char_eqb c 95.
(** [[0-9A-Za-z_]] *)
Definition is_word (c : char) : bool := is_digit c || is_letter_or_underscore c.
(** [[0-9a-fA-F]] *)
Definition is_hex (c : char) : bool :=
  is_digit c || in_range 97 102 c || in_range 65 70 c.

(** Whitespace in the sense of [str.isspace], which is also what [\s]
    matches in a [str] pattern and what [str.strip()] removes. *)
Definition is_space (c : char) : bool :=
  in_range 9 13 c || in_range 28 32 c || char_eqb c 133 || char_eqb c 160
  || char_eqb c 5760 || in_range 8192 8202 c || char_eqb c 8232
  || char_eqb c 8233 || char_eqb c 8239 || char_eqb c 8287
  || char_eqb c 12288.

(** [str.lower()] on the ASCII letters.  Python also lowers letters outside
    ASCII; of those only U+0130 and U+212A produce an ASCII letter ([i]
    followed by U+0307, and [k]).  The program uses [lower] in two tests,
    [content.lower().startswith('decision tree')] and
    ['start' in text.lower()]; neither phrase contains [k], and the [i] of
    U+0130 is followed by U+0307, so both tests have the same outcome under
    this definition as under Python's for every string. *)
Definition lower_char (c : char) : char :=
  if is_upper c then c + 32 else c.
Definition lower (s : pystr) : pystr := List.map lower_char s.

Local Close Scope N_scope.

(** [s.lstrip()], [s.rstrip()], [s.strip()] without argument. *)
Fixpoint lstrip (s : pystr) : pystr :=
  match s with
  | c :: r => if is_space c then lstrip r else s
  | [] => []
  end.
Definition rstrip (s : pystr) : pystr := rev (lstrip (rev s)).
Definition strip (s : pystr) : pystr := rstrip (lstrip s).

(** [s.replace(old, new)] for a one-character [old]. *)
Definition replace (old : char) (new : pystr) (s : pystr) : pystr :=
  flat_map (fun c => if char_eqb c old then new else [c]) s.

(** [sep.join(parts)]. *)
Fixpoint join (sep : pystr) (parts : list pystr) : pystr :=
  match parts with
  | [] => []
  | [p] => p
  | p :: rest => p ++ sep ++ join sep rest
  end.

End PyStr.
Import PyStr.
Arguments ch _%_char.
Arguments str _%_string.

(* ================================================================== *)
(** ** Regular-expression substitution *)

Module Re.

(** A pattern, as [re.sub] needs it: [m s] is [Some (n, repl)] when the
    pattern matches the first [n] characters of [s] (the match the regex
    engine finds at that position), with [repl] the text substituted for
    them, and [None] when it does not match there.  No pattern of the
    program matches the empty string. *)
Definition matcher := pystr -> option (nat * pystr).

(** [re.sub]: scan from the left; at a position where the pattern matches,
    emit the replacement and resume after the match; elsewhere copy the
    character.  [skip] counts the characters of the current match that are
    still to be passed over. *)
Fixpoint sub_from (m : matcher) (skip : nat) (s : pystr) : pystr :=
  match s with
  | [] => []
  | c :: r =>
      match skip with
      | S k => sub_from m k r
      | O =>
          match m s with
          | Some (S k, repl) => repl ++ sub_from m k r
          | _ => c :: sub_from m O r
          end
      end
  end.

Definition sub (m : matcher) (s : pystr) : pystr := sub_from m 0 s.

(** [[class]+] replaced by [repl]: a maximal run of class characters. *)
Definition run_of (p : char -> bool) (repl : pystr) : matcher :=
  fun s => match span_len p s with
           | O => None
           | n => Some (n, repl)
           end.

(** [[class]] replaced by [repl]: one class character. *)
Definition one_of (p : char -> bool) (repl : pystr) : matcher :=
  fun s => match s with
           | c :: _ => if p c then Some (1, repl) else None
           | [] => None
           end.

End Re.

(* ================================================================== *)
(** ** Identifier sanitizer *)

(** [re.match(r"^[A-Za-z_]", raw_id)] *)
Definition starts_with_letter_or_underscore (raw_id : pystr) : bool :=
  match raw_id with
  | c :: _ => is_letter_or_underscore c
  | [] => false
  end.

(** The pattern [[^0-9A-Za-z_]+] with replacement ["_"]. *)
Definition problematic_run : Re.matcher :=
  Re.run_of (fun c => negb (is_word c)) (str "_").

Definition sanitize_id (raw_id : pystr) : pystr :=
  let base :=
    if starts_with_letter_or_underscore raw_id then raw_id
    else str "N" ++ raw_id in
  Re.sub problematic_run base.

(* ================================================================== *)
(** ** Text normalizer *)

(** The pattern [<(br|/p)>] under [re.I], replaced by a newline.  The letters
    of the pattern have no case variants outside ASCII. *)
Definition br_or_close_p : Re.matcher :=
  fun s =>
    match s with
    | a :: b :: c :: d :: _ =>
        if char_eqb a (ch "<")
           && ((char_eqb (lower_char b) (ch "b") && char_eqb (lower_char c) (ch "r"))
               || (char_eqb b (ch "/") && char_eqb (lower_char c) (ch "p")))
           && char_eqb d (ch ">")
        then Some (4, [newline])
        else None
    | _ => None
    end.

(** The pattern [<[^>]+>], replaced by the empty string: a [<], the longest
    run of characters other than [>], which must not be empty, and the [>]
    that ends the run. *)
Definition any_tag : Re.matcher :=
  fun s =>
    match s with
    | c :: r =>
        if char_eqb c (ch "<") then
          let n := span_len (fun x => negb (char_eqb x (ch ">"))) r in
          match n, skipn n r with
          | S _, g :: _ => if char_eqb g (ch ">") then Some (S (S n), []) else None
          | _, _ => None
          end
        else None
    | [] => None
    end.

(** The pattern [\s+], replaced by one space. *)
Definition whitespace_run : Re.matcher := Re.run_of is_space (str " ").

(** [html.unescape] of the Python library (CPython 3.11, [html/__init__.py]). *)
Module Html.

Local Open Scope N_scope.

Definition _invalid_charrefs (num : N) : option pystr :=
  match num with
  | 0x00 => Some [0xfffd] | 0x0d => Some [0x0d] | 0x80 => Some [0x20ac]
  | 0x81 => Some [0x81] | 0x82 => Some [0x201a] | 0x83 => Some [0x0192]
  | 0x84 => Some [0x201e] | 0x85 => Some [0x2026] | 0x86 => Some [0x2020]
  | 0x87 => Some [0x2021] | 0x88 => Some [0x02c6] | 0x89 => Some [0x2030]
  | 0x8a => Some [0x0160] | 0x8b => Some [0x2039] | 0x8c => Some [0x0152]
  | 0x8d => Some [0x8d] | 0x8e => Some [0x017d] | 0x8f => Some [0x8f]
  | 0x90 => Some [0x90] | 0x91 => Some [0x2018] | 0x92 => Some [0x2019]
  | 0x93 => Some [0x201c] | 0x94 => Some [0x201d] | 0x95 => Some [0x2022]
  | 0x96 => Some [0x2013] | 0x97 => Some [0x2014] | 0x98 => Some [0x02dc]
  | 0x99 => Some [0x2122] | 0x9a => Some [0x0161] | 0x9b => Some [0x203a]
  | 0x9c => Some [0x0153] | 0x9d => Some [0x9d] | 0x9e => Some [0x017e]
  | 0x9f => Some [0x0178]
  | _ => None
  end.

(** The set [_invalid_codepoints]: the ranges its comments name, [0xb], and
    the last two code points of each of the seventeen planes. *)
Definition _invalid_codepoints (num : N) : bool :=
  in_range 0x1 0x8 num || in_range 0xe 0x1f num || in_range 0x7f 0x9f num
  || in_range 0xfdd0 0xfdef num || N.eqb num 0xb
  || (N.leb num 0x10ffff
      && (N.eqb (N.land num 0xffff) 0xfffe || N.eqb (N.land num 0xffff) 0xffff)).

(** [int(digits)] and [int(digits, 16)] on strings of digits; Python's
    integers are unbounded, and so is [N].  (CPython 3.11 refuses, with a
    [ValueError], a decimal string of more than 4300 digits unless that limit
    is lifted; a character reference of that length is outside this
    model.) *)
Definition digit_value (c : char) : N :=
  if is_digit c then c - 48
  else if in_range 97 102 c then c - 87
  else c - 55.
Definition int (base : N) (digits : pystr) : N :=
  fold_left (fun acc c => acc * base + digit_value c) digits 0.

(** [s.rstrip(';')] *)
Definition rstrip_semicolon (s : pystr) : pystr :=
  rev ((fix drop (t : pystr) : pystr :=
          match t with
          | c :: r => if char_eqb c (ch ";") then drop r else t
          | [] => []
          end) (rev s)).

(** [[^\t\n\f <&#;]] *)
Definition is_name_char (c : char) : bool :=
  negb (N.eqb c 9 || N.eqb c 10 || N.eqb c 12 || char_eqb c (ch " ")
        || char_eqb c (ch "<") || char_eqb c (ch "&") || char_eqb c (ch "#")
        || char_eqb c (ch ";")).

Local Close Scope N_scope.

(** The [;?] that ends each alternative of [_charref]. *)
Definition optional_semicolon (rest : pystr) : pystr :=
  match rest with
  | c :: _ => if char_eqb c (ch ";") then [c] else []
  | [] => []
  end.

(** Group 1 of [_charref], [#[0-9]+;?|#[xX][0-9a-fA-F]+;?|[^\t\n\f <&#;]{1,32};?],
    matched at the beginning of [r], the text that follows an [&]. *)
Definition charref_group (r : pystr) : option pystr :=
  match r with
  | h :: r1 =>
      if char_eqb h (ch "#") then
        match span_len is_digit r1 with
        | S _ as n =>
            Some (h :: firstn n r1 ++ optional_semicolon (skipn n r1))
        | O =>
            match r1 with
            | x :: r2 =>
                if char_eqb x (ch "x") || char_eqb x (ch "X") then
                  match span_len is_hex r2 with
                  | S _ as k =>
                      Some (h :: x :: firstn k r2
                              ++ optional_semicolon (skipn k r2))
                  | O => None
                  end
                else None
            | [] => None
            end
        end
      else
        match Nat.min 32 (span_len is_name_char r) with
        | S _ as n => Some (firstn n r ++ optional_semicolon (skipn n r))
        | O => None
        end
  | [] => None
  end.

Section Unescape.

(** The table [html.entities.html5] of named character references (2231
    entries in CPython 3.11), as its lookup function. *)
Variable html5 : pystr -> option pystr.

(** The loop [for x in range(len(s)-1, 1, -1)] of [_replace_charref] and
    its [else] branch. *)
Fixpoint longest_name (s : pystr) (x : nat) : pystr :=
  match x with
  | O => ch "&" :: s
  | S x' =>
      if Nat.leb x 1 then ch "&" :: s
      else match html5 (firstn x s) with
           | Some v => v ++ skipn x s
           | None => longest_name s x'
           end
  end.

(** [_replace_charref], applied to group 1 of the match. *)
Definition _replace_charref (s : pystr) : pystr :=
  match s with
  | h :: rest =>
      if char_eqb h (ch "#") then
        let num :=
          match rest with
          | x :: digits =>
              if char_eqb x (ch "x") || char_eqb x (ch "X")
              then int 16 (rstrip_semicolon digits)
              else int 10 (rstrip_semicolon rest)
          | [] => 0%N
          end in
        match _invalid_charrefs num with
        | Some r => r
        | None =>
            if (N.leb 0xD800 num && N.leb num 0xDFFF)
               || N.ltb 0x10FFFF num then [0xFFFD%N]
            else if _invalid_codepoints num then []
            else [num]
        end
      else
        match html5 s with
        | Some v => v
        | None => longest_name s (length s - 1)
        end
  | [] => []
  end.

(** The pattern [_charref] with [_replace_charref] as replacement. *)
Definition _charref : Re.matcher :=
  fun s =>
    match s with
    | c :: r =>
        if char_eqb c (ch "&") then
          match charref_group r with
          | Some g => Some (S (length g), _replace_charref g)
          | None => None
          end
        else None
    | [] => None
    end.

Definition unescape (s : pystr) : pystr :=
  if negb (PyStr.mem (ch "&") s) then s
  else Re.sub _charref s.

End Unescape.

End Html.

(* ================================================================== *)
(** ** Dictionaries *)

Module Dict.

(** Entries in insertion order. *)
Definition dict (V : Type) := list (pystr * V).

Definition keys {V} (d : dict V) : list pystr := List.map fst d.

(** [d.get(k)] *)
Fixpoint get {V} (d : dict V) (k : pystr) : option V :=
  match d with
  | (k', v) :: r => if PyStr.eqb k' k then Some v else get r k
  | [] => None
  end.

(** [k in d] *)
Definition mem {V} (k : pystr) (d : dict V) : bool :=
  match get d k with
  | Some _ => true
  | None => false
  end.

(** [d[k] = v]: an existing key keeps its position, a new key goes last. *)
Fixpoint set {V} (d : dict V) (k : pystr) (v : V) : dict V :=
  match d with
  | (k', v') :: r =>
      if PyStr.eqb k' k then (k', v) :: r else (k', v') :: set r k v
  | [] => [(k, v)]
  end.

End Dict.
Import Dict.

(* ================================================================== *)
(** ** Board export records, nodes and connections *)

(** The value of the key ['data'] of an item. *)
Record RawData := {
  content : option pystr;
  shape : option pystr
}.

(** An element of [data['items']].  [item_data] is [None] for an item
    without the key ['data'] and [Some d] for an item whose ['data'] is the
    object [d]. *)
Record RawItem := {
  item_id : option pystr;       (* key 'id' *)
  item_type : option pystr;     (* key 'type' *)
  item_data : option RawData    (* key 'data' *)
}.

(** The value of ['startItem'] and ['endItem']. *)
Record ItemRef := { ref_id : option pystr }.

(** An element of ['captions']. *)
Record Caption := { caption_content : option pystr }.

(** An element of [data['connectors']].  [startItem] and [endItem] are
    [None] for a connector without the key and [Some r] for one whose key
    holds the object [r]. *)
Record RawConnector := {
  startItem : option ItemRef;
  endItem : option ItemRef;
  captions : list Caption
}.

Record BoardData := {
  items : list RawItem;
  connectors : list RawConnector
}.

(** The values of [node_info['type']]. *)
Module NodeType.
Inductive t := unknown | question | start | process | conclusion | note | text.
Definition eqb (a b : t) : bool :=
  match a, b with
  | unknown, unknown | question, question | start, start
  | process, process | conclusion, conclusion | note, note | text, text => true
  | _, _ => false
  end.
End NodeType.

(** The values of [node_info['mermaid_shape']]. *)
Module MermaidShape.
Inductive t := rectangle | diamond | stadium.
End MermaidShape.

(** The dictionary [node_info]. *)
Record node_info := {
  text : pystr;
  mermaid_shape : MermaidShape.t;
  type : NodeType.t
}.

(** A connection [(start_id, end_id, label)]. *)
Definition connection := (pystr * pystr * pystr)%type.

Definition nonempty (s : pystr) : bool :=
  match s with
  | [] => false
  | _ :: _ => true
  end.

(** [conclusion_text_map] of [extract_nodes_and_connections]. *)
Definition conclusion_text_map : dict pystr :=
  [ (str "3458764636475175262", str "LREC Approval required");
    (str "3458764635302888442", str "Continue to Research");
    (str "3458764636474796545", str "Apply via DAP-R");
    (str "3458764636474951140", str "Contact PO HRA approval required");
    (str "3458764636474951421", str "Contact PO HRA approval required");
    (str "3458764636474951443", str "Seek Advice");
    (str "3458764636475175178", str "Seek Advice");
    (str "3458764636475175411", str "Ethics approval required") ].

(* ================================================================== *)
(** ** Label rendering *)

(** The pattern [[{}()\[\]]], replaced by the empty string. *)
Definition is_bracket (c : char) : bool :=
  char_eqb c (ch "{") || char_eqb c (ch "}") || char_eqb c (ch "(")
  || char_eqb c (ch ")") || char_eqb c (ch "[") || char_eqb c (ch "]").
Definition bracket : Re.matcher := Re.one_of is_bracket [].

(** [safe_text] of [get_mermaid_shape] before the length test. *)
Definition clean_node_text (t : pystr) : pystr :=
  let safe_text :=
    strip (replace (ch ">") (str "&gt;")
             (replace (ch "<") (str "&lt;")
                (replace newline (str " ")
                   (replace dquote (str "'") t)))) in
  Re.sub bracket safe_text.

(** [safe_text] of [get_mermaid_shape] after the length test. *)
Definition node_label (t : pystr) : pystr :=
  let safe_text := clean_node_text t in
  if Nat.ltb 50 (length safe_text) then firstn 47 safe_text ++ str "..."
  else safe_text.

Definition get_mermaid_shape (info : node_info) (t : pystr) : pystr * pystr :=
  let shape_type := mermaid_shape info in
  let safe_text := node_label t in
  match shape_type with
  | MermaidShape.diamond =>
      (str "{", [dquote] ++ safe_text ++ [dquote] ++ str "}")
  | MermaidShape.stadium =>
      (str "([", [dquote] ++ safe_text ++ [dquote] ++ str "])")
  | MermaidShape.rectangle =>
      (str "[", [dquote] ++ safe_text ++ [dquote] ++ str "]")
  end.

(** [clean_label] of [generate_mermaid] before and after the length test. *)
Definition clean_edge_text (label : pystr) : pystr :=
  let clean_label :=
    strip (replace (ch ">") []
             (replace (ch "<") []
                (replace dquote (str "'") label))) in
  Re.sub bracket clean_label.

Definition edge_label (label : pystr) : pystr :=
  let clean_label := clean_edge_text label in
  if Nat.ltb 30 (length clean_label) then firstn 27 clean_label ++ str "..."
  else clean_label.

(* ================================================================== *)
(** ** Start-node resolver *)

Definition str_in (k : pystr) (l : list pystr) : bool :=
  existsb (PyStr.eqb k) l.

(** The test of the loop that prefers start nodes. *)
Definition looks_like_start (info : node_info) : bool :=
  NodeType.eqb (type info) NodeType.start
  || contains (str "start") (lower (text info)).

Definition find_start_node (nodes : dict node_info)
    (connections : list connection) : option pystr :=
  let target_ids := List.map (fun c => snd (fst c)) connections in
  let start_candidates :=
    filter (fun e => negb (str_in (fst e) target_ids)) nodes in
  match find (fun e => looks_like_start (snd e)) start_candidates with
  | Some (node_id, _) => Some node_id
  | None =>
      match start_candidates with
      | (node_id, _) :: _ => Some node_id
      | [] =>
          match keys nodes with
          | k :: _ => Some k
          | [] => None
          end
      end
  end.

(* ================================================================== *)
(** ** Exceptions *)

(** The exception of the generator that is modelled is the [KeyError] of a
    dictionary subscript: [id_map[...]] and [nodes[...]] are the only
    operations of [generate_mermaid] that fail on some dictionary. *)
Inductive outcome (A : Type) : Type :=
| Ok (a : A)
| KeyError.
Arguments Ok {A} a.
Arguments KeyError {A}.

Definition bind {A B} (o : outcome A) (k : A -> outcome B) : outcome B :=
  match o with
  | Ok a => k a
  | KeyError => KeyError
  end.

Notation "x <- e ;; k" := (bind e (fun x => k))
  (at level 61, e at next level, right associativity).

(** [d[k]] *)
Definition subscript {V} (d : dict V) (k : pystr) : outcome V :=
  match get d k with
  | Some v => Ok v
  | None => KeyError
  end.

(** A surrogate code point, which [str.encode('utf-8')] refuses. *)
Definition is_surrogate (c : char) : bool := in_range 0xD800%N 0xDFFF%N c.
Definition has_surrogate (s : pystr) : bool := existsb is_surrogate s.

(** What a call of [generate_mermaid] does once the data are loaded and the
    nodes and connections extracted: it prints "No nodes found!" and returns
    without writing; it raises the [KeyError] of a subscript; its first
    [f.write] raises [UnicodeEncodeError], which leaves the output file empty
    and the Markdown file unwritten; or it writes [mermaid_content] to the
    output file (and the same content, fenced, to the Markdown file). *)
Inductive result : Type :=
| NoNodesFound
| Raised
| RaisedUnicodeEncodeError
| Written (mermaid_content : pystr).

(* ================================================================== *)
(** ** Extraction and serialization *)

Section Generator.

(** The named character references known to [html.unescape]. *)
Variable html5 : pystr -> option pystr.

Definition _html_to_text (html : pystr) : pystr :=
  if negb (nonempty html) then []
  else
    let t1 := Re.sub br_or_close_p html in
    let t2 := Re.sub any_tag t1 in
    let t3 := Html.unescape html5 t2 in
    strip (Re.sub whitespace_run t3).

(** [_html_to_text(d.get('content', ''))]: an absent and a [null] content
    both normalize to the empty string. *)
Definition content_text (o : option pystr) : pystr :=
  match o with
  | Some html => _html_to_text html
  | None => []
  end.

(** The body of the item loop between the type test and the final test:
    [None] is the [continue] of the title branch. *)
Definition classify (id ty : pystr) (item : RawItem) : option node_info :=
  let data_content :=
    match item_data item with
    | Some d => content d
    | None => None
    end in
  if PyStr.eqb ty (str "shape") then
    let content := content_text data_content in
    let is_rhombus :=
      match item_data item with
      | Some d =>
          match shape d with
          | Some shape_type => PyStr.eqb shape_type (str "rhombus")
          | None => false
          end
      | None => false
      end in
    if is_rhombus then
      Some {| type := NodeType.question;
              mermaid_shape := MermaidShape.diamond;
              text := content |}
    else if PyStr.eqb id (str "3458764635301875090") then
      Some {| type := NodeType.start;
              mermaid_shape := MermaidShape.stadium;
              text := str "Start" |}
    else if nonempty content then
      Some {| type := NodeType.process;
              mermaid_shape := MermaidShape.rectangle;
              text := content |}
    else
      Some {| type := NodeType.conclusion;
              mermaid_shape := MermaidShape.stadium;
              text := match get conclusion_text_map id with
                      | Some t => t
                      | None => str "Conclusion"
                      end |}
  else if PyStr.eqb ty (str "sticky_note") then
    let content := content_text data_content in
    Some {| type := NodeType.note;
            mermaid_shape := MermaidShape.rectangle;
            text := if nonempty content then content else str "Note" |}
  else if PyStr.eqb ty (str "text") then
    let content := content_text data_content in
    if nonempty content
       && negb (startswith (str "decision tree") (lower content))
    then Some {| type := NodeType.text;
                 mermaid_shape := MermaidShape.rectangle;
                 text := content |}
    else None
  else
    Some {| text := []; mermaid_shape := MermaidShape.rectangle;
            type := NodeType.unknown |}.

(** The test that guards [nodes[item_id] = node_info]. *)
Definition meaningful (id : pystr) (info : node_info) : bool :=
  (nonempty (text info) && negb (PyStr.eqb (text info) (str "shape")))
  || mem id conclusion_text_map.

(** One iteration of the item loop. *)
Definition add_item (nodes : dict node_info) (item : RawItem)
    : dict node_info :=
  match item_id item with
  | Some id =>
      if negb (nonempty id) then nodes
      else
        match item_type item with
        | Some ty =>
            if negb (str_in ty [str "shape"; str "sticky_note"; str "text"])
            then nodes
            else
              match classify id ty item with
              | Some info =>
                  if meaningful id info then set nodes id info else nodes
              | None => nodes
              end
        | None => nodes
        end
  | None => nodes
  end.

(** One iteration of the connector loop: the tuple it appends, if any. *)
Definition connection_of (conn : RawConnector) : option connection :=
  let start_id :=
    match startItem conn with Some r => ref_id r | None => None end in
  let end_id :=
    match endItem conn with Some r => ref_id r | None => None end in
  match start_id, end_id with
  | Some s, Some e =>
      if negb (nonempty s) || negb (nonempty e) then None
      else
        let label :=
          match captions conn with
          | [] => []
          | cs =>
              join (str " / ")
                (filter nonempty
                   (List.map (fun c => content_text (caption_content c)) cs))
          end in
        Some (s, e, label)
  | _, _ => None
  end.

Definition extract_nodes_and_connections (data : BoardData)
    : dict node_info * list connection :=
  (fold_left add_item (items data) [],
   flat_map (fun conn => match connection_of conn with
                         | Some c => [c]
                         | None => []
                         end) (connectors data)).

(** [{orig_id: self.sanitize_id(orig_id) for orig_id in nodes.keys()}] *)
Definition make_id_map (nodes : dict node_info) : dict pystr :=
  fold_left (fun m orig_id => set m orig_id (sanitize_id orig_id))
    (keys nodes) [].

(** A node declaration line. *)
Definition node_line (id_map : dict pystr) (node_id : pystr)
    (info : node_info) : outcome pystr :=
  mermaid_id <- subscript id_map node_id ;;
  let (shape_start, shape_end) := get_mermaid_shape info (text info) in
  Ok (str "    " ++ mermaid_id ++ shape_start ++ shape_end).

(** "Add start node first if found". *)
Definition start_lines (nodes : dict node_info) (id_map : dict pystr)
    (start_node_id : option pystr) : outcome (list pystr) :=
  match start_node_id with
  | Some sid =>
      if nonempty sid && mem sid nodes then
        info <- subscript nodes sid ;;
        line <- node_line id_map sid info ;;
        Ok [line]
      else Ok []
  | None => Ok []
  end.

(** "Add all other nodes". *)
Fixpoint other_lines (id_map : dict pystr) (start_node_id : option pystr)
    (nodes : dict node_info) : outcome (list pystr) :=
  match nodes with
  | [] => Ok []
  | (node_id, info) :: rest =>
      let is_start :=
        match start_node_id with
        | Some sid => PyStr.eqb node_id sid
        | None => false
        end in
      if is_start then other_lines id_map start_node_id rest
      else
        line <- node_line id_map node_id info ;;
        lines <- other_lines id_map start_node_id rest ;;
        Ok (line :: lines)
  end.

(** One iteration of the connection loop: the lines it appends. *)
Definition edge_line (id_map : dict pystr) (c : connection)
    : outcome (list pystr) :=
  let '(start_id, end_id, label) := c in
  if negb (mem start_id id_map) || negb (mem end_id id_map) then Ok []
  else
    start_mermaid <- subscript id_map start_id ;;
    end_mermaid <- subscript id_map end_id ;;
    if nonempty label then
      Ok [str "    " ++ start_mermaid ++ str " -->|" ++ [dquote]
            ++ edge_label label ++ [dquote] ++ str "| " ++ end_mermaid]
    else
      Ok [str "    " ++ start_mermaid ++ str " --> " ++ end_mermaid].

Fixpoint edge_lines (id_map : dict pystr) (connections : list connection)
    : outcome (list pystr) :=
  match connections with
  | [] => Ok []
  | c :: rest =>
      l <- edge_line id_map c ;;
      ls <- edge_lines id_map rest ;;
      Ok (l ++ ls)
  end.

(** [mermaid_lines] at the end of [generate_mermaid]. *)
Definition mermaid_lines (nodes : dict node_info)
    (connections : list connection) : outcome (list pystr) :=
  let id_map := make_id_map nodes in
  let start_node_id := find_start_node nodes connections in
  first <- start_lines nodes id_map start_node_id ;;
  others <- other_lines id_map start_node_id nodes ;;
  edges <- edge_lines id_map connections ;;
  Ok ([str "flowchart TD"] ++ first ++ others ++ [[]] ++ edges).

(** [generate_mermaid], on the loaded [data]. *)
Definition generate_mermaid (data : BoardData) : result :=
  let (nodes, connections) := extract_nodes_and_connections data in
  if negb (match nodes with [] => false | _ :: _ => true end) then
    NoNodesFound
  else
    match mermaid_lines nodes connections with
    | Ok lines =>
        let mermaid_content := join [newline] lines in
        if has_surrogate mermaid_content then RaisedUnicodeEncodeError
        else Written mermaid_content
    | KeyError => Raised
    end.

End Generator.

(* ================================================================== *)
(** ** Vocabulary of the statements *)

(** The effect the sanitizer is meant to have on its base string, stated
    independently of [Re.sub]: word characters are kept, and every maximal
    non-empty run of other characters becomes one underscore. *)
Inductive runs_replaced : pystr -> pystr -> Prop :=
| rr_end : runs_replaced [] []
| rr_keep c s t :
    is_word c = true -> runs_replaced s t ->
    runs_replaced (c :: s) (c :: t)
| rr_run run s t :
    run <> [] ->
    Forall (fun c => is_word c = false) run ->
    match s with c :: _ => is_word c = true | [] => True end ->
    runs_replaced s t ->
    runs_replaced (run ++ s) (ch "_" :: t).

(** [s] does not begin with whitespace. *)
Definition no_leading_space (s : pystr) : Prop :=
  match s with
  | c :: _ => is_space c = false
  | [] => True
  end.

(** Every whitespace character of [s] is a space that no whitespace
    follows. *)
Fixpoint collapsed (s : pystr) : Prop :=
  match s with
  | [] => True
  | a :: r =>
      (is_space a = true -> a = ch " " /\ no_leading_space r) /\ collapsed r
  end.

(** [k] is the target of some connection. *)
Definition incoming (connections : list connection) (k : pystr) : bool :=
  str_in k (List.map (fun c => snd (fst c)) connections).

(** A start candidate: an entry of the dictionary without incoming
    connection. *)
Definition candidate (connections : list connection)
    (e : pystr * node_info) : bool :=
  negb (incoming connections (fst e)).

(** The earliest node, in insertion order, that carries role [start] and has
    no incoming connection. *)
Definition earliest_start_role (nodes : dict node_info)
    (connections : list connection) : option pystr :=
  match find (fun e => NodeType.eqb (type (snd e)) NodeType.start
                       && negb (incoming connections (fst e))) nodes with
  | Some (k, _) => Some k
  | None => None
  end.

(** Both endpoints of a connection are keys of the node dictionary. *)
Definition resolved (nodes : dict node_info) (c : connection) : Prop :=
  In (fst (fst c)) (keys nodes) /\ In (snd (fst c)) (keys nodes).

(** A table of named character references with no entry. *)
Definition no_entities : pystr -> option pystr := fun _ => None.

(** A board with a question, one outcome, a connector between them and a
    connector to an item that is not on the board. *)
Definition dangling_connector : RawConnector :=
  {| startItem := Some {| ref_id := Some (str "1") |};
     endItem := Some {| ref_id := Some (str "9") |};
     captions := [ {| caption_content := Some (str "No") |} ] |}.

Definition board_with_dangling_connector : BoardData :=
  {| items :=
       [ {| item_id := Some (str "1");
            item_type := Some (str "shape");
            item_data := Some {| content := Some (str "<p>Is X true?</p>");
                                 shape := Some (str "rhombus") |} |};
         {| item_id := Some (str "2");
            item_type := Some (str "shape");
            item_data := Some {| content := None;
                                 shape := Some (str "round_rectangle") |} |} ];
     connectors :=
       [ {| startItem := Some {| ref_id := Some (str "1") |};
            endItem := Some {| ref_id := Some (str "2") |};
            captions := [ {| caption_content := Some (str "<p>Yes</p>") |} ] |};
         dangling_connector ] |}.

(* ================================================================== *)
(** ** The first extractor: [miro_extractor.py] *)

Module MiroExtractor.

(** [text.split()]: the maximal runs of characters that are not whitespace. *)
Fixpoint split (s : pystr) : list pystr :=
  match s with
  | [] => []
  | c :: r =>
      if is_space c then split r
      else
        match r with
        | [] => [[c]]
        | d :: _ =>
            if is_space d then [c] :: split r
            else
              match split r with
              | w :: ws => (c :: w) :: ws
              | [] => [[c]]
              end
        end
  end.

(** [MiroDecisionTreeExtractor._clean_text] *)
Definition _clean_text (text : pystr) : pystr :=
  let t1 := Re.sub any_tag text in
  let t2 := join (str " ") (split t1) in
  strip t2.

(** An element of [node_data['options']]. *)
Record tree_option := {
  label : pystr;
  next : pystr
}.

(** A value of [decision_tree['nodes']]. *)
Record tree_node := {
  type : pystr;
  text : pystr;
  options : list tree_option
}.

(** The part of [decision_tree] that [generate_mermaid] reads. *)
Record decision_tree := {
  nodes : dict tree_node
}.

(** [str(n)] for a natural number. *)
Definition decimal (n : nat) : pystr :=
  List.map N_of_ascii
    (list_ascii_of_string (NilEmpty.string_of_uint (Nat.to_uint n))).

(** The loop over [enumerate(decision_tree['nodes'].keys())], counting
    from [i]. *)
Fixpoint assign_ids (id_mapping : dict pystr) (i : nat) (node_ids : list pystr)
    : dict pystr :=
  match node_ids with
  | [] => id_mapping
  | node_id :: rest =>
      assign_ids (set id_mapping node_id (str "node" ++ decimal (i + 1)))
        (S i) rest
  end.

(** One iteration of the loop "Add node definitions". *)
Definition node_line (id_mapping : dict pystr) (node_id : pystr)
    (node_data : tree_node) : outcome pystr :=
  mermaid_id <- subscript id_mapping node_id ;;
  let (shape_start, shape_end) :=
    if PyStr.eqb (type node_data) (str "start") then (str "([", str "])")
    else if PyStr.eqb (type node_data) (str "question") then (str "{", str "}")
    else (str "[", str "]") in
  let clean_text :=
    strip (replace newline (str " ") (replace dquote (str "'") (text node_data))) in
  let clean_text :=
    if Nat.ltb 50 (length clean_text) then firstn 47 clean_text ++ str "..."
    else clean_text in
  Ok (str "    " ++ mermaid_id ++ shape_start ++ [dquote] ++ clean_text
        ++ [dquote] ++ shape_end).

Fixpoint node_lines (id_mapping : dict pystr) (l : dict tree_node)
    : outcome (list pystr) :=
  match l with
  | [] => Ok []
  | (node_id, node_data) :: rest =>
      line <- node_line id_mapping node_id node_data ;;
      lines <- node_lines id_mapping rest ;;
      Ok (line :: lines)
  end.

(** One iteration of the inner loop of "Add connections". *)
Definition option_line (id_mapping : dict pystr) (mermaid_from : pystr)
    (option : tree_option) : list pystr :=
  match get id_mapping (next option) with
  | Some mermaid_to =>
      if nonempty mermaid_to then
        let label := strip (replace dquote (str "'") (label option)) in
        if nonempty label then
          [str "    " ++ mermaid_from ++ str " -->|" ++ [dquote] ++ label
             ++ [dquote] ++ str "| " ++ mermaid_to]
        else
          [str "    " ++ mermaid_from ++ str " --> " ++ mermaid_to]
      else []
  | None => []
  end.

Fixpoint connection_lines (id_mapping : dict pystr) (l : dict tree_node)
    : outcome (list pystr) :=
  match l with
  | [] => Ok []
  | (node_id, node_data) :: rest =>
      mermaid_from <- subscript id_mapping node_id ;;
      lines <- connection_lines id_mapping rest ;;
      Ok (flat_map (option_line id_mapping mermaid_from) (options node_data)
            ++ lines)
  end.

(** [MiroDecisionTreeExtractor.generate_mermaid] *)
Definition generate_mermaid (tree : decision_tree) : outcome pystr :=
  let id_mapping := assign_ids [] 0 (keys (nodes tree)) in
  declarations <- node_lines id_mapping (nodes tree) ;;
  connections <- connection_lines id_mapping (nodes tree) ;;
  Ok (join [newline]
        ([str "flowchart TD"] ++ declarations ++ [[]] ++ connections)).

End MiroExtractor.

(* ================================================================== *)
(** ** The plain converter: [GPT_raw_to_mermaid.py] *)

(** The script has its own [_html_to_text] and [sanitize_id]; both are,
    statement for statement, the methods of the generator, and the
    definitions above stand for them. *)

Module GptRawToMermaid.

(** The value of the key ["data"] of an item, as this script reads it. *)
Record item_data := {
  content : option pystr;
  html : option pystr
}.

(** An element of [data["items"]], as this script reads it.  [data] is
    [None] for an item whose key ["data"] is absent or [null]: this script
    reads it with [item.get("data", {}) or {}]. *)
Record item := {
  id : option pystr;
  type : option pystr;
  data : option item_data
}.

(** [NODE_TYPES_INCLUDE] *)
Definition NODE_TYPES_INCLUDE : list pystr :=
  [str "shape"; str "sticky_note"; str "text"; str "doc_format"].

(** [x or y] on optional strings: the first that is neither absent nor
    empty. *)
Definition or_else (x : option pystr) (y : pystr) : pystr :=
  match x with
  | Some s => if nonempty s then s else y
  | None => y
  end.

Section Converter.

(** The named character references known to [html.unescape]. *)
Variable html5 : pystr -> option pystr.

(** The label the item loop computes for an item of type [t]. *)
Definition item_label (t : pystr) (it : item) : pystr :=
  let raw_content :=
    match data it with
    | Some data_block =>
        or_else (content data_block) (or_else (html data_block) [])
    | None => []
    end in
  let label := _html_to_text html5 raw_content in
  let label := if nonempty label then label else t in
  if Nat.ltb 80 (length label) then firstn 77 label ++ str "..." else label.

(** One iteration of the item loop. *)
Definition add_item (nodes : dict pystr) (it : item) : dict pystr :=
  match id it with
  | Some item_id =>
      if negb (nonempty item_id) then nodes
      else
        match type it with
        | Some t =>
            if negb (str_in t NODE_TYPES_INCLUDE) then nodes
            else set nodes item_id (item_label t it)
        | None => nodes
        end
  | None => nodes
  end.

(** [extract_nodes_and_edges]; its connector loop is, statement for
    statement, the one of [extract_nodes_and_connections]. *)
Definition extract_nodes_and_edges (items : list item)
    (connectors : list RawConnector) : dict pystr * list connection :=
  (fold_left add_item items [],
   flat_map (fun conn => match connection_of html5 conn with
                         | Some c => [c]
                         | None => []
                         end) connectors).

End Converter.

(** The exceptions [write_mermaid] can raise on the way: the [KeyError] of
    a subscript and the [UnicodeEncodeError] of a write under utf-8. *)
Inductive exception : Type :=
| KeyErrorRaised
| UnicodeEncodeErrorRaised.

(** A computation inside [with open(out_path, "w", encoding="utf-8") as f]:
    from the text written to [f] so far to a value or an exception, and the
    text written to [f] after it. *)
Definition writing (A : Type) : Type := pystr -> (A + exception) * pystr.

Definition ret {A} (a : A) : writing A := fun file => (inl a, file).

Definition and_then {A B} (m : writing A) (k : A -> writing B) : writing B :=
  fun file =>
    match m file with
    | (inl a, file') => k a file'
    | (inr e, file') => (inr e, file')
    end.

(** [f.write(s)]: the string is encoded before any of it is taken. *)
Definition f_write (s : pystr) : writing unit :=
  fun file =>
    if has_surrogate s then (inr UnicodeEncodeErrorRaised, file)
    else (inl tt, file ++ s).

(** [id_map[k]] *)
Definition lookup (id_map : dict pystr) (k : pystr) : writing pystr :=
  fun file =>
    match get id_map k with
    | Some v => (inl v, file)
    | None => (inr KeyErrorRaised, file)
    end.

(** The loop over [nodes.items()]. *)
Fixpoint write_nodes (id_map : dict pystr) (l : dict pystr) : writing unit :=
  match l with
  | [] => ret tt
  | (orig_id, label) :: rest =>
      let safe_label :=
        replace (ch ">") (str "&gt;") (replace (ch "<") (str "&lt;") label) in
      and_then (lookup id_map orig_id) (fun mermaid_id =>
      and_then (f_write (str "    " ++ mermaid_id ++ str "[" ++ safe_label
                           ++ str "]" ++ [newline])) (fun _ =>
      write_nodes id_map rest))
  end.

(** The loop over [edges]. *)
Fixpoint write_edges (id_map : dict pystr) (edges : list connection)
    : writing unit :=
  match edges with
  | [] => ret tt
  | (src, dst, elabel) :: rest =>
      if negb (mem src id_map) || negb (mem dst id_map) then
        write_edges id_map rest
      else if nonempty elabel then
        and_then (lookup id_map src) (fun s =>
        and_then (lookup id_map dst) (fun d =>
        and_then (f_write (str "    " ++ s ++ str " -->|" ++ elabel
                             ++ str "| " ++ d ++ [newline])) (fun _ =>
        write_edges id_map rest)))
      else
        and_then (lookup id_map src) (fun s =>
        and_then (lookup id_map dst) (fun d =>
        and_then (f_write (str "    " ++ s ++ str " --> " ++ d
                             ++ [newline])) (fun _ =>
        write_edges id_map rest)))
  end.

(** [write_mermaid]: the returned [id_map], or the exception raised, and the
    text written to [out_path], which starts empty. *)
Definition write_mermaid (nodes : dict pystr) (edges : list connection)
    : (dict pystr + exception) * pystr :=
  let id_map :=
    fold_left (fun m orig => set m orig (sanitize_id orig)) (keys nodes) [] in
  and_then (f_write (str "flowchart TD" ++ [newline])) (fun _ =>
  and_then (write_nodes id_map nodes) (fun _ =>
  and_then (write_edges id_map edges) (fun _ =>
  ret id_map))) [].

End GptRawToMermaid.

(* ================================================================== *)
(** ** Vocabulary of the further statements *)

(** [s] does not end with whitespace. *)
Definition no_trailing_space (s : pystr) : Prop := no_leading_space (rev s).

(** A character that would end or break a quoted label of the diagram. *)
Definition breaks_label (c : char) : bool :=
  char_eqb c dquote || char_eqb c (ch "<") || char_eqb c (ch ">")
  || is_bracket c.

(** The shape each role is drawn with. *)
Definition shape_of_type (t : NodeType.t) : MermaidShape.t :=
  match t with
  | NodeType.question => MermaidShape.diamond
  | NodeType.start | NodeType.conclusion => MermaidShape.stadium
  | _ => MermaidShape.rectangle
  end.

(** The item types the generator turns into nodes. *)
Definition supported_type (ty : pystr) : bool :=
  str_in ty [str "shape"; str "sticky_note"; str "text"].

(** The declaration line of a node of the generator. *)
Definition node_declaration (e : pystr * node_info) : pystr :=
  str "    " ++ sanitize_id (fst e)
    ++ fst (get_mermaid_shape (snd e) (text (snd e)))
    ++ snd (get_mermaid_shape (snd e) (text (snd e))).

(** The line of a connection of the generator. *)
Definition edge_declaration (c : connection) : pystr :=
  let '(start_id, end_id, label) := c in
  if nonempty label then
    str "    " ++ sanitize_id start_id ++ str " -->|" ++ [dquote]
      ++ edge_label label ++ [dquote] ++ str "| " ++ sanitize_id end_id
  else
    str "    " ++ sanitize_id start_id ++ str " --> " ++ sanitize_id end_id.

(** Both endpoints of a connection are keys of the dictionary. *)
Definition resolvedb {V} (d : dict V) (c : connection) : bool :=
  mem (fst (fst c)) d && mem (snd (fst c)) d.

(** No [<] of [s] opens a tag: each is at the end, or directly before a
    [>], or has no [>] after it. *)
Fixpoint tagless (s : pystr) : Prop :=
  match s with
  | [] => True
  | c :: r =>
      (c = ch "<" ->
       match r with
       | [] => True
       | d :: _ => d = ch ">" \/ ~ In (ch ">") r
       end)
      /\ tagless r
  end.

(** [t] is [s] with some whitespace characters removed and some replaced
    by a space. *)
Inductive whitespace_edit : pystr -> pystr -> Prop :=
| we_nil : whitespace_edit [] []
| we_keep c s t : whitespace_edit s t -> whitespace_edit (c :: s) (c :: t)
| we_drop c s t :
    is_space c = true -> whitespace_edit s t -> whitespace_edit (c :: s) t
| we_space c s t :
    is_space c = true -> whitespace_edit s t ->
    whitespace_edit (c :: s) (ch " " :: t).

(** The identifier the first extractor gives to the node at position [j]. *)
Definition numbered_id (j : nat) : pystr :=
  str "node" ++ MiroExtractor.decimal (j + 1).

(** The node and edge lines of the plain converter. *)
Definition plain_node_declaration (e : pystr * pystr) : pystr :=
  str "    " ++ sanitize_id (fst e) ++ str "["
    ++ replace (ch ">") (str "&gt;") (replace (ch "<") (str "&lt;") (snd e))
    ++ str "]".

Definition plain_edge_declaration (c : connection) : pystr :=
  let '(src, dst, elabel) := c in
  if nonempty elabel then
    str "    " ++ sanitize_id src ++ str " -->|" ++ elabel ++ str "| "
      ++ sanitize_id dst
  else
    str "    " ++ sanitize_id src ++ str " --> " ++ sanitize_id dst.

(** Writing the lines one after the other, each with its newline. *)
Fixpoint write_lines (lines : list pystr) : GptRawToMermaid.writing unit :=
  match lines with
  | [] => GptRawToMermaid.ret tt
  | line :: rest =>
      GptRawToMermaid.and_then (GptRawToMermaid.f_write (line ++ [newline]))
        (fun _ => write_lines rest)
  end.

(** The lines the plain converter has to write. *)
Definition plain_lines (nodes : dict pystr) (edges : list connection)
    : list pystr :=
  [str "flowchart TD"]
    ++ List.map plain_node_declaration nodes
    ++ List.map plain_edge_declaration (filter (resolvedb nodes) edges).

(** [s] holds no newline. *)
Definition unbroken (s : pystr) : Prop := Forall (fun c => c <> newline) s.

(* ================================================================== *)
(** ** Strings and substitution: basic facts *)

Lemma char_eqb_eq (a b : char) : char_eqb a b = true <-> a = b.
Proof. apply N.eqb_eq. Qed.

Lemma pystr_eqb_eq (s t : pystr) : PyStr.eqb s t = true <-> s = t.
Proof.
  revert t; induction s as [|a s IH]; intros [|b t]; simpl;
    try (split; [discriminate | discriminate]); try tauto.
  rewrite andb_true_iff, char_eqb_eq, IH.
  split; [intros [-> ->]; reflexivity | intros H; inversion H; auto].
Qed.

Lemma pystr_eqb_refl (s : pystr) : PyStr.eqb s s = true.
Proof. apply pystr_eqb_eq; reflexivity. Qed.

Lemma pystr_eqb_neq (s t : pystr) : PyStr.eqb s t = false <-> s <> t.
Proof.
  rewrite <- pystr_eqb_eq.
  destruct (PyStr.eqb s t); split; congruence.
Qed.

Lemma str_in_In (k : pystr) (l : list pystr) : str_in k l = true <-> In k l.
Proof.
  unfold str_in; rewrite existsb_exists; split.
  - intros [x [Hx He]]; apply pystr_eqb_eq in He; subst; assumption.
  - intros H; exists k; split; [assumption | apply pystr_eqb_refl].
Qed.

Lemma mem_false_notin (c : char) (s : pystr) :
  PyStr.mem c s = false -> ~ In c s.
Proof.
  unfold PyStr.mem; intros H Hin.
  assert (existsb (char_eqb c) s = true) as E
    by (apply existsb_exists; exists c; split; [assumption | apply N.eqb_refl]).
  congruence.
Qed.

(** The run that [span_len] measures satisfies [p], and what follows it does
    not begin with a [p] character. *)
Lemma span_len_run (p : char -> bool) (s : pystr) :
  Forall (fun c => p c = true) (firstn (span_len p s) s).
Proof.
  induction s as [|c r IH]; simpl; [constructor|].
  destruct (p c) eqn:E; simpl; [constructor; assumption | constructor].
Qed.

Lemma span_len_rest (p : char -> bool) (s : pystr) :
  match skipn (span_len p s) s with
  | c :: _ => p c = false
  | [] => True
  end.
Proof.
  induction s as [|c r IH]; simpl; [exact I|].
  destruct (p c) eqn:E; simpl; assumption.
Qed.

Lemma span_len_le (p : char -> bool) (s : pystr) : span_len p s <= length s.
Proof.
  induction s as [|c r IH]; simpl; [lia|].
  destruct (p c); simpl; lia.
Qed.

Module ReFacts.

Import Re.

(** Passing over [k] characters is resuming at [skipn k]. *)
Lemma sub_from_skipn (m : matcher) (s : pystr) :
  forall k, sub_from m k s = sub m (skipn k s).
Proof.
  induction s as [|c r IH]; intros [|k]; simpl; try reflexivity.
  apply IH.
Qed.

Lemma sub_nil (m : matcher) : sub m [] = [].
Proof. reflexivity. Qed.

(** At a match, the replacement is emitted and the scan resumes after it. *)
Lemma sub_match (m : matcher) (c : char) (r : pystr) (k : nat) (repl : pystr) :
  m (c :: r) = Some (S k, repl) ->
  sub m (c :: r) = repl ++ sub m (skipn k r).
Proof.
  intros H; unfold sub at 1; simpl; rewrite H.
  rewrite sub_from_skipn; reflexivity.
Qed.

(** Where the pattern does not match, the character is copied. *)
Lemma sub_nomatch (m : matcher) (c : char) (r : pystr) :
  m (c :: r) = None -> sub m (c :: r) = c :: sub m r.
Proof. intros H; unfold sub; simpl; rewrite H; reflexivity. Qed.

(** A pattern that matches at no character of [s] leaves [s] as it is. *)
Lemma sub_unchanged (m : matcher) (s : pystr) :
  (forall c r, In c s -> m (c :: r) = None) -> sub m s = s.
Proof.
  induction s as [|c r IH]; intros H; [reflexivity|].
  rewrite sub_nomatch by (apply H; left; reflexivity).
  rewrite IH; [reflexivity|].
  intros c' r' Hin; apply H; right; assumption.
Qed.

(** Induction on the scan: a property of all strings follows when it
    holds for the empty string and passes from any proper suffix. *)
Lemma suffix_induction (P : pystr -> Prop) :
  (forall s, (forall t, length t < length s -> P t) -> P s) ->
  forall s, P s.
Proof.
  intros H s.
  assert (forall n t, length t < n -> P t) as G.
  { induction n as [|n IHn]; intros t Ht; [lia|].
    apply H; intros u Hu; apply IHn; lia. }
  apply (G (S (length s))); lia.
Qed.

Lemma run_of_match (p : char -> bool) (repl : pystr) (c : char) (r : pystr) :
  p c = true -> run_of p repl (c :: r) = Some (S (span_len p r), repl).
Proof. intros H; unfold run_of; simpl; rewrite H; reflexivity. Qed.

Lemma run_of_nomatch (p : char -> bool) (repl : pystr) (c : char) (r : pystr) :
  p c = false -> run_of p repl (c :: r) = None.
Proof. intros H; unfold run_of; simpl; rewrite H; reflexivity. Qed.

Lemma skipn_span_shorter (p : char -> bool) (c : char) (r : pystr) :
  length (skipn (span_len p r) r) < length (c :: r).
Proof. rewrite length_skipn; simpl; lia. Qed.

End ReFacts.

(* ================================================================== *)
(** ** Identifier sanitizer: properties *)

Section Sanitizer.

Import ReFacts.

Lemma letter_is_word (c : char) :
  is_letter_or_underscore c = true -> is_word c = true.
Proof. unfold is_word; intros ->; apply orb_true_r. Qed.

Lemma problematic_run_word (c : char) (r : pystr) :
  is_word c = true -> problematic_run (c :: r) = None.
Proof.
  intros H; apply run_of_nomatch; rewrite H; reflexivity.
Qed.

Lemma problematic_run_other (c : char) (r : pystr) :
  is_word c = false ->
  problematic_run (c :: r)
  = Some (S (span_len (fun x => negb (is_word x)) r), str "_").
Proof.
  intros H; apply run_of_match; rewrite H; reflexivity.
Qed.

(** The substitution does to every string what [runs_replaced] says. *)
Lemma sub_runs_replaced (s : pystr) :
  runs_replaced s (Re.sub problematic_run s).
Proof.
  pattern s; apply suffix_induction; clear s.
  intros [|c r] IH; [constructor|].
  destruct (is_word c) eqn:E.
  - rewrite sub_nomatch by (apply problematic_run_word; assumption).
    apply rr_keep; [assumption | apply IH; simpl; lia].
  - rewrite (sub_match _ _ _ _ _ (problematic_run_other c r E)).
    set (p := fun x => negb (is_word x)).
    set (k := span_len p r).
    rewrite <- (firstn_skipn k r) at 1.
    change (c :: firstn k r ++ skipn k r)
      with ((c :: firstn k r) ++ skipn k r).
    apply rr_run.
    + discriminate.
    + constructor; [assumption|].
      eapply Forall_impl; [|apply span_len_run].
      intros a Ha; simpl in Ha; apply negb_true_iff in Ha; exact Ha.
    + pose proof (span_len_rest p r) as R; fold k in R.
      destruct (skipn k r) as [|a u]; [exact I|].
      unfold p in R; apply negb_false_iff in R; exact R.
    + apply IH; apply skipn_span_shorter.
Qed.

Lemma runs_replaced_words (s t : pystr) :
  runs_replaced s t -> Forall (fun c => is_word c = true) t.
Proof.
  induction 1; constructor; try assumption; reflexivity.
Qed.

(** A string of word characters has no run to replace. *)
Lemma sub_words_unchanged (s : pystr) :
  Forall (fun c => is_word c = true) s -> Re.sub problematic_run s = s.
Proof.
  intros H; apply sub_unchanged; intros c r Hin.
  apply problematic_run_word.
  rewrite Forall_forall in H; apply H; assumption.
Qed.

Lemma sanitize_id_words (x : pystr) :
  Forall (fun c => is_word c = true) x ->
  sanitize_id x
  = if starts_with_letter_or_underscore x then x else str "N" ++ x.
Proof.
  intros H; unfold sanitize_id.
  apply sub_words_unchanged.
  destruct (starts_with_letter_or_underscore x); [assumption|].
  constructor; [reflexivity | assumption].
Qed.

End Sanitizer.

(** C8: for every input string the sanitized identifier starts with a letter
    or an underscore and consists of letters, digits and underscores only;
    it is obtained from the base string - the input itself when it starts
    with a letter or an underscore, the input prefixed with the letter N
    otherwise - by replacing every run of one or more other characters with
    a single underscore. *)
Theorem sanitize_id_safe (raw_id : pystr) :
  starts_with_letter_or_underscore (sanitize_id raw_id) = true
  /\ Forall (fun c => is_word c = true) (sanitize_id raw_id)
  /\ runs_replaced
       (if starts_with_letter_or_underscore raw_id then raw_id
        else str "N" ++ raw_id)
       (sanitize_id raw_id).
Proof.
  pose proof (sub_runs_replaced
                (if starts_with_letter_or_underscore raw_id then raw_id
                 else str "N" ++ raw_id)) as R.
  fold (sanitize_id raw_id) in R.
  split; [|split; [eapply runs_replaced_words; exact R | exact R]].
  unfold sanitize_id.
  destruct (starts_with_letter_or_underscore raw_id) eqn:E.
  - destruct raw_id as [|c r]; [discriminate|]; simpl in E.
    rewrite ReFacts.sub_nomatch
      by (apply problematic_run_word, letter_is_word; assumption).
    exact E.
  - reflexivity.
Qed.

(** C5, as the code has it: the sanitizer is a function of its argument, and
    two distinct identifiers that consist of letters, digits and underscores
    only, and that both start with a letter or an underscore or both do not,
    have distinct sanitized forms. *)
Theorem sanitize_id_injective_on_words (x y : pystr) :
  Forall (fun c => is_word c = true) x ->
  Forall (fun c => is_word c = true) y ->
  starts_with_letter_or_underscore x = starts_with_letter_or_underscore y ->
  x <> y ->
  sanitize_id x <> sanitize_id y.
Proof.
  intros Hx Hy Hs Hne.
  rewrite (sanitize_id_words x Hx), (sanitize_id_words y Hy), <- Hs.
  destruct (starts_with_letter_or_underscore x); [assumption|].
  intros H; inversion H; contradiction.
Qed.

(** C5 does not hold as stated: the numeric identifier [1] and the
    identifier [N1] are distinct and have the same sanitized form, and so do
    [a-b] and [a b]. *)
Lemma sanitize_id_collision :
  ~ (forall x y : pystr, x <> y -> sanitize_id x <> sanitize_id y).
Proof.
  intros H.
  apply (H (str "1") (str "N1")); [discriminate | reflexivity].
Qed.

Lemma sanitize_id_injective_on_words_witness :
  sanitize_id (str "3458764636475175262")
  <> sanitize_id (str "3458764635302888442").
Proof.
  apply (sanitize_id_injective_on_words
           (str "3458764636475175262") (str "3458764635302888442")).
  - repeat constructor.
  - repeat constructor.
  - reflexivity.
  - discriminate.
Defined.

(* ================================================================== *)
(** ** Start-node resolver: properties *)

Section Resolver.

Variable connections : list connection.

Lemma find_start_node_unfold (nodes : dict node_info) :
  find_start_node nodes connections
  = match find (fun e => looks_like_start (snd e)) (filter (candidate connections) nodes) with
    | Some (node_id, _) => Some node_id
    | None =>
        match filter (candidate connections) nodes with
        | (node_id, _) :: _ => Some node_id
        | [] => match keys nodes with
                | k :: _ => Some k
                | [] => None
                end
        end
    end.
Proof. reflexivity. Qed.

Lemma entry_key (k : pystr) (info : node_info) (d : dict node_info) :
  In (k, info) d -> In k (keys d).
Proof. intros H; apply (in_map fst) in H; exact H. Qed.

(** Whatever the resolver returns is a key of the dictionary. *)
Lemma find_start_node_key (nodes : dict node_info) (k : pystr) :
  find_start_node nodes connections = Some k -> In k (keys nodes).
Proof.
  rewrite find_start_node_unfold.
  destruct (find _ (filter (candidate connections) nodes)) as [[k' i]|] eqn:F.
  - intros H; inversion H; subst k'.
    apply find_some in F; destruct F as [F _].
    apply filter_In in F; destruct F as [F _].
    eapply entry_key; exact F.
  - destruct (filter (candidate connections) nodes) as [|[k' i] r] eqn:C.
    + destruct (keys nodes) as [|k0 ks] eqn:K; [discriminate|].
      intros H; inversion H; subst; left; reflexivity.
    + intros H; inversion H; subst k'.
      assert (In (k, i) (filter (candidate connections) nodes)) as G
        by (rewrite C; left; reflexivity).
      apply filter_In in G; destruct G as [G _].
      eapply entry_key; exact G.
Qed.

(** On a dictionary with an entry the resolver returns an identifier. *)
Lemma find_start_node_some (nodes : dict node_info) :
  nodes <> [] -> exists k, find_start_node nodes connections = Some k.
Proof.
  intros Hne; rewrite find_start_node_unfold.
  destruct (find _ (filter (candidate connections) nodes)) as [[k' i]|]; [eauto|].
  destruct (filter (candidate connections) nodes) as [|[k' i] r]; [|eauto].
  destruct nodes as [|[k0 i0] ns]; [contradiction|].
  simpl; eauto.
Qed.

(** The scan for a preferred candidate stops at the first candidate that
    looks like a start node. *)
Lemma find_start_node_first (nodes before after : dict node_info)
    (k : pystr) (info : node_info) :
  nodes = before ++ (k, info) :: after ->
  candidate connections (k, info) = true ->
  looks_like_start info = true ->
  (forall e, In e before ->
             candidate connections e = false \/ looks_like_start (snd e) = false) ->
  find_start_node nodes connections = Some k.
Proof.
  intros -> Hc Hl Hb.
  rewrite find_start_node_unfold, filter_app.
  simpl filter; rewrite Hc.
  assert (forall l,
             (forall e, In e l ->
                        candidate connections e = false \/ looks_like_start (snd e) = false) ->
             forall rest,
               find (fun e => looks_like_start (snd e))
                 (filter (candidate connections) l ++ (k, info) :: rest)
               = Some (k, info)) as G.
  { induction l as [|e l IH]; intros Hl' rest; simpl.
    - rewrite Hl; reflexivity.
    - destruct (Hl' e (or_introl eq_refl)) as [E|E].
      + rewrite E; apply IH; intros e' He'; apply Hl'; right; assumption.
      + destruct (candidate connections e); simpl; [rewrite E|];
          apply IH; intros e' He'; apply Hl'; right; assumption. }
  rewrite (G before Hb); reflexivity.
Qed.

End Resolver.

(** C1: on the empty node dictionary the resolver returns null; on any other
    it returns one identifier, and that identifier is a key of the
    dictionary. *)
Theorem find_start_node_total (nodes : dict node_info)
    (connections : list connection) :
  match nodes with
  | [] => find_start_node nodes connections = None
  | _ :: _ =>
      exists k, find_start_node nodes connections = Some k
                /\ In k (keys nodes)
  end.
Proof.
  destruct nodes as [|e ns] eqn:E; [reflexivity|].
  rewrite <- E.
  destruct (find_start_node_some connections nodes) as [k Hk];
    [rewrite E; discriminate|].
  exists k; split; [exact Hk | apply (find_start_node_key _ _ _ Hk)].
Qed.

(** C2, as the code has it: the resolver returns the earliest node, in
    insertion order, that has no incoming connection and either carries role
    start or has a label containing "start" in any letter case.  A node of
    role start without incoming connection is therefore chosen exactly when
    no earlier node without incoming connection has such a label or role. *)
Theorem find_start_node_prefers_start (nodes before after : dict node_info)
    (connections : list connection) (k : pystr) (info : node_info) :
  nodes = before ++ (k, info) :: after ->
  incoming connections k = false ->
  type info = NodeType.start
  \/ contains (str "start") (lower (text info)) = true ->
  (forall e, In e before ->
             incoming connections (fst e) = true
             \/ looks_like_start (snd e) = false) ->
  find_start_node nodes connections = Some k.
Proof.
  intros Hn Hi Hs Hb.
  apply (find_start_node_first connections nodes before after k info Hn).
  - unfold candidate; simpl; rewrite Hi; reflexivity.
  - unfold looks_like_start; destruct Hs as [-> | ->];
      [reflexivity | apply orb_true_r].
  - intros e He; destruct (Hb e He) as [H|H]; [left|right; exact H].
    unfold candidate; rewrite H; reflexivity.
Qed.

(** C2 does not hold as stated: a process node labelled "Restart" that
    precedes the node of role start, neither with an incoming connection, is
    the one the resolver returns. *)
Lemma find_start_node_label_before_role :
  ~ (forall (nodes : dict node_info) (connections : list connection)
            (k : pystr),
        earliest_start_role nodes connections = Some k ->
        find_start_node nodes connections = Some k).
Proof.
  intros H.
  specialize
    (H [ (str "1", {| text := str "Restart";
                      mermaid_shape := MermaidShape.rectangle;
                      type := NodeType.process |});
         (str "3458764635301875090",
          {| text := str "Start";
             mermaid_shape := MermaidShape.stadium;
             type := NodeType.start |}) ]
       [] (str "3458764635301875090") eq_refl).
  discriminate H.
Qed.

Lemma find_start_node_prefers_start_witness :
  find_start_node
    [ (str "7", {| text := str "Is X true?";
                   mermaid_shape := MermaidShape.diamond;
                   type := NodeType.question |});
      (str "3458764635301875090",
       {| text := str "Start";
          mermaid_shape := MermaidShape.stadium;
          type := NodeType.start |}) ]
    [ (str "3458764635301875090", str "7", str "") ]
  = Some (str "3458764635301875090").
Proof.
  apply (find_start_node_prefers_start _
           [ (str "7", {| text := str "Is X true?";
                          mermaid_shape := MermaidShape.diamond;
                          type := NodeType.question |}) ]
           [] _ _
           {| text := str "Start";
              mermaid_shape := MermaidShape.stadium;
              type := NodeType.start |}).
  - reflexivity.
  - reflexivity.
  - left; reflexivity.
  - intros e [<- | []]; left; reflexivity.
Defined.

(* ================================================================== *)
(** ** Label truncation *)

Lemma truncate_length (n : nat) (s : pystr) :
  n + 3 < length s -> length (firstn n s ++ str "...") = n + 3.
Proof.
  intros H; rewrite length_app, length_firstn; simpl; lia.
Qed.

(** C9: a node label whose cleaned text is longer than 50 characters is
    serialized, between the quotes of the shape, as its first 47 characters
    followed by the ellipsis "...", 50 characters in all; an edge label
    whose cleaned text is longer than 30 characters is cut to its first 27
    characters followed by "...", 30 characters in all. *)
Theorem long_labels_truncated (info : node_info) (t label : pystr) :
  (50 < length (clean_node_text t) ->
   node_label t = firstn 47 (clean_node_text t) ++ str "..."
   /\ length (node_label t) = 50
   /\ exists shape_end,
       snd (get_mermaid_shape info t)
       = [dquote] ++ node_label t ++ [dquote] ++ shape_end)
  /\ (30 < length (clean_edge_text label) ->
      edge_label label = firstn 27 (clean_edge_text label) ++ str "..."
      /\ length (edge_label label) = 30).
Proof.
  split.
  - intros H.
    assert (node_label t = firstn 47 (clean_node_text t) ++ str "...") as E.
    { unfold node_label.
      destruct (Nat.ltb_spec 50 (length (clean_node_text t))); [reflexivity | lia]. }
    split; [exact E|]; split.
    + rewrite E; apply (truncate_length 47); exact H.
    + unfold get_mermaid_shape; destruct (mermaid_shape info);
        eexists; reflexivity.
  - intros H.
    assert (edge_label label = firstn 27 (clean_edge_text label) ++ str "...") as E.
    { unfold edge_label.
      destruct (Nat.ltb_spec 30 (length (clean_edge_text label))); [reflexivity | lia]. }
    split; [exact E|].
    rewrite E; apply (truncate_length 27); exact H.
Qed.

Lemma long_labels_truncated_witness :
  length (node_label
            (str "Does the study involve any identifiable patient data at all?")) = 50
  /\ length (edge_label (str "Yes, but only with prior written consent")) = 30.
Proof.
  destruct (long_labels_truncated
              {| text := []; mermaid_shape := MermaidShape.diamond;
                 type := NodeType.question |}
              (str "Does the study involve any identifiable patient data at all?")
              (str "Yes, but only with prior written consent")) as [Hn He].
  split.
  - apply Hn; vm_compute; lia.
  - apply He; vm_compute; lia.
Defined.

(* ================================================================== *)
(** ** Dictionaries: facts *)

Module DictFacts.

Lemma get_set_same {V} (d : dict V) (k : pystr) (v : V) :
  get (set d k v) k = Some v.
Proof.
  induction d as [|[k' v'] r IH]; simpl.
  - rewrite pystr_eqb_refl; reflexivity.
  - destruct (PyStr.eqb k' k) eqn:E; simpl; rewrite E; [reflexivity | exact IH].
Qed.

Lemma get_set_other {V} (d : dict V) (k k' : pystr) (v : V) :
  k <> k' -> get (set d k v) k' = get d k'.
Proof.
  intros Hne; pose proof (proj2 (pystr_eqb_neq k k') Hne) as Hf.
  induction d as [|[k0 v0] r IH]; simpl.
  - rewrite Hf; reflexivity.
  - destruct (PyStr.eqb k0 k) eqn:E; simpl.
    + apply pystr_eqb_eq in E; subst k0; rewrite Hf; reflexivity.
    + rewrite IH; reflexivity.
Qed.

Lemma mem_In {V} (d : dict V) (k : pystr) :
  mem k d = true <-> In k (keys d).
Proof.
  unfold mem; induction d as [|[k' v'] r IH]; simpl.
  - split; [discriminate | tauto].
  - destruct (PyStr.eqb k' k) eqn:E.
    + apply pystr_eqb_eq in E; subst; split; auto.
    + rewrite IH; apply pystr_eqb_neq in E; split; [auto | intros [?|?]; congruence || assumption].
Qed.

Lemma mem_set {V} (d : dict V) (k k' : pystr) (v : V) :
  mem k' (set d k v) = true <-> k = k' \/ mem k' d = true.
Proof.
  unfold mem.
  destruct (PyStr.eqb k k') eqn:E.
  - apply pystr_eqb_eq in E; subst k'; rewrite get_set_same; tauto.
  - apply pystr_eqb_neq in E; rewrite (get_set_other d k k' v E); tauto.
Qed.

Lemma subscript_mem {V} (d : dict V) (k : pystr) :
  mem k d = true -> exists v, subscript d k = Ok v.
Proof.
  unfold mem, subscript; destruct (get d k); [eauto | discriminate].
Qed.

(** The keys of the identifier map are the keys of the node dictionary. *)
Lemma mem_make_id_map (nodes : dict node_info) (k : pystr) :
  mem k (make_id_map nodes) = true <-> In k (keys nodes).
Proof.
  unfold make_id_map.
  assert (forall l m,
             mem k (fold_left (fun m orig_id => set m orig_id (sanitize_id orig_id)) l m)
             = true <-> mem k m = true \/ In k l) as G.
  { induction l as [|a l IH]; intros m; simpl; [tauto|].
    rewrite IH, mem_set; tauto. }
  rewrite G; unfold mem at 1; simpl; split; [intros [?|?]; [discriminate | assumption] | auto].
Qed.

End DictFacts.

(* ================================================================== *)
(** ** Item classification *)

Lemma add_item_classified (html5 : pystr -> option pystr)
    (nodes : dict node_info) (item : RawItem) (id ty : pystr) :
  item_id item = Some id ->
  item_type item = Some ty ->
  add_item html5 nodes item = nodes
  \/ exists info, classify html5 id ty item = Some info
                  /\ meaningful id info = true
                  /\ add_item html5 nodes item = set nodes id info.
Proof.
  intros Hid Hty; unfold add_item; rewrite Hid, Hty.
  destruct (negb (nonempty id)); [left; reflexivity|].
  destruct (negb (str_in ty _)); [left; reflexivity|].
  destruct (classify html5 id ty item) as [info|]; [|left; reflexivity].
  destruct (meaningful id info) eqn:M; [|left; reflexivity].
  right; exists info; auto.
Qed.

Lemma add_item_shape (html5 : pystr -> option pystr)
    (nodes : dict node_info) (item : RawItem) (id : pystr) (info : node_info) :
  item_id item = Some id ->
  nonempty id = true ->
  item_type item = Some (str "shape") ->
  classify html5 id (str "shape") item = Some info ->
  add_item html5 nodes item
  = if meaningful id info then set nodes id info else nodes.
Proof.
  intros Hid Hne Hty Hc; unfold add_item.
  rewrite Hid, Hne, Hty, Hc; reflexivity.
Qed.

(** C6, as the code has it: a shape item of sub-kind rhombus with an
    identifier is classified as a question whose label is the normalized
    content; the node enters the dictionary when that label is neither empty
    nor "shape", or when the identifier is a key of the conclusion table,
    and otherwise the item leaves the dictionary as it was. *)
Theorem rhombus_is_question (html5 : pystr -> option pystr)
    (nodes : dict node_info) (item : RawItem) (id : pystr) (d : RawData) :
  item_id item = Some id ->
  nonempty id = true ->
  item_type item = Some (str "shape") ->
  item_data item = Some d ->
  shape d = Some (str "rhombus") ->
  let label := content_text html5 (content d) in
  let info := {| text := label;
                 mermaid_shape := MermaidShape.diamond;
                 type := NodeType.question |} in
  classify html5 id (str "shape") item = Some info
  /\ (if (nonempty label && negb (PyStr.eqb label (str "shape")))
         || mem id conclusion_text_map
      then get (add_item html5 nodes item) id = Some info
      else add_item html5 nodes item = nodes).
Proof.
  intros Hid Hne Hty Hd Hs label info.
  assert (classify html5 id (str "shape") item = Some info) as Hc.
  { unfold classify; rewrite Hd, Hs.
    rewrite !pystr_eqb_refl; reflexivity. }
  split; [exact Hc|].
  rewrite (add_item_shape html5 nodes item id info Hid Hne Hty Hc).
  unfold meaningful; simpl text; fold label.
  destruct ((nonempty label && negb (PyStr.eqb label (str "shape")))
            || mem id conclusion_text_map);
    [apply DictFacts.get_set_same | reflexivity].
Qed.

(** C6 does not hold as stated: a rhombus whose content is empty, under an
    identifier that is not in the conclusion table, produces no node. *)
Lemma rhombus_without_content_dropped :
  ~ (forall (html5 : pystr -> option pystr) (nodes : dict node_info)
            (item : RawItem) (id : pystr) (d : RawData),
        item_id item = Some id ->
        nonempty id = true ->
        item_type item = Some (str "shape") ->
        item_data item = Some d ->
        shape d = Some (str "rhombus") ->
        exists info,
          get (add_item html5 nodes item) id = Some info
          /\ type info = NodeType.question
          /\ text info = content_text html5 (content d)).
Proof.
  intros H.
  destruct (H no_entities []
              {| item_id := Some (str "1");
                 item_type := Some (str "shape");
                 item_data := Some {| content := Some (str "<p></p>");
                                      shape := Some (str "rhombus") |} |}
              (str "1")
              {| content := Some (str "<p></p>");
                 shape := Some (str "rhombus") |}
              eq_refl eq_refl eq_refl eq_refl eq_refl) as [info [G _]].
  vm_compute in G; discriminate G.
Qed.

Lemma rhombus_is_question_witness :
  get (add_item no_entities []
         {| item_id := Some (str "1");
            item_type := Some (str "shape");
            item_data := Some {| content := Some (str "<p>Is X true?</p>");
                                 shape := Some (str "rhombus") |} |})
    (str "1")
  = Some {| text := str "Is X true?";
            mermaid_shape := MermaidShape.diamond;
            type := NodeType.question |}.
Proof.
  exact (proj2 (rhombus_is_question no_entities []
                  {| item_id := Some (str "1");
                     item_type := Some (str "shape");
                     item_data := Some {| content := Some (str "<p>Is X true?</p>");
                                          shape := Some (str "rhombus") |} |}
                  (str "1")
                  {| content := Some (str "<p>Is X true?</p>");
                     shape := Some (str "rhombus") |}
                  eq_refl eq_refl eq_refl eq_refl eq_refl)).
Defined.

(** C10: an item whose classified label is empty or is the string "shape",
    and whose identifier is not a key of the conclusion table, adds no node;
    so a sticky note or a text item whose normalized content is "shape"
    leaves the dictionary as it was. *)
Theorem empty_or_shape_label_excluded (html5 : pystr -> option pystr)
    (nodes : dict node_info) (item : RawItem) (id ty : pystr) :
  item_id item = Some id ->
  item_type item = Some ty ->
  mem id conclusion_text_map = false ->
  (forall info,
      classify html5 id ty item = Some info ->
      text info = [] \/ text info = str "shape" ->
      add_item html5 nodes item = nodes)
  /\ (forall d,
         ty = str "sticky_note" \/ ty = str "text" ->
         item_data item = Some d ->
         content_text html5 (content d) = str "shape" ->
         add_item html5 nodes item = nodes).
Proof.
  intros Hid Hty Hm.
  assert (forall info,
             classify html5 id ty item = Some info ->
             text info = [] \/ text info = str "shape" ->
             add_item html5 nodes item = nodes) as G.
  { intros info Hc Ht.
    destruct (add_item_classified html5 nodes item id ty Hid Hty)
      as [E | [info' [Hc' [M _]]]]; [exact E|].
    rewrite Hc in Hc'; inversion Hc'; subst info'.
    unfold meaningful in M; rewrite Hm, orb_false_r in M.
    destruct Ht as [Ht | Ht]; rewrite Ht in M; discriminate M. }
  split; [exact G|].
  intros d Hk Hd Hcontent.
  destruct Hk as [-> | ->].
  - apply (G {| type := NodeType.note;
                mermaid_shape := MermaidShape.rectangle;
                text := str "shape" |}); [|right; reflexivity].
    unfold classify; rewrite Hd, Hcontent; reflexivity.
  - apply (G {| type := NodeType.text;
                mermaid_shape := MermaidShape.rectangle;
                text := str "shape" |}); [|right; reflexivity].
    unfold classify; rewrite Hd, Hcontent; reflexivity.
Qed.

Lemma empty_or_shape_label_excluded_witness :
  add_item no_entities
    [ (str "1", {| text := str "Is X true?";
                   mermaid_shape := MermaidShape.diamond;
                   type := NodeType.question |}) ]
    {| item_id := Some (str "42");
       item_type := Some (str "sticky_note");
       item_data := Some {| content := Some (str "<p>shape</p>");
                            shape := None |} |}
  = [ (str "1", {| text := str "Is X true?";
                   mermaid_shape := MermaidShape.diamond;
                   type := NodeType.question |}) ].
Proof.
  refine (proj2 (empty_or_shape_label_excluded no_entities _
                   {| item_id := Some (str "42");
                      item_type := Some (str "sticky_note");
                      item_data := Some {| content := Some (str "<p>shape</p>");
                                           shape := None |} |}
                   (str "42") (str "sticky_note") eq_refl eq_refl eq_refl)
            {| content := Some (str "<p>shape</p>"); shape := None |}
            _ eq_refl _).
  - left; reflexivity.
  - vm_compute; reflexivity.
Defined.

(* ================================================================== *)
(** ** The empty graph *)

(** C7, as the code has it: when extraction yields no node - in particular
    on an input without items and connectors - the generator reports that no
    nodes were found and writes no document; the resolver returns null on
    the empty dictionary. *)
Theorem empty_graph_not_written (html5 : pystr -> option pystr)
    (data : BoardData) :
  fst (extract_nodes_and_connections html5 data) = [] ->
  generate_mermaid html5 data = NoNodesFound
  /\ find_start_node (fst (extract_nodes_and_connections html5 data))
       (snd (extract_nodes_and_connections html5 data)) = None.
Proof.
  intros H; unfold generate_mermaid.
  destruct (extract_nodes_and_connections html5 data) as [nodes connections].
  simpl in H; subst nodes; split; reflexivity.
Qed.

(** C7 does not hold as stated: on the empty input no document is
    written. *)
Lemma empty_input_writes_nothing :
  ~ (forall (html5 : pystr -> option pystr) (data : BoardData),
        fst (extract_nodes_and_connections html5 data) = [] ->
        exists mermaid_content,
          generate_mermaid html5 data = Written mermaid_content).
Proof.
  intros H.
  destruct (H no_entities {| items := []; connectors := [] |} eq_refl)
    as [doc G].
  discriminate G.
Qed.

Lemma empty_graph_not_written_witness :
  generate_mermaid no_entities {| items := []; connectors := [] |}
  = NoNodesFound.
Proof.
  exact (proj1 (empty_graph_not_written no_entities
                  {| items := []; connectors := [] |} eq_refl)).
Defined.

(* ================================================================== *)
(** ** Serialization: no dangling edge, no exception *)

Section Serializer.

Import DictFacts.

(** One connection yields no line when an endpoint is not in the identifier
    map, and one line when both are; it never raises. *)
Lemma edge_line_cases (id_map : dict pystr) (c : connection) :
  ((mem (fst (fst c)) id_map = false \/ mem (snd (fst c)) id_map = false)
   /\ edge_line id_map c = Ok [])
  \/ (mem (fst (fst c)) id_map = true /\ mem (snd (fst c)) id_map = true
      /\ exists line, edge_line id_map c = Ok [line]).
Proof.
  destruct c as [[s e] label]; simpl fst; simpl snd; unfold edge_line.
  destruct (mem s id_map) eqn:Hs; [|left; split; [left|]; reflexivity].
  destruct (mem e id_map) eqn:He; [|left; split; [right|]; reflexivity].
  right; split; [reflexivity|]; split; [reflexivity|].
  destruct (subscript_mem id_map s Hs) as [sm ->].
  destruct (subscript_mem id_map e He) as [em ->].
  simpl; destruct (nonempty label); eauto.
Qed.

Lemma edge_lines_sound (id_map : dict pystr) (connections : list connection) :
  exists lines,
    edge_lines id_map connections = Ok lines
    /\ forall line,
        In line lines ->
        exists c, In c connections
                  /\ mem (fst (fst c)) id_map = true
                  /\ mem (snd (fst c)) id_map = true
                  /\ edge_line id_map c = Ok [line].
Proof.
  induction connections as [|c cs [ls [E IH]]]; simpl.
  - exists []; split; [reflexivity | intros line []].
  - rewrite E.
    destruct (edge_line_cases id_map c) as [[_ H] | [Hs [He [l H]]]];
      rewrite H; simpl.
    + exists ls; split; [reflexivity|].
      intros line Hin; destruct (IH line Hin) as [c' [Hc' R]].
      exists c'; split; [right; assumption | exact R].
    + exists (l :: ls); split; [reflexivity|].
      intros line [<- | Hin].
      * exists c; split; [left; reflexivity | auto].
      * destruct (IH line Hin) as [c' [Hc' R]].
        exists c'; split; [right; assumption | exact R].
Qed.

Lemma node_line_total (id_map : dict pystr) (k : pystr) (info : node_info) :
  mem k id_map = true -> exists line, node_line id_map k info = Ok line.
Proof.
  intros H; unfold node_line.
  destruct (subscript_mem id_map k H) as [mid ->]; simpl.
  destruct (get_mermaid_shape info (text info)); eauto.
Qed.

Lemma other_lines_total (id_map : dict pystr) (start_node_id : option pystr)
    (nodes : dict node_info) :
  (forall k, In k (keys nodes) -> mem k id_map = true) ->
  exists lines, other_lines id_map start_node_id nodes = Ok lines.
Proof.
  induction nodes as [|[k info] r IH]; intros H; simpl; [eauto|].
  destruct IH as [ls E]; [intros k' Hk'; apply H; right; assumption|].
  rewrite E.
  destruct (match start_node_id with
            | Some sid => PyStr.eqb k sid
            | None => false
            end); [eauto|].
  destruct (node_line_total id_map k info) as [l ->];
    [apply H; left; reflexivity|].
  simpl; eauto.
Qed.

Lemma start_lines_total (nodes : dict node_info)
    (start_node_id : option pystr) :
  exists lines,
    start_lines nodes (make_id_map nodes) start_node_id = Ok lines.
Proof.
  unfold start_lines; destruct start_node_id as [sid|]; [|eauto].
  destruct (nonempty sid); simpl; [|eauto].
  destruct (mem sid nodes) eqn:M; [|eauto].
  destruct (subscript_mem nodes sid M) as [info ->]; simpl.
  destruct (node_line_total (make_id_map nodes) sid info) as [l ->];
    [apply mem_make_id_map, mem_In; exact M|].
  simpl; eauto.
Qed.

(** The lines of the document exist whatever the nodes and connections. *)
Lemma mermaid_lines_total (nodes : dict node_info)
    (connections : list connection) :
  exists first others edges,
    edge_lines (make_id_map nodes) connections = Ok edges
    /\ mermaid_lines nodes connections
       = Ok ([str "flowchart TD"] ++ first ++ others ++ [[]] ++ edges).
Proof.
  unfold mermaid_lines.
  destruct (start_lines_total nodes (find_start_node nodes connections))
    as [first ->].
  destruct (other_lines_total (make_id_map nodes)
              (find_start_node nodes connections) nodes) as [others ->];
    [intros k Hk; apply mem_make_id_map; exact Hk|].
  destruct (edge_lines_sound (make_id_map nodes) connections)
    as [edges [E _]].
  exists first, others, edges; rewrite E; split; reflexivity.
Qed.

End Serializer.

(** C3, as the code has it: the extraction returns a connection for every
    connector with two identifiers, resolved or not; the filter is in the
    generator.  Each edge line of a written document, the lines after the
    empty line, is the line of a connection whose start and end identifiers
    are both keys of the node dictionary; a connector with an endpoint that
    is not such a key stays in the extracted connections, yields no line,
    makes no subscript fail and does not change the node dictionary. *)
Theorem edges_between_nodes (html5 : pystr -> option pystr)
    (data : BoardData) :
  let nodes := fst (extract_nodes_and_connections html5 data) in
  let connections := snd (extract_nodes_and_connections html5 data) in
  let id_map := make_id_map nodes in
  (exists edges,
      edge_lines id_map connections = Ok edges
      /\ (forall line,
             In line edges ->
             exists c, In c connections /\ resolved nodes c
                       /\ edge_line id_map c = Ok [line])
      /\ (forall doc,
             generate_mermaid html5 data = Written doc ->
             exists first others,
               doc = join [newline]
                       ([str "flowchart TD"] ++ first ++ others
                          ++ [[]] ++ edges)))
  /\ (forall conn c,
         connection_of html5 conn = Some c ->
         ~ resolved nodes c ->
         In c (snd (extract_nodes_and_connections html5
                      {| items := items data;
                         connectors := conn :: connectors data |}))
         /\ edge_line id_map c = Ok []
         /\ fst (extract_nodes_and_connections html5
                   {| items := items data;
                      connectors := conn :: connectors data |}) = nodes).
Proof.
  intros nodes connections id_map; split.
  - destruct (mermaid_lines_total nodes connections)
      as [first [others [edges [E L]]]].
    exists edges; split; [exact E|]; split.
    + intros line Hin.
      destruct (edge_lines_sound id_map connections) as [edges' [E' S]].
      unfold id_map in E'; rewrite E in E'; inversion E'; subst edges'.
      destruct (S line Hin) as [c [Hc [Hs [He Hl]]]].
      exists c; split; [exact Hc|]; split; [|exact Hl].
      split; apply DictFacts.mem_make_id_map; assumption.
    + intros doc; unfold generate_mermaid.
      fold nodes connections in L.
      rewrite (surjective_pairing (extract_nodes_and_connections html5 data)).
      fold nodes connections.
      destruct nodes as [|e ns] eqn:N; [discriminate|].
      cbv beta iota.
      change (negb true) with false; cbv iota.
      rewrite L; cbv zeta.
      destruct (has_surrogate _); [discriminate|].
      intros H; exists first, others.
      apply (f_equal (fun r => match r with Written d => d | _ => [] end)) in H.
      symmetry; exact H.
  - intros conn c Hc Hr; split; [|split; [|reflexivity]].
    + unfold extract_nodes_and_connections; simpl snd; simpl connectors.
      simpl flat_map; rewrite Hc; left; reflexivity.
    + destruct (edge_line_cases id_map c) as [[_ H] | [Hs [He _]]]; [exact H|].
      exfalso; apply Hr; split; apply DictFacts.mem_make_id_map; assumption.
Qed.

(** C3 does not hold as stated: on the board whose second connector ends
    at an item that is not on the board, the extraction returns that
    connection among the edges of the graph. *)
Lemma extraction_keeps_dangling_connection :
  ~ (forall (html5 : pystr -> option pystr) (data : BoardData)
            (c : connection),
        In c (snd (extract_nodes_and_connections html5 data)) ->
        resolved (fst (extract_nodes_and_connections html5 data)) c).
Proof.
  intros H.
  assert (In (str "1", str "9", str "No")
            (snd (extract_nodes_and_connections no_entities
                    board_with_dangling_connector))) as G
    by (vm_compute; right; left; reflexivity).
  destruct (H no_entities board_with_dangling_connector _ G) as [_ E].
  vm_compute in E.
  destruct E as [E | [E | []]]; discriminate E.
Qed.

(* ================================================================== *)
(** ** Text normalizer: properties *)

Section Normalizer.

Import ReFacts.

(** Both tag patterns begin with [<]. *)
Lemma br_or_close_p_start (c : char) (r : pystr) :
  c <> ch "<" -> br_or_close_p (c :: r) = None.
Proof.
  intros H; unfold br_or_close_p.
  destruct r as [|b [|c' [|d r']]]; try reflexivity.
  destruct (char_eqb c (ch "<")) eqn:E; [|reflexivity].
  apply char_eqb_eq in E; contradiction.
Qed.

Lemma any_tag_start (c : char) (r : pystr) :
  c <> ch "<" -> any_tag (c :: r) = None.
Proof.
  intros H; unfold any_tag.
  destruct (char_eqb c (ch "<")) eqn:E; [|reflexivity].
  apply char_eqb_eq in E; contradiction.
Qed.

Lemma no_tags_unchanged (s : pystr) :
  PyStr.mem (ch "<") s = false ->
  Re.sub br_or_close_p s = s /\ Re.sub any_tag s = s.
Proof.
  intros H; apply mem_false_notin in H.
  split; apply sub_unchanged; intros c r Hin;
    [apply br_or_close_p_start | apply any_tag_start];
    intros ->; contradiction.
Qed.

(** [unescape] returns a string without [&] as it is. *)
Lemma unescape_plain (html5 : pystr -> option pystr) (s : pystr) :
  PyStr.mem (ch "&") s = false -> Html.unescape html5 s = s.
Proof. intros H; unfold Html.unescape; rewrite H; reflexivity. Qed.

Lemma whitespace_run_space (c : char) (r : pystr) :
  is_space c = true ->
  whitespace_run (c :: r) = Some (S (span_len is_space r), str " ").
Proof. apply run_of_match. Qed.

Lemma whitespace_run_other (c : char) (r : pystr) :
  is_space c = false -> whitespace_run (c :: r) = None.
Proof. apply run_of_nomatch. Qed.

Lemma span_len_no_leading (s : pystr) :
  no_leading_space s -> span_len is_space s = 0.
Proof.
  destruct s as [|c r]; simpl; [reflexivity | intros ->; reflexivity].
Qed.

Lemma sub_whitespace_no_leading (s : pystr) :
  no_leading_space s -> no_leading_space (Re.sub whitespace_run s).
Proof.
  destruct s as [|c r]; simpl; [trivial|]; intros H.
  rewrite sub_nomatch by (apply whitespace_run_other; exact H).
  exact H.
Qed.

(** After the substitution every whitespace run is one space. *)
Lemma sub_whitespace_collapsed (s : pystr) :
  collapsed (Re.sub whitespace_run s).
Proof.
  pattern s; apply suffix_induction; clear s.
  intros [|c r] IH; [exact I|].
  destruct (is_space c) eqn:E.
  - rewrite (sub_match _ _ _ _ _ (whitespace_run_space c r E)).
    simpl; split.
    + intros _; split; [reflexivity|].
      apply sub_whitespace_no_leading.
      pose proof (span_len_rest is_space r) as R.
      destruct (skipn (span_len is_space r) r); [exact I | exact R].
    + apply IH; apply skipn_span_shorter.
  - rewrite sub_nomatch by (apply whitespace_run_other; exact E).
    simpl; split; [intros H; congruence | apply IH; simpl; lia].
Qed.

(** A collapsed string has nothing left to substitute. *)
Lemma collapsed_unchanged (s : pystr) :
  collapsed s -> Re.sub whitespace_run s = s.
Proof.
  induction s as [|a r IH]; [reflexivity|].
  intros [H C]; destruct (is_space a) eqn:E.
  - destruct (H eq_refl) as [-> N].
    rewrite (sub_match _ _ _ _ _ (whitespace_run_space _ r E)).
    rewrite (span_len_no_leading r N); simpl skipn.
    rewrite (IH C); reflexivity.
  - rewrite sub_nomatch by (apply whitespace_run_other; exact E).
    rewrite (IH C); reflexivity.
Qed.

Lemma collapsed_suffix (a b : pystr) : collapsed (a ++ b) -> collapsed b.
Proof.
  induction a as [|x a IH]; simpl; [trivial | intros [_ H]; auto].
Qed.

Lemma collapsed_prefix (a b : pystr) : collapsed (a ++ b) -> collapsed a.
Proof.
  induction a as [|x a IH]; simpl; [trivial|].
  intros [H C]; split; [|auto].
  intros E; destruct (H E) as [-> N]; split; [reflexivity|].
  destruct a; [exact I | exact N].
Qed.

Lemma lstrip_suffix (s : pystr) : exists pre, s = pre ++ lstrip s.
Proof.
  induction s as [|c r [pre IH]]; simpl; [exists []; reflexivity|].
  destruct (is_space c).
  - exists (c :: pre); simpl; f_equal; exact IH.
  - exists []; reflexivity.
Qed.

Lemma rstrip_prefix (s : pystr) : exists suf, s = rstrip s ++ suf.
Proof.
  unfold rstrip; destruct (lstrip_suffix (rev s)) as [pre E].
  exists (rev pre).
  rewrite <- rev_app_distr, <- E, rev_involutive; reflexivity.
Qed.

Lemma lstrip_no_leading (s : pystr) : no_leading_space (lstrip s).
Proof.
  induction s as [|c r IH]; simpl; [exact I|].
  destruct (is_space c) eqn:E; [exact IH | exact E].
Qed.

Lemma lstrip_unchanged (s : pystr) : no_leading_space s -> lstrip s = s.
Proof.
  destruct s as [|c r]; simpl; [reflexivity | intros ->; reflexivity].
Qed.

Lemma strip_no_leading (s : pystr) : no_leading_space (strip s).
Proof.
  unfold strip; pose proof (lstrip_no_leading s) as N.
  destruct (rstrip_prefix (lstrip s)) as [suf E].
  destruct (rstrip (lstrip s)) as [|c t]; [exact I|].
  rewrite E in N; exact N.
Qed.

Lemma strip_strip (s : pystr) : strip (strip s) = strip s.
Proof.
  unfold strip at 1.
  rewrite (lstrip_unchanged (strip s) (strip_no_leading s)).
  unfold strip, rstrip.
  rewrite rev_involutive.
  rewrite (lstrip_unchanged _ (lstrip_no_leading (rev (lstrip s)))).
  reflexivity.
Qed.

Lemma collapsed_strip (s : pystr) : collapsed s -> collapsed (strip s).
Proof.
  intros C; unfold strip.
  destruct (lstrip_suffix s) as [pre E].
  destruct (rstrip_prefix (lstrip s)) as [suf F].
  rewrite E in C; apply collapsed_suffix in C.
  rewrite F in C; apply collapsed_prefix in C; exact C.
Qed.

(** The last step of the normalizer leaves its own results as they are. *)
Lemma whitespace_normal_form (s : pystr) :
  strip (Re.sub whitespace_run (strip (Re.sub whitespace_run s)))
  = strip (Re.sub whitespace_run s).
Proof.
  rewrite (collapsed_unchanged _
             (collapsed_strip _ (sub_whitespace_collapsed s))).
  apply strip_strip.
Qed.

(** A tag is removed with everything up to its closing [>]. *)
Lemma any_tag_removed (body rest : pystr) :
  body <> [] ->
  Forall (fun x => x <> ch ">") body ->
  Re.sub any_tag (ch "<" :: body ++ ch ">" :: rest) = Re.sub any_tag rest.
Proof.
  intros Hne Hb.
  assert (span_len (fun x => negb (char_eqb x (ch ">"))) (body ++ ch ">" :: rest)
          = length body) as L.
  { clear Hne; induction Hb as [|x l Hx _ IH]; [reflexivity|].
    change ((x :: l) ++ ch ">" :: rest) with (x :: (l ++ ch ">" :: rest)).
    cbn [span_len length].
    assert (char_eqb x (ch ">") = false) as Hf
      by (apply N.eqb_neq; exact Hx).
    rewrite Hf; cbn [negb]; f_equal; exact IH. }
  assert (skipn (length body) (body ++ ch ">" :: rest) = ch ">" :: rest) as K.
  { rewrite skipn_app, skipn_all, Nat.sub_diag; reflexivity. }
  assert (any_tag (ch "<" :: body ++ ch ">" :: rest)
          = Some (S (S (length body)), [])) as M.
  { unfold any_tag; change (char_eqb (ch "<") (ch "<")) with true.
    cbv beta iota zeta; rewrite L.
    destruct (length body) as [|n] eqn:Lb;
      [destruct body; [contradiction | discriminate Lb]|].
    rewrite K; reflexivity. }
  assert (skipn (S (length body)) (body ++ ch ">" :: rest) = rest) as K'.
  { clear; induction body as [|x l IH]; [reflexivity | exact IH]. }
  rewrite (sub_match _ _ _ _ _ M), K'; reflexivity.
Qed.

End Normalizer.

(** C4, as the code has it: normalizing a second time changes nothing
    whenever the normalized text contains neither [<] nor [&]. *)
Theorem html_to_text_idempotent_on_plain (html5 : pystr -> option pystr)
    (html : pystr) :
  PyStr.mem (ch "<") (_html_to_text html5 html) = false ->
  PyStr.mem (ch "&") (_html_to_text html5 html) = false ->
  _html_to_text html5 (_html_to_text html5 html) = _html_to_text html5 html.
Proof.
  intros Hlt Hamp.
  set (t := _html_to_text html5 html) in *.
  unfold _html_to_text at 1.
  destruct (negb (nonempty t)) eqn:E.
  - destruct t; [reflexivity | discriminate E].
  - destruct (no_tags_unchanged t Hlt) as [-> ->].
    rewrite (unescape_plain html5 t Hamp).
    unfold t, _html_to_text.
    destruct (negb (nonempty html)); [reflexivity|].
    apply whitespace_normal_form.
Qed.

(** C4 does not hold as stated: the character references of [<] and [>]
    are decoded by the first pass, and the second pass strips the tag they
    spell. *)
Lemma html_to_text_not_idempotent :
  ~ (forall (html5 : pystr -> option pystr) (html : pystr),
        _html_to_text html5 (_html_to_text html5 html)
        = _html_to_text html5 html).
Proof.
  intros H.
  specialize (H no_entities (str "&#60;b&#62;Start")).
  vm_compute in H; discriminate H.
Qed.

Lemma html_to_text_idempotent_on_plain_witness :
  _html_to_text no_entities
    (_html_to_text no_entities (str "<p>Is X   true?<br></p>"))
  = _html_to_text no_entities (str "<p>Is X   true?<br></p>").
Proof.
  apply (html_to_text_idempotent_on_plain no_entities
           (str "<p>Is X   true?<br></p>")).
  - vm_compute; reflexivity.
  - vm_compute; reflexivity.
Defined.

Lemma edges_between_nodes_witness :
  In (str "1", str "9", str "No")
    (snd (extract_nodes_and_connections no_entities
            {| items := items board_with_dangling_connector;
               connectors :=
                 dangling_connector
                 :: connectors board_with_dangling_connector |}))
  /\ edge_line
       (make_id_map
          (fst (extract_nodes_and_connections no_entities
                  board_with_dangling_connector)))
       (str "1", str "9", str "No")
     = Ok [].
Proof.
  assert (~ resolved
            (fst (extract_nodes_and_connections no_entities
                    board_with_dangling_connector))
            (str "1", str "9", str "No")) as R.
  { intros [_ H]; vm_compute in H.
    destruct H as [H | [H | []]]; discriminate H. }
  destruct (proj2 (edges_between_nodes no_entities
                     board_with_dangling_connector)
              dangling_connector (str "1", str "9", str "No") eq_refl R)
    as [A [B _]].
  split; [exact A | exact B].
Defined.

(* ================================================================== *)
(** ** Worked examples *)

Example html_to_text_paragraph :
  _html_to_text no_entities (str "<p>Is X<br>  true?</p>") = str "Is X true?".
Proof. reflexivity. Qed.

Example html_to_text_numeric_reference :
  _html_to_text no_entities (str "Tom &#38; Jerry &#x3C;3") = str "Tom & Jerry <3".
Proof. reflexivity. Qed.

Example sanitize_id_numeric :
  sanitize_id (str "3458764635301875090") = str "N3458764635301875090".
Proof. reflexivity. Qed.

Example sanitize_id_runs :
  sanitize_id (str "node--7 (copy)") = str "node_7_copy_".
Proof. reflexivity. Qed.

(** On the board with the dangling connector the question is the start
    node, and the written document has the header, two nodes, the blank
    line and one edge. *)
Example dangling_board_start :
  find_start_node
    (fst (extract_nodes_and_connections no_entities board_with_dangling_connector))
    (snd (extract_nodes_and_connections no_entities board_with_dangling_connector))
  = Some (str "1").
Proof. reflexivity. Qed.

Example dangling_board_document :
  generate_mermaid no_entities board_with_dangling_connector
  = Written
      (join [newline]
         [ str "flowchart TD";
           str "    N1{" ++ [dquote] ++ str "Is X true?" ++ [dquote] ++ str "}";
           str "    N2([" ++ [dquote] ++ str "Conclusion" ++ [dquote] ++ str "])";
           [];
           str "    N1 -->|" ++ [dquote] ++ str "Yes" ++ [dquote] ++ str "| N2" ]).
Proof. reflexivity. Qed.

(* ================================================================== *)
(** ** Further properties of the identifier sanitizer *)

Lemma sanitize_id_runs_replaced (raw_id : pystr) :
  runs_replaced
    (if starts_with_letter_or_underscore raw_id then raw_id
     else str "N" ++ raw_id)
    (sanitize_id raw_id).
Proof. apply sub_runs_replaced. Qed.

Lemma sanitize_id_head (raw_id : pystr) :
  starts_with_letter_or_underscore (sanitize_id raw_id) = true.
Proof.
  unfold sanitize_id.
  destruct (starts_with_letter_or_underscore raw_id) eqn:E; [|reflexivity].
  destruct raw_id as [|c r]; [discriminate|]; simpl in E.
  rewrite ReFacts.sub_nomatch
    by (apply problematic_run_word, letter_is_word; assumption).
  exact E.
Qed.

Lemma runs_replaced_length (s t : pystr) :
  runs_replaced s t -> length t <= length s.
Proof.
  induction 1 as [|c s t _ _ IH|run s t Hne _ _ _ IH]; simpl; try lia.
  rewrite length_app; destruct run; [contradiction | simpl; lia].
Qed.

(** The sanitizer leaves its own results as they are: sanitizing an
    identifier twice gives what sanitizing it once gives. *)
Theorem sanitize_id_idempotent (raw_id : pystr) :
  sanitize_id (sanitize_id raw_id) = sanitize_id raw_id.
Proof.
  rewrite (sanitize_id_words (sanitize_id raw_id)).
  - rewrite sanitize_id_head; reflexivity.
  - eapply runs_replaced_words; apply sanitize_id_runs_replaced.
Qed.

(** A sanitized identifier is never empty and is at most one character
    longer than the identifier it comes from. *)
Theorem sanitize_id_length (raw_id : pystr) :
  1 <= length (sanitize_id raw_id) <= S (length raw_id).
Proof.
  split.
  - pose proof (sanitize_id_head raw_id) as H.
    destruct (sanitize_id raw_id); [discriminate H | simpl; lia].
  - pose proof (runs_replaced_length _ _ (sanitize_id_runs_replaced raw_id)) as H.
    destruct (starts_with_letter_or_underscore raw_id); simpl in H; lia.
Qed.

(* ================================================================== *)
(** ** Labels are safe to quote *)

Section Labels.

Import ReFacts.

Lemma replace_Forall (P : char -> Prop) (old : char) (new s : pystr) :
  Forall P new ->
  (forall c, In c s -> c <> old -> P c) ->
  Forall P (replace old new s).
Proof.
  intros Hn; unfold replace.
  induction s as [|a r IH]; intros H; simpl; [constructor|].
  apply Forall_app; split.
  - destruct (char_eqb a old) eqn:E; [exact Hn|].
    constructor; [|constructor].
    apply H; [left; reflexivity | apply N.eqb_neq; exact E].
  - apply IH; intros c Hc; apply H; right; exact Hc.
Qed.

Lemma replace_Forall_and (Q : char -> Prop) (old : char) (new s : pystr) :
  Forall Q s ->
  Forall (fun c => Q c /\ c <> old) new ->
  Forall (fun c => Q c /\ c <> old) (replace old new s).
Proof.
  intros H Hn; apply replace_Forall; [exact Hn|].
  intros c Hc Hne; split; [|exact Hne].
  rewrite Forall_forall in H; apply H; exact Hc.
Qed.

Lemma lstrip_Forall (P : char -> Prop) (s : pystr) :
  Forall P s -> Forall P (lstrip s).
Proof.
  intros H; destruct (lstrip_suffix s) as [pre E].
  rewrite E in H; apply Forall_app in H; tauto.
Qed.

Lemma strip_Forall (P : char -> Prop) (s : pystr) :
  Forall P s -> Forall P (strip s).
Proof.
  intros H; unfold strip.
  destruct (rstrip_prefix (lstrip s)) as [suf E].
  apply lstrip_Forall in H; rewrite E in H; apply Forall_app in H; tauto.
Qed.

Lemma strip_length (s : pystr) : length (strip s) <= length s.
Proof.
  unfold strip.
  destruct (lstrip_suffix s) as [pre E].
  destruct (rstrip_prefix (lstrip s)) as [suf F].
  rewrite E at 2; rewrite F at 2; rewrite !length_app; lia.
Qed.

(** Removing the brackets keeps the other characters and their properties. *)
Lemma sub_bracket_Forall (P : char -> Prop) (s : pystr) :
  Forall P s ->
  Forall (fun c => P c /\ is_bracket c = false) (Re.sub bracket s).
Proof.
  induction 1 as [|a r Ha _ IH]; [constructor|].
  destruct (is_bracket a) eqn:E.
  - assert (bracket (a :: r) = Some (1, [])) as M
      by (unfold bracket, Re.one_of; rewrite E; reflexivity).
    rewrite (sub_match _ _ _ _ _ M); exact IH.
  - assert (bracket (a :: r) = None) as M
      by (unfold bracket, Re.one_of; rewrite E; reflexivity).
    rewrite (sub_nomatch _ _ _ M); constructor; auto.
Qed.

Lemma firstn_Forall (P : char -> Prop) (n : nat) (s : pystr) :
  Forall P s -> Forall P (firstn n s).
Proof.
  intros H; rewrite <- (firstn_skipn n s) in H.
  apply Forall_app in H; tauto.
Qed.

(** Cutting at [n + 3] characters keeps a label within [n + 3]. *)
Lemma truncated_length (n : nat) (s : pystr) :
  length (if Nat.ltb (n + 3) (length s) then firstn n s ++ str "..." else s)
  <= n + 3.
Proof.
  destruct (Nat.ltb_spec (n + 3) (length s)) as [H|H]; [|exact H].
  rewrite length_app, length_firstn; simpl; lia.
Qed.

Lemma truncated_Forall (P : char -> Prop) (n m : nat) (s : pystr) :
  P (ch ".") -> Forall P s ->
  Forall P (if Nat.ltb m (length s) then firstn n s ++ str "..." else s).
Proof.
  intros Hd H; destruct (Nat.ltb m (length s)); [|exact H].
  apply Forall_app; split; [apply firstn_Forall; exact H|].
  repeat constructor; exact Hd.
Qed.

Lemma breaks_label_false (c : char) :
  c <> dquote -> c <> ch "<" -> c <> ch ">" -> is_bracket c = false ->
  breaks_label c = false.
Proof.
  intros H1 H2 H3 H4; unfold breaks_label.
  apply N.eqb_neq in H1, H2, H3; unfold char_eqb.
  rewrite H1, H2, H3, H4; reflexivity.
Qed.

End Labels.

Lemma node_label_chars (t : pystr) :
  Forall (fun c => breaks_label c = false /\ c <> newline) (node_label t).
Proof.
  unfold node_label.
  apply truncated_Forall; [split; [reflexivity | discriminate]|].
  unfold clean_node_text.
  assert (Forall (fun _ : char => True) t) as F0
    by (apply Forall_forall; trivial).
  apply (replace_Forall_and _ dquote (str "'")) in F0;
    [|repeat constructor; discriminate].
  apply (replace_Forall_and _ newline (str " ")) in F0;
    [|repeat constructor; discriminate].
  apply (replace_Forall_and _ (ch "<") (str "&lt;")) in F0;
    [|repeat constructor; discriminate].
  apply (replace_Forall_and _ (ch ">") (str "&gt;")) in F0;
    [|repeat constructor; discriminate].
  apply strip_Forall, sub_bracket_Forall in F0.
  eapply Forall_impl; [|exact F0].
  intros c [[[[[_ H1] H2] H3] H4] H5]; split; [|exact H2].
  apply breaks_label_false; assumption.
Qed.

(** Whatever the text of a node, the label written between the quotes of
    its shape has at most 50 characters and contains no double quote, no
    angle bracket, no brace, parenthesis or square bracket and no newline. *)
Theorem node_label_safe (t : pystr) :
  length (node_label t) <= 50
  /\ Forall (fun c => breaks_label c = false /\ c <> newline) (node_label t).
Proof.
  split; [apply (truncated_length 47) | apply node_label_chars].
Qed.

(** Whatever the label of a connection, the label written on its arrow has
    at most 30 characters and contains no double quote, no angle bracket
    and no brace, parenthesis or square bracket. *)
Theorem edge_label_safe (label : pystr) :
  length (edge_label label) <= 30
  /\ Forall (fun c => breaks_label c = false) (edge_label label).
Proof.
  split; [apply (truncated_length 27)|].
  unfold edge_label.
  apply truncated_Forall; [reflexivity|].
  unfold clean_edge_text.
  assert (Forall (fun _ : char => True) label) as F0
    by (apply Forall_forall; trivial).
  apply (replace_Forall_and _ dquote (str "'")) in F0;
    [|repeat constructor; discriminate].
  apply (replace_Forall_and _ (ch "<") []) in F0; [|constructor].
  apply (replace_Forall_and _ (ch ">") []) in F0; [|constructor].
  apply strip_Forall, sub_bracket_Forall in F0.
  eapply Forall_impl; [|exact F0].
  intros c [[[[_ H1] H2] H3] H4].
  apply breaks_label_false; assumption.
Qed.

(* ================================================================== *)
(** ** The normalizer yields single-line text *)

Lemma strip_no_trailing (s : pystr) : no_trailing_space (strip s).
Proof.
  unfold no_trailing_space, strip, rstrip.
  rewrite rev_involutive; apply lstrip_no_leading.
Qed.

Lemma collapsed_spaces (s : pystr) :
  collapsed s -> Forall (fun c => is_space c = true -> c = ch " ") s.
Proof.
  induction s as [|a r IH]; [constructor|].
  intros [H C]; constructor; [|apply IH; exact C].
  intros E; apply (H E).
Qed.

Lemma html_to_text_normal (html5 : pystr -> option pystr) (html : pystr) :
  collapsed (_html_to_text html5 html)
  /\ no_leading_space (_html_to_text html5 html)
  /\ no_trailing_space (_html_to_text html5 html).
Proof.
  unfold _html_to_text.
  destruct (negb (nonempty html)); [repeat split; exact I|].
  split; [apply collapsed_strip, sub_whitespace_collapsed|].
  split; [apply strip_no_leading | apply strip_no_trailing].
Qed.

(** Normalized text is one line with single spaces: it neither begins nor
    ends with whitespace, and each whitespace character in it is a space
    that is followed by a character that is not whitespace. *)
Theorem html_to_text_single_spaced (html5 : pystr -> option pystr)
    (html : pystr) :
  no_leading_space (_html_to_text html5 html)
  /\ no_trailing_space (_html_to_text html5 html)
  /\ collapsed (_html_to_text html5 html)
  /\ Forall (fun c => is_space c = true -> c = ch " ")
       (_html_to_text html5 html).
Proof.
  destruct (html_to_text_normal html5 html) as [C [L T]].
  repeat split; try assumption.
  apply collapsed_spaces; exact C.
Qed.

(* ================================================================== *)
(** ** Invariants of the node dictionary *)

Section Extraction.

Import DictFacts.

Variable html5 : pystr -> option pystr.

Lemma keys_set {V} (d : dict V) (k : pystr) (v : V) :
  keys (set d k v) = if mem k d then keys d else keys d ++ [k].
Proof.
  unfold mem; induction d as [|[k' v'] r IH]; simpl; [reflexivity|].
  destruct (PyStr.eqb k' k) eqn:E; simpl; [reflexivity|].
  rewrite IH; destruct (get r k); reflexivity.
Qed.

Lemma keys_set_NoDup {V} (d : dict V) (k : pystr) (v : V) :
  NoDup (keys d) -> NoDup (keys (set d k v)).
Proof.
  intros H; rewrite keys_set.
  destruct (mem k d) eqn:M; [exact H|].
  apply NoDup_app; [exact H | repeat constructor; intros [] |].
  intros a Ha [<- | []].
  apply mem_In in Ha; congruence.
Qed.

Lemma entries_set {V} (P : pystr -> V -> Prop) (d : dict V) (k : pystr)
    (v : V) :
  P k v ->
  (forall k' v', In (k', v') d -> P k' v') ->
  forall k' v', In (k', v') (set d k v) -> P k' v'.
Proof.
  intros Hk; induction d as [|[k0 v0] r IH]; intros H k' v'; simpl.
  - intros [E | []]; inversion E; subst; exact Hk.
  - destruct (PyStr.eqb k0 k) eqn:E.
    + apply pystr_eqb_eq in E; subst k0.
      intros [G | G]; [inversion G; subst; exact Hk|].
      apply H; right; exact G.
    + intros [G | G]; [apply H; left; exact G|].
      apply IH; [|exact G].
      intros k1 v1 G1; apply H; right; exact G1.
Qed.

(** What one iteration of the item loop can do to the dictionary. *)
Lemma add_item_cases (nodes : dict node_info) (item : RawItem) :
  add_item html5 nodes item = nodes
  \/ exists id ty info,
      item_id item = Some id /\ nonempty id = true
      /\ item_type item = Some ty /\ supported_type ty = true
      /\ classify html5 id ty item = Some info
      /\ meaningful id info = true
      /\ add_item html5 nodes item = set nodes id info.
Proof.
  unfold add_item.
  destruct (item_id item) as [id|]; [|left; reflexivity].
  destruct (nonempty id) eqn:N; cbn [negb]; [|left; reflexivity].
  destruct (item_type item) as [ty|]; [|left; reflexivity].
  change (str_in ty [str "shape"; str "sticky_note"; str "text"])
    with (supported_type ty).
  destruct (supported_type ty) eqn:S; cbn [negb]; [|left; reflexivity].
  destruct (classify html5 id ty item) as [info|] eqn:C; [|left; reflexivity].
  destruct (meaningful id info) eqn:M; [|left; reflexivity].
  right; exists id, ty, info; repeat split; assumption.
Qed.

(** A property of dictionaries that holds of the empty one and that every
    iteration of the item loop keeps holds of the extracted nodes. *)
Lemma extracted_nodes_ind (P : dict node_info -> Prop) (its : list RawItem) :
  (forall nodes item, In item its -> P nodes ->
                      P (add_item html5 nodes item)) ->
  forall nodes, P nodes -> P (fold_left (add_item html5) its nodes).
Proof.
  induction its as [|item rest IH]; intros H nodes Hn; simpl; [exact Hn|].
  apply IH.
  - intros n i Hi; apply H; right; exact Hi.
  - apply H; [left; reflexivity | exact Hn].
Qed.

(** A supported item is never left with the role [unknown], and its shape
    is the one of its role. *)
Lemma classify_role (id ty : pystr) (item : RawItem) (info : node_info) :
  supported_type ty = true ->
  classify html5 id ty item = Some info ->
  type info <> NodeType.unknown
  /\ mermaid_shape info = shape_of_type (type info).
Proof.
  unfold supported_type, str_in, classify; simpl existsb.
  destruct (PyStr.eqb ty (str "shape")).
  - intros _.
    destruct (match item_data item with
              | Some d => match shape d with
                          | Some shape_type => PyStr.eqb shape_type (str "rhombus")
                          | None => false
                          end
              | None => false
              end);
      [intros H; inversion H; split; [discriminate | reflexivity]|].
    destruct (PyStr.eqb id (str "3458764635301875090"));
      [intros H; inversion H; split; [discriminate | reflexivity]|].
    destruct (nonempty _);
      intros H; inversion H; split; (discriminate || reflexivity).
  - destruct (PyStr.eqb ty (str "sticky_note")).
    + intros _ H; inversion H; split; [discriminate | reflexivity].
    + destruct (PyStr.eqb ty (str "text")); [|discriminate].
      intros _.
      destruct (nonempty _ && _); [|discriminate].
      intros H; inversion H; split; [discriminate | reflexivity].
Qed.

Lemma meaningful_spec (id : pystr) (info : node_info) :
  meaningful id info = true ->
  (text info <> [] /\ text info <> str "shape")
  \/ In id (keys conclusion_text_map).
Proof.
  unfold meaningful; intros H; apply orb_true_iff in H.
  destruct H as [H | H]; [left | right; apply mem_In; exact H].
  apply andb_true_iff in H; destruct H as [H1 H2]; split.
  - intros E; rewrite E in H1; discriminate H1.
  - apply negb_true_iff, pystr_eqb_neq in H2; exact H2.
Qed.

End Extraction.

Lemma extracted_keys_invariant (html5 : pystr -> option pystr) (data : BoardData) :
  NoDup (keys (fst (extract_nodes_and_connections html5 data)))
  /\ forall k,
      In k (keys (fst (extract_nodes_and_connections html5 data))) ->
      nonempty k = true
      /\ exists item ty,
          In item (items data) /\ item_id item = Some k
          /\ item_type item = Some ty /\ supported_type ty = true.
Proof.
  unfold extract_nodes_and_connections; simpl fst.
  apply (extracted_nodes_ind html5
           (fun nodes =>
              NoDup (keys nodes)
              /\ forall k, In k (keys nodes) ->
                   nonempty k = true
                   /\ exists item ty,
                       In item (items data) /\ item_id item = Some k
                       /\ item_type item = Some ty
                       /\ supported_type ty = true)).
  - intros nodes item Hin [Hd Hk].
    destruct (add_item_cases html5 nodes item)
      as [-> | [id [ty [info [Hid [Hne [Hty [Hs [_ [_ ->]]]]]]]]]];
      [split; assumption|].
    split; [apply keys_set_NoDup; exact Hd|].
    intros k; rewrite keys_set.
    destruct (mem id nodes); [apply Hk|].
    intros G; apply in_app_or in G; destruct G as [G | [<- | []]];
      [apply Hk; exact G|].
    split; [exact Hne | exists item, ty; auto].
  - split; [constructor | intros k []].
Qed.

(** The keys of the extracted node dictionary are distinct and not empty,
    and each is the identifier of an item of the input whose type is shape,
    sticky_note or text. *)
Theorem extracted_keys (html5 : pystr -> option pystr) (data : BoardData) :
  NoDup (keys (fst (extract_nodes_and_connections html5 data)))
  /\ forall k,
      In k (keys (fst (extract_nodes_and_connections html5 data))) ->
      nonempty k = true
      /\ exists item ty,
          In item (items data) /\ item_id item = Some k
          /\ item_type item = Some ty /\ supported_type ty = true.
Proof. exact (extracted_keys_invariant html5 data). Qed.

(** Every extracted node has one of the six roles question, start, process,
    conclusion, note and text, and the shape its role is drawn with: a
    diamond for a question, a stadium for start and conclusion, a rectangle
    for the others. *)
Theorem extracted_roles (html5 : pystr -> option pystr) (data : BoardData)
    (k : pystr) (info : node_info) :
  In (k, info) (fst (extract_nodes_and_connections html5 data)) ->
  type info <> NodeType.unknown
  /\ mermaid_shape info = shape_of_type (type info).
Proof.
  unfold extract_nodes_and_connections; simpl fst; revert k info.
  apply (extracted_nodes_ind html5
           (fun nodes =>
              forall k info, In (k, info) nodes ->
                type info <> NodeType.unknown
                /\ mermaid_shape info = shape_of_type (type info)));
    [|intros k info []].
  intros nodes item _ H.
  destruct (add_item_cases html5 nodes item)
    as [-> | [id [ty [info [_ [_ [_ [Hs [Hc [_ ->]]]]]]]]]]; [exact H|].
  apply entries_set; [|exact H].
  apply (classify_role html5 id ty item info Hs Hc).
Qed.

(** Every extracted node has a label that is neither empty nor the string
    "shape", unless its identifier is a key of the conclusion table. *)
Theorem extracted_labels (html5 : pystr -> option pystr) (data : BoardData)
    (k : pystr) (info : node_info) :
  In (k, info) (fst (extract_nodes_and_connections html5 data)) ->
  (text info <> [] /\ text info <> str "shape")
  \/ In k (keys conclusion_text_map).
Proof.
  unfold extract_nodes_and_connections; simpl fst; revert k info.
  apply (extracted_nodes_ind html5
           (fun nodes =>
              forall k info, In (k, info) nodes ->
                (text info <> [] /\ text info <> str "shape")
                \/ In k (keys conclusion_text_map)));
    [|intros k info []].
  intros nodes item _ H.
  destruct (add_item_cases html5 nodes item)
    as [-> | [id [ty [info [_ [_ [_ [_ [_ [Hm ->]]]]]]]]]]; [exact H|].
  apply entries_set; [|exact H].
  apply meaningful_spec; exact Hm.
Qed.

(** Items are only ever added: the keys extracted from a list of items are
    the first keys, in the same order, of what is extracted when further
    items follow. *)
Theorem extracted_keys_grow (html5 : pystr -> option pystr)
    (first more : list RawItem) (cs : list RawConnector) :
  exists added,
    keys (fst (extract_nodes_and_connections html5
                 {| items := first ++ more; connectors := cs |}))
    = keys (fst (extract_nodes_and_connections html5
                   {| items := first; connectors := cs |}))
      ++ added.
Proof.
  unfold extract_nodes_and_connections; simpl fst; simpl items.
  rewrite fold_left_app.
  generalize (fold_left (add_item html5) first []).
  induction more as [|item rest IH]; intros nodes; simpl.
  - exists []; rewrite app_nil_r; reflexivity.
  - destruct (IH (add_item html5 nodes item)) as [added E]; rewrite E.
    destruct (add_item_cases html5 nodes item)
      as [-> | [id [ty [info [_ [_ [_ [_ [_ [_ ->]]]]]]]]]]; [eauto|].
    rewrite keys_set; destruct (mem id nodes); [eauto|].
    exists ([id] ++ added); rewrite app_assoc; reflexivity.
Qed.

(* ================================================================== *)
(** ** The extracted connections *)

Lemma join_nonempty (sep : pystr) (parts : list pystr) :
  Forall (fun p => nonempty p = true) parts ->
  join sep parts = [] -> parts = [].
Proof.
  intros H; destruct H as [|p rest Hp _]; [reflexivity|].
  destruct p as [|c p]; [discriminate Hp|].
  destruct rest; discriminate.
Qed.

Lemma filter_nonempty_nil (l : list pystr) :
  filter nonempty l = [] <-> forall s, In s l -> s = [].
Proof.
  induction l as [|a r IH]; simpl; [split; [intros _ s [] | reflexivity]|].
  destruct a as [|c a]; simpl.
  - rewrite IH; split; [intros H s [<- | G]; auto | intros H s G; apply H; auto].
  - split; [discriminate|].
    intros H; specialize (H (c :: a) (or_introl eq_refl)); discriminate H.
Qed.

Lemma connection_of_inv (html5 : pystr -> option pystr) (conn : RawConnector)
    (s e l : pystr) :
  connection_of html5 conn = Some (s, e, l) ->
  (exists r, startItem conn = Some r /\ ref_id r = Some s)
  /\ (exists r, endItem conn = Some r /\ ref_id r = Some e)
  /\ nonempty s = true /\ nonempty e = true
  /\ (l = [] <->
      forall c, In c (captions conn) ->
                content_text html5 (caption_content c) = []).
Proof.
  unfold connection_of.
  destruct (startItem conn) as [rs|]; [|discriminate].
  destruct (ref_id rs) as [s'|] eqn:Es; [|discriminate].
  destruct (endItem conn) as [re|]; [|discriminate].
  destruct (ref_id re) as [e'|] eqn:Ee; [|discriminate].
  destruct (nonempty s') eqn:Ns; [|discriminate].
  destruct (nonempty e') eqn:Ne; [|discriminate].
  cbn [negb orb]; intros H; inversion H; subst s' e'; clear H.
  split; [eauto|]; split; [eauto|]; split; [exact Ns|]; split; [exact Ne|].
  destruct (captions conn) as [|c0 cs] eqn:Ec; [split; [intros _ c [] | reflexivity]|].
  pose (texts := List.map (fun c => content_text html5 (caption_content c))
                   (c0 :: cs)).
  change (join (str " / ") (filter nonempty texts) = [] <->
          (forall c, In c (c0 :: cs) ->
                     content_text html5 (caption_content c) = [])).
  split.
  - intros J; apply join_nonempty in J;
      [|apply Forall_forall; intros p Hp; apply filter_In in Hp; tauto].
    intros c Hc.
    apply (proj1 (filter_nonempty_nil texts) J).
    unfold texts; apply in_map with (f := fun c => content_text html5 (caption_content c));
      exact Hc.
  - intros A.
    assert (filter nonempty texts = []) as ->; [|reflexivity].
    apply filter_nonempty_nil; intros t Ht.
    unfold texts in Ht; apply in_map_iff in Ht.
    destruct Ht as [c [<- Hc]]; apply A; exact Hc.
Qed.

(** Each extracted connection comes from a connector of the input whose
    start and end identifiers are its own, both not empty; its label is
    empty exactly when every caption of that connector normalizes to the
    empty string. *)
Theorem extracted_connections (html5 : pystr -> option pystr)
    (data : BoardData) (s e l : pystr) :
  In (s, e, l) (snd (extract_nodes_and_connections html5 data)) ->
  nonempty s = true /\ nonempty e = true
  /\ exists conn,
      In conn (connectors data)
      /\ (exists r, startItem conn = Some r /\ ref_id r = Some s)
      /\ (exists r, endItem conn = Some r /\ ref_id r = Some e)
      /\ (l = [] <->
          forall c, In c (captions conn) ->
                    content_text html5 (caption_content c) = []).
Proof.
  unfold extract_nodes_and_connections; simpl snd; intros H.
  apply in_flat_map in H; destruct H as [conn [Hc H]].
  destruct (connection_of html5 conn) as [c|] eqn:E; [|destruct H].
  destruct H as [-> | []].
  destruct (connection_of_inv html5 conn s e l E) as [A [B [C [D F]]]].
  split; [exact C|]; split; [exact D|].
  exists conn; auto.
Qed.

(* ================================================================== *)
(** ** The resolver prefers nodes without incoming connection *)

Lemma candidates_nil (nodes : dict node_info) (connections : list connection) :
  filter (candidate connections) nodes = [] <->
  forall k, In k (keys nodes) -> incoming connections k = true.
Proof.
  induction nodes as [|[k0 i0] r IH]; simpl.
  - split; [intros _ k [] | reflexivity].
  - unfold candidate at 1; simpl fst.
    destruct (incoming connections k0) eqn:E; simpl.
    + rewrite IH; split; [intros H k [<- | G]; auto | intros H k G; apply H; auto].
    + split; [discriminate|].
      intros H; specialize (H k0 (or_introl eq_refl)); congruence.
Qed.

(** Whenever some node has no incoming connection, the node the resolver
    returns has none; when every node has one, the resolver returns the
    first node in insertion order. *)
Theorem find_start_node_candidate (nodes : dict node_info)
    (connections : list connection) :
  ((exists k', In k' (keys nodes) /\ incoming connections k' = false) ->
   exists k, find_start_node nodes connections = Some k
             /\ incoming connections k = false)
  /\ ((forall k', In k' (keys nodes) -> incoming connections k' = true) ->
      find_start_node nodes connections = hd_error (keys nodes)).
Proof.
  rewrite find_start_node_unfold; split.
  - intros [k' [Hk' Hi]].
    destruct (find _ (filter (candidate connections) nodes))
      as [[k i]|] eqn:F.
    + exists k; split; [reflexivity|].
      apply find_some in F; destruct F as [F _].
      apply filter_In in F; destruct F as [_ F].
      unfold candidate in F; simpl in F; apply negb_true_iff in F; exact F.
    + destruct (filter (candidate connections) nodes) as [|[k i] r] eqn:C.
      * rewrite (proj1 (candidates_nil nodes connections) C k' Hk') in Hi.
        discriminate Hi.
      * exists k; split; [reflexivity|].
        assert (In (k, i) (filter (candidate connections) nodes)) as G
          by (rewrite C; left; reflexivity).
        apply filter_In in G; destruct G as [_ G].
        unfold candidate in G; simpl in G; apply negb_true_iff in G; exact G.
  - intros H; apply candidates_nil in H; rewrite H; simpl.
    destruct (keys nodes); reflexivity.
Qed.

(* ================================================================== *)
(** ** The written document, line by line *)

Section Document.

Import DictFacts.

Lemma get_sanitized (ks : list pystr) (k : pystr) :
  forall m,
    get (fold_left (fun m orig_id => set m orig_id (sanitize_id orig_id)) ks m) k
    = if str_in k ks then Some (sanitize_id k) else get m k.
Proof.
  induction ks as [|a r IH]; intros m; simpl; [reflexivity|].
  rewrite IH.
  destruct (str_in k r) eqn:R; [rewrite orb_true_r; reflexivity|].
  rewrite orb_false_r.
  destruct (PyStr.eqb k a) eqn:E.
  - apply pystr_eqb_eq in E; subst a; apply get_set_same.
  - apply pystr_eqb_neq in E; apply get_set_other; congruence.
Qed.

Lemma mem_keys {V} (d : dict V) (k : pystr) : mem k d = str_in k (keys d).
Proof.
  destruct (mem k d) eqn:M; destruct (str_in k (keys d)) eqn:S;
    try reflexivity.
  - apply mem_In, str_in_In in M; congruence.
  - apply str_in_In, mem_In in S; congruence.
Qed.

Lemma get_make_id_map (nodes : dict node_info) (k : pystr) :
  get (make_id_map nodes) k
  = if mem k nodes then Some (sanitize_id k) else None.
Proof.
  unfold make_id_map; rewrite get_sanitized, mem_keys; reflexivity.
Qed.

Lemma mem_make_id_map_eq (nodes : dict node_info) (k : pystr) :
  mem k (make_id_map nodes) = mem k nodes.
Proof.
  unfold mem at 1; rewrite get_make_id_map.
  destruct (mem k nodes); reflexivity.
Qed.

Lemma subscript_make_id_map (nodes : dict node_info) (k : pystr) :
  mem k nodes = true ->
  subscript (make_id_map nodes) k = Ok (sanitize_id k).
Proof.
  intros H; unfold subscript; rewrite get_make_id_map, H; reflexivity.
Qed.

Lemma node_line_declaration (nodes : dict node_info) (k : pystr)
    (info : node_info) :
  mem k nodes = true ->
  node_line (make_id_map nodes) k info = Ok (node_declaration (k, info)).
Proof.
  intros H; unfold node_line, node_declaration.
  rewrite (subscript_make_id_map nodes k H); simpl bind; simpl fst; simpl snd.
  destruct (get_mermaid_shape info (text info)); reflexivity.
Qed.

Lemma other_lines_declarations (nodes l : dict node_info) (sid : pystr) :
  (forall k, In k (keys l) -> mem k nodes = true) ->
  other_lines (make_id_map nodes) (Some sid) l
  = Ok (List.map node_declaration
          (filter (fun e => negb (PyStr.eqb (fst e) sid)) l)).
Proof.
  induction l as [|[k info] r IH]; intros H; [reflexivity|].
  simpl other_lines; simpl filter.
  rewrite IH by (intros k' Hk'; apply H; right; exact Hk').
  destruct (PyStr.eqb k sid); [reflexivity|].
  rewrite (node_line_declaration nodes k info)
    by (apply H; left; reflexivity).
  reflexivity.
Qed.

Lemma edge_line_declaration (nodes : dict node_info) (c : connection) :
  edge_line (make_id_map nodes) c
  = Ok (if resolvedb nodes c then [edge_declaration c] else []).
Proof.
  destruct c as [[s e] l]; unfold edge_line, resolvedb, edge_declaration.
  simpl fst; simpl snd; rewrite !mem_make_id_map_eq.
  destruct (mem s nodes) eqn:Hs; [|reflexivity].
  destruct (mem e nodes) eqn:He; [|reflexivity].
  rewrite (subscript_make_id_map nodes s Hs), (subscript_make_id_map nodes e He).
  simpl; destruct (nonempty l); reflexivity.
Qed.

Lemma edge_lines_declarations (nodes : dict node_info)
    (connections : list connection) :
  edge_lines (make_id_map nodes) connections
  = Ok (List.map edge_declaration (filter (resolvedb nodes) connections)).
Proof.
  induction connections as [|c cs IH]; [reflexivity|].
  simpl edge_lines; rewrite edge_line_declaration, IH; simpl.
  destruct (resolvedb nodes c); reflexivity.
Qed.

Lemma get_entry {V} (d : dict V) (k : pystr) (v : V) :
  get d k = Some v -> In (k, v) d.
Proof.
  induction d as [|[k0 v0] r IH]; simpl; [discriminate|].
  destruct (PyStr.eqb k0 k) eqn:E; [|auto].
  apply pystr_eqb_eq in E; subst k0.
  intros H; inversion H; left; reflexivity.
Qed.

(** With distinct keys, all entries but one have a key other than [k]. *)
Lemma others_length {V} (d : dict V) (k : pystr) :
  NoDup (keys d) -> In k (keys d) ->
  S (length (filter (fun e => negb (PyStr.eqb (fst e) k)) d)) = length d.
Proof.
  induction d as [|[k0 v0] r IH]; simpl; [intros _ []|].
  intros N H; inversion N as [|? ? Hn Nr]; subst.
  destruct (PyStr.eqb k0 k) eqn:E; simpl.
  - apply pystr_eqb_eq in E; subst k0; f_equal.
    clear IH H N Nr; induction r as [|[k1 v1] r IH]; [reflexivity|].
    simpl in Hn |- *.
    destruct (PyStr.eqb k1 k) eqn:E1.
    + apply pystr_eqb_eq in E1; subst; tauto.
    + simpl; f_equal; apply IH; tauto.
  - f_equal; apply IH; [exact Nr|].
    destruct H as [-> | H]; [rewrite pystr_eqb_refl in E; discriminate | exact H].
Qed.

Lemma mermaid_lines_document (nodes : dict node_info)
    (connections : list connection) (sid : pystr) :
  (forall k, In k (keys nodes) -> nonempty k = true) ->
  find_start_node nodes connections = Some sid ->
  exists info,
    get nodes sid = Some info
    /\ mermaid_lines nodes connections
       = Ok ([str "flowchart TD"; node_declaration (sid, info)]
               ++ List.map node_declaration
                    (filter (fun e => negb (PyStr.eqb (fst e) sid)) nodes)
               ++ [[]]
               ++ List.map edge_declaration
                    (filter (resolvedb nodes) connections)).
Proof.
  intros Hne Hf.
  pose proof (find_start_node_key connections nodes sid Hf) as Hk.
  pose proof (proj2 (mem_In nodes sid) Hk) as Hm.
  destruct (get nodes sid) as [info|] eqn:G;
    [|unfold mem in Hm; rewrite G in Hm; discriminate Hm].
  exists info; split; [reflexivity|].
  unfold mermaid_lines, start_lines; rewrite Hf, (Hne sid Hk), Hm.
  unfold subscript at 1; rewrite G.
  simpl bind at 1.
  rewrite (node_line_declaration nodes sid info Hm); simpl bind at 1.
  rewrite other_lines_declarations
    by (intros k Hk'; apply mem_In; exact Hk').
  rewrite edge_lines_declarations; reflexivity.
Qed.

End Document.

(** No resolved connection is lost and none is written twice: the edge
    lines are, in order, the lines of exactly those connections whose two
    identifiers are keys of the node dictionary. *)
Theorem edge_lines_complete (nodes : dict node_info)
    (connections : list connection) :
  edge_lines (make_id_map nodes) connections
  = Ok (List.map edge_declaration (filter (resolvedb nodes) connections)).
Proof. exact (edge_lines_declarations nodes connections). Qed.

Lemma written_document_shape (html5 : pystr -> option pystr)
    (data : BoardData) (doc : pystr) :
  let nodes := fst (extract_nodes_and_connections html5 data) in
  let connections := snd (extract_nodes_and_connections html5 data) in
  generate_mermaid html5 data = Written doc ->
  exists sid info,
    find_start_node nodes connections = Some sid
    /\ In (sid, info) nodes
    /\ S (length (filter (fun e => negb (PyStr.eqb (fst e) sid)) nodes))
       = length nodes
    /\ doc = join [newline]
               ([str "flowchart TD"; node_declaration (sid, info)]
                  ++ List.map node_declaration
                       (filter (fun e => negb (PyStr.eqb (fst e) sid)) nodes)
                  ++ [[]]
                  ++ List.map edge_declaration
                       (filter (resolvedb nodes) connections)).
Proof.
  intros nodes connections.
  destruct (extracted_keys_invariant html5 data) as [Hd Hk].
  fold nodes in Hd, Hk.
  unfold generate_mermaid.
  rewrite (surjective_pairing (extract_nodes_and_connections html5 data)).
  fold nodes connections.
  destruct nodes as [|e ns] eqn:N; [discriminate|].
  cbv beta iota; change (negb true) with false; cbv iota.
  destruct (find_start_node_some connections (e :: ns)) as [sid F];
    [discriminate|].
  destruct (mermaid_lines_document (e :: ns) connections sid) as [info [G L]];
    [intros k H; apply Hk; exact H | exact F|].
  rewrite L; cbv zeta.
  destruct (has_surrogate _); [discriminate|].
  intros H; exists sid, info.
  split; [exact F|]; split; [apply get_entry; exact G|]; split.
  - apply others_length; [exact Hd|].
    apply (find_start_node_key connections (e :: ns) sid F).
  - apply (f_equal (fun r => match r with Written d => d | _ => [] end)) in H.
    symmetry; exact H.
Qed.

(** The document the generator writes: whenever it writes one, the document
    is the header, the declaration of the start node the resolver chose,
    the declarations of the other nodes in insertion order, an empty line
    and the lines of the resolved connections; the start node is a node of
    the dictionary and every node is declared exactly once. *)
Theorem generated_document (html5 : pystr -> option pystr)
    (data : BoardData) (doc : pystr) :
  let nodes := fst (extract_nodes_and_connections html5 data) in
  let connections := snd (extract_nodes_and_connections html5 data) in
  generate_mermaid html5 data = Written doc ->
  exists sid info,
    find_start_node nodes connections = Some sid
    /\ In (sid, info) nodes
    /\ S (length (filter (fun e => negb (PyStr.eqb (fst e) sid)) nodes))
       = length nodes
    /\ doc = join [newline]
               ([str "flowchart TD"; node_declaration (sid, info)]
                  ++ List.map node_declaration
                       (filter (fun e => negb (PyStr.eqb (fst e) sid)) nodes)
                  ++ [[]]
                  ++ List.map edge_declaration
                       (filter (resolvedb nodes) connections)).
Proof. exact (written_document_shape html5 data doc). Qed.

Lemma generated_document_witness :
  exists sid info,
    find_start_node
      (fst (extract_nodes_and_connections no_entities
              board_with_dangling_connector))
      (snd (extract_nodes_and_connections no_entities
              board_with_dangling_connector))
    = Some sid
    /\ In (sid, info)
         (fst (extract_nodes_and_connections no_entities
                 board_with_dangling_connector)).
Proof.
  destruct (generated_document no_entities board_with_dangling_connector
              (join [newline]
                 [ str "flowchart TD";
                   str "    N1{" ++ [dquote] ++ str "Is X true?" ++ [dquote]
                     ++ str "}";
                   str "    N2([" ++ [dquote] ++ str "Conclusion" ++ [dquote]
                     ++ str "])";
                   [];
                   str "    N1 -->|" ++ [dquote] ++ str "Yes" ++ [dquote]
                     ++ str "| N2" ])
              eq_refl)
    as [sid [info [F [I _]]]].
  exists sid, info; split; [exact F | exact I].
Defined.

(* ================================================================== *)
(** ** [_clean_text] of the first extractor *)

Section CleanText.

Import ReFacts.
Import MiroExtractor.

Lemma lstrip_skipn (s : pystr) : lstrip s = skipn (span_len is_space s) s.
Proof.
  induction s as [|c r IH]; simpl; [reflexivity|].
  destruct (is_space c); [exact IH | reflexivity].
Qed.

Lemma lstrip_cons_space (c : char) (s : pystr) :
  is_space c = true -> lstrip (c :: s) = lstrip s.
Proof. intros H; simpl; rewrite H; reflexivity. Qed.

Lemma lstrip_app_other (a : pystr) (c : char) :
  is_space c = false -> lstrip (a ++ [c]) = lstrip a ++ [c].
Proof.
  intros H; induction a as [|x a IH]; simpl; [rewrite H; reflexivity|].
  destruct (is_space x); [exact IH | reflexivity].
Qed.

Lemma lstrip_app_space (a : pystr) (c : char) :
  is_space c = true ->
  lstrip (a ++ [c]) = match lstrip a with [] => [] | _ :: _ => lstrip a ++ [c] end.
Proof.
  intros H; induction a as [|x a IH]; simpl; [rewrite H; reflexivity|].
  destruct (is_space x); [exact IH | reflexivity].
Qed.

Lemma rstrip_cons_other (c : char) (s : pystr) :
  is_space c = false -> rstrip (c :: s) = c :: rstrip s.
Proof.
  intros H; unfold rstrip; simpl rev.
  rewrite (lstrip_app_other _ c H), rev_app_distr; reflexivity.
Qed.

Lemma rstrip_cons_space (c : char) (s : pystr) :
  is_space c = true ->
  rstrip (c :: s) = match rstrip s with [] => [] | _ :: _ => c :: rstrip s end.
Proof.
  intros H; unfold rstrip; simpl rev.
  rewrite (lstrip_app_space _ c H).
  destruct (lstrip (rev s)) as [|x l] eqn:E; [reflexivity|].
  cbv iota; rewrite rev_app_distr.
  change (rev [c] ++ rev (x :: l)) with (c :: rev (x :: l)).
  destruct (rev (x :: l)) eqn:R; [|reflexivity].
  apply (f_equal (@length char)) in R; rewrite length_rev in R; discriminate R.
Qed.

Lemma split_lstrip (s : pystr) : split (lstrip s) = split s.
Proof.
  induction s as [|c r IH]; [reflexivity|].
  simpl lstrip; destruct (is_space c) eqn:E; [|reflexivity].
  rewrite IH; simpl; rewrite E; reflexivity.
Qed.

(** The words of [split] are not empty. *)
Lemma split_words (s : pystr) : Forall (fun w => nonempty w = true) (split s).
Proof.
  induction s as [|c r IH]; [constructor|].
  simpl; destruct (is_space c); [exact IH|].
  destruct r as [|d r']; [repeat constructor|].
  destruct (is_space d); [constructor; [reflexivity | exact IH]|].
  destruct (split (d :: r')) as [|w ws]; [repeat constructor|].
  inversion IH; subst; constructor; [reflexivity | assumption].
Qed.

Lemma split_starts (c : char) (r : pystr) :
  is_space c = false -> split (c :: r) <> [].
Proof.
  intros H; simpl; rewrite H.
  destruct r as [|d r']; [discriminate|].
  destruct (is_space d); [discriminate|].
  destruct (split (d :: r')); discriminate.
Qed.

Lemma join_cons_word (sep : pystr) (c : char) (w : pystr) (ws : list pystr) :
  join sep ((c :: w) :: ws) = c :: join sep (w :: ws).
Proof. destruct ws; reflexivity. Qed.

(** On text that does not begin with whitespace, collapsing the runs and
    stripping the end is joining the words with single spaces. *)
Lemma rstrip_collapse_join (s : pystr) :
  no_leading_space s ->
  rstrip (Re.sub whitespace_run s) = join (str " ") (split s).
Proof.
  pattern s; apply suffix_induction; clear s.
  intros [|c r] IH H; [reflexivity|].
  simpl in H.
  rewrite (sub_nomatch _ _ _ (whitespace_run_other c r H)).
  rewrite (rstrip_cons_other c _ H).
  destruct r as [|d r']; [simpl; rewrite H; reflexivity|].
  destruct (is_space d) eqn:D.
  - rewrite (sub_match _ _ _ _ _ (whitespace_run_space d r' D)).
    change (str " " ++ ?x) with (ch " " :: x).
    rewrite (rstrip_cons_space (ch " ")) by reflexivity.
    assert (split (c :: d :: r')
            = [c] :: split (skipn (span_len is_space r') r')) as ->.
    { simpl; rewrite H, D, <- lstrip_skipn, split_lstrip; reflexivity. }
    rewrite IH;
      [|simpl; pose proof (length_skipn (span_len is_space r') r'); lia
       |pose proof (span_len_rest is_space r') as R;
        destruct (skipn (span_len is_space r') r'); [exact I | exact R]].
    pose proof (split_words (skipn (span_len is_space r') r')) as W.
    destruct (split (skipn (span_len is_space r') r')) as [|w ws] eqn:S;
      [reflexivity|].
    change (join (str " ") ([c] :: w :: ws))
      with (c :: ch " " :: join (str " ") (w :: ws)).
    destruct (join (str " ") (w :: ws)) eqn:J; [|reflexivity].
    apply (join_nonempty _ _ W) in J; discriminate J.
  - rewrite IH; [|simpl; lia | exact D].
    pose proof (split_starts d r' D) as N.
    assert (split (c :: d :: r')
            = match split (d :: r') with
              | w :: ws => (c :: w) :: ws
              | [] => [[c]]
              end) as ->
      by (change (split (c :: d :: r'))
            with (if is_space c then split (d :: r')
                  else if is_space d then [c] :: split (d :: r')
                       else match split (d :: r') with
                            | w :: ws => (c :: w) :: ws
                            | [] => [[c]]
                            end);
          rewrite H, D; reflexivity).
    destruct (split (d :: r')) as [|w ws]; [contradiction|].
    rewrite join_cons_word; reflexivity.
Qed.

Lemma lstrip_collapse (s : pystr) :
  lstrip (Re.sub whitespace_run s) = Re.sub whitespace_run (lstrip s).
Proof.
  destruct s as [|c r]; [reflexivity|].
  destruct (is_space c) eqn:E.
  - rewrite (sub_match _ _ _ _ _ (whitespace_run_space c r E)).
    assert (lstrip (c :: r) = skipn (span_len is_space r) r) as ->
      by (simpl; rewrite E; apply lstrip_skipn).
    change (str " " ++ ?x) with (ch " " :: x).
    rewrite (lstrip_cons_space (ch " ")) by reflexivity.
    apply lstrip_unchanged, sub_whitespace_no_leading.
    pose proof (span_len_rest is_space r) as R.
    destruct (skipn (span_len is_space r) r); [exact I | exact R].
  - rewrite (lstrip_unchanged (c :: r)) by exact E.
    apply lstrip_unchanged, sub_whitespace_no_leading; exact E.
Qed.

(** The two whitespace normalizers of the repository agree. *)
Lemma join_split_strip (s : pystr) :
  join (str " ") (split s) = strip (Re.sub whitespace_run s).
Proof.
  unfold strip; rewrite lstrip_collapse.
  rewrite rstrip_collapse_join by apply lstrip_no_leading.
  rewrite split_lstrip; reflexivity.
Qed.

Lemma clean_text_eq (text : pystr) :
  _clean_text text = strip (Re.sub whitespace_run (Re.sub any_tag text)).
Proof.
  unfold _clean_text; rewrite join_split_strip; apply strip_strip.
Qed.

End CleanText.

(** Cleaned text is one line with single spaces: it neither begins nor ends
    with whitespace, and each whitespace character in it is a space that is
    followed by a character that is not whitespace. *)
Theorem clean_text_single_spaced (text : pystr) :
  no_leading_space (MiroExtractor._clean_text text)
  /\ no_trailing_space (MiroExtractor._clean_text text)
  /\ collapsed (MiroExtractor._clean_text text)
  /\ Forall (fun c => is_space c = true -> c = ch " ")
       (MiroExtractor._clean_text text).
Proof.
  rewrite clean_text_eq.
  assert (collapsed (strip (Re.sub whitespace_run (Re.sub any_tag text)))) as C
    by apply collapsed_strip, sub_whitespace_collapsed.
  split; [apply strip_no_leading|].
  split; [apply strip_no_trailing|].
  split; [exact C | apply collapsed_spaces; exact C].
Qed.

(** On text in which no [<br>] or [</p>] occurs and whose tag-free part has
    no [&], the normalizer of the generator and the cleaner of the first
    extractor give the same result. *)
Theorem html_to_text_is_clean_text (html5 : pystr -> option pystr)
    (text : pystr) :
  Re.sub br_or_close_p text = text ->
  PyStr.mem (ch "&") (Re.sub any_tag text) = false ->
  _html_to_text html5 text = MiroExtractor._clean_text text.
Proof.
  intros Hbr Hamp; rewrite clean_text_eq; unfold _html_to_text.
  destruct text as [|c r]; [reflexivity|].
  cbn [nonempty negb]; rewrite Hbr, (unescape_plain html5 _ Hamp).
  reflexivity.
Qed.

Section CleanTextTwice.

Import ReFacts.

Lemma span_len_all (p : char -> bool) (s : pystr) :
  Forall (fun c => p c = true) s -> span_len p s = length s.
Proof.
  induction 1 as [|c r Hc _ IH]; simpl; [reflexivity|].
  rewrite Hc, IH; reflexivity.
Qed.

(** Where the tag pattern does not match at a [<], the [<] is last, or a
    [>] follows at once, or no [>] follows at all; and conversely. *)
Lemma any_tag_none (r : pystr) :
  any_tag (ch "<" :: r) = None <->
  match r with
  | [] => True
  | d :: _ => d = ch ">" \/ ~ In (ch ">") r
  end.
Proof.
  unfold any_tag; change (char_eqb (ch "<") (ch "<")) with true.
  cbv beta iota zeta.
  set (p := fun x => negb (char_eqb x (ch ">"))).
  pose proof (span_len_rest p r) as R.
  pose proof (span_len_run p r) as F.
  destruct r as [|d r']; [simpl; tauto|].
  destruct (span_len p (d :: r')) as [|n] eqn:L.
  - split; [intros _ | reflexivity]; left.
    simpl in L; destruct (p d) eqn:E; [discriminate L|].
    unfold p in E; apply negb_false_iff, char_eqb_eq in E; exact E.
  - destruct (skipn (S n) (d :: r')) as [|g u] eqn:K.
    + split; [intros _ | reflexivity]; right.
      rewrite <- (firstn_skipn (S n) (d :: r')), K, app_nil_r.
      intros Hin; rewrite Forall_forall in F; apply F in Hin.
      discriminate Hin.
    + unfold p in R; apply negb_false_iff in R; rewrite R.
      split; [discriminate|].
      intros [E | E]; exfalso.
      * subst d; simpl in L; discriminate L.
      * apply E; rewrite <- (firstn_skipn (S n) (d :: r')), K.
        apply in_or_app; right; left.
        apply char_eqb_eq in R; exact R.
Qed.

Lemma any_tag_some (s : pystr) (n : nat) (repl : pystr) :
  any_tag s = Some (n, repl) -> repl = [] /\ exists k, n = S k.
Proof.
  unfold any_tag; destruct s as [|a r]; [discriminate|].
  destruct (char_eqb a (ch "<")); [|discriminate].
  cbv zeta.
  destruct (span_len _ r); [discriminate|].
  destruct (skipn _ r) as [|g u]; [discriminate|].
  destruct (char_eqb g (ch ">")); [|discriminate].
  intros H; inversion H; eauto.
Qed.

Lemma sub_any_tag_In (c : char) (s : pystr) :
  In c (Re.sub any_tag s) -> In c s.
Proof.
  pattern s; apply suffix_induction; clear s.
  intros [|a r] IH; [trivial|].
  destruct (any_tag (a :: r)) as [[n repl]|] eqn:M.
  - destruct (any_tag_some _ _ _ M) as [-> [k ->]].
    rewrite (sub_match _ _ _ _ _ M); simpl app; intros H.
    right; apply IH in H; [|simpl; rewrite length_skipn; lia].
    rewrite <- (firstn_skipn k r); apply in_or_app; right; exact H.
  - rewrite (sub_nomatch _ _ _ M).
    intros [<- | H]; [left; reflexivity | right; apply IH; [simpl; lia | exact H]].
Qed.

(** After the tags are removed, no [<] that is left opens a tag. *)
Lemma sub_any_tag_tagless (s : pystr) : tagless (Re.sub any_tag s).
Proof.
  pattern s; apply suffix_induction; clear s.
  intros [|a r] IH; [exact I|].
  destruct (any_tag (a :: r)) as [[n repl]|] eqn:M.
  - destruct (any_tag_some _ _ _ M) as [-> [k ->]].
    rewrite (sub_match _ _ _ _ _ M); simpl app.
    apply IH; simpl; rewrite length_skipn; lia.
  - rewrite (sub_nomatch _ _ _ M); simpl; split; [|apply IH; simpl; lia].
    intros ->; apply any_tag_none in M.
    destruct r as [|d r']; [exact I|].
    destruct M as [-> | M].
    + rewrite sub_nomatch by (apply any_tag_start; discriminate).
      left; reflexivity.
    + destruct (Re.sub any_tag (d :: r')) as [|d' t] eqn:T; [exact I|].
      right; intros Hin; apply M.
      apply sub_any_tag_In; rewrite T; exact Hin.
Qed.

(** Text in which no [<] opens a tag has no tag to remove. *)
Lemma tagless_unchanged (s : pystr) : tagless s -> Re.sub any_tag s = s.
Proof.
  induction s as [|c r IH]; [reflexivity|].
  intros [H T].
  assert (any_tag (c :: r) = None) as M.
  { destruct (N.eq_dec c (ch "<")) as [-> | Hne];
      [apply any_tag_none, H; reflexivity | apply any_tag_start; exact Hne]. }
  rewrite (sub_nomatch _ _ _ M), (IH T); reflexivity.
Qed.

Lemma whitespace_edit_refl (s : pystr) : whitespace_edit s s.
Proof. induction s; constructor; assumption. Qed.

Lemma whitespace_edit_drop (p s t : pystr) :
  Forall (fun c => is_space c = true) p ->
  whitespace_edit s t -> whitespace_edit (p ++ s) t.
Proof.
  intros F W; induction F as [|c p Hc _ IH]; simpl; [exact W|].
  apply we_drop; assumption.
Qed.

Lemma whitespace_edit_drop_end (s p : pystr) :
  Forall (fun c => is_space c = true) p -> whitespace_edit (s ++ p) s.
Proof.
  intros H; induction s as [|c s IH]; simpl; [|apply we_keep; exact IH].
  rewrite <- (app_nil_r p); apply whitespace_edit_drop; [exact H | constructor].
Qed.

Lemma whitespace_edit_collapse (s : pystr) :
  whitespace_edit s (Re.sub whitespace_run s).
Proof.
  pattern s; apply suffix_induction; clear s.
  intros [|c r] IH; [constructor|].
  destruct (is_space c) eqn:E.
  - rewrite (sub_match _ _ _ _ _ (whitespace_run_space c r E)).
    change (str " " ++ ?x) with (ch " " :: x).
    apply we_space; [exact E|].
    rewrite <- (firstn_skipn (span_len is_space r) r) at 1.
    apply whitespace_edit_drop; [apply span_len_run|].
    apply IH; simpl; rewrite length_skipn; lia.
  - rewrite (sub_nomatch _ _ _ (whitespace_run_other c r E)).
    apply we_keep, IH; simpl; lia.
Qed.

Lemma lstrip_spaces (s : pystr) :
  exists pre, s = pre ++ lstrip s /\ Forall (fun c => is_space c = true) pre.
Proof.
  induction s as [|c r [pre [E F]]]; simpl; [exists []; split; [reflexivity | constructor]|].
  destruct (is_space c) eqn:S.
  - exists (c :: pre); split; [simpl; f_equal; exact E | constructor; assumption].
  - exists []; split; [reflexivity | constructor].
Qed.

Lemma whitespace_edit_strip (s : pystr) : whitespace_edit s (strip s).
Proof.
  unfold strip, rstrip.
  destruct (lstrip_spaces s) as [pre [E F]].
  destruct (lstrip_spaces (rev (lstrip s))) as [suf [E' F']].
  rewrite E at 1; apply whitespace_edit_drop; [exact F|].
  assert (lstrip s = rev (lstrip (rev (lstrip s))) ++ rev suf) as G
    by (rewrite <- rev_app_distr, <- E', rev_involutive; reflexivity).
  rewrite G at 1; apply whitespace_edit_drop_end.
  apply Forall_rev; exact F'.
Qed.

Lemma whitespace_edit_In (s t : pystr) (c : char) :
  whitespace_edit s t -> In c t -> In c s \/ c = ch " ".
Proof.
  induction 1 as [|a s t _ IH|a s t _ _ IH|a s t _ _ IH]; simpl; intros H.
  - destruct H.
  - destruct H as [<- | H]; [left; left; reflexivity|].
    destruct (IH H); auto.
  - destruct (IH H); auto.
  - destruct H as [<- | H]; [right; reflexivity|].
    destruct (IH H); auto.
Qed.

(** Editing whitespace opens no tag. *)
Lemma whitespace_edit_tagless (s t : pystr) :
  whitespace_edit s t -> tagless s -> tagless t.
Proof.
  induction 1 as [|a s t W IH|a s t _ _ IH|a s t _ _ IH];
    simpl; intros H; try tauto.
  - destruct H as [H T]; split; [|apply IH; exact T].
    intros Ea; specialize (H Ea).
    destruct t as [|d' t']; [exact I|].
    destruct s as [|d s']; [inversion W|].
    destruct H as [-> | H].
    + inversion W; subst; try (left; reflexivity); discriminate.
    + right; intros Hin.
      destruct (whitespace_edit_In _ _ _ W Hin) as [G | G];
        [contradiction | discriminate G].
  - split; [discriminate | apply IH; tauto].
Qed.

Lemma clean_text_tagless (text : pystr) :
  tagless (MiroExtractor._clean_text text).
Proof.
  rewrite clean_text_eq.
  eapply whitespace_edit_tagless; [apply whitespace_edit_strip|].
  eapply whitespace_edit_tagless; [apply whitespace_edit_collapse|].
  apply sub_any_tag_tagless.
Qed.

End CleanTextTwice.

(** Cleaning text twice gives what cleaning it once gives. *)
Theorem clean_text_idempotent (text : pystr) :
  MiroExtractor._clean_text (MiroExtractor._clean_text text)
  = MiroExtractor._clean_text text.
Proof.
  rewrite (clean_text_eq (MiroExtractor._clean_text text)).
  rewrite (tagless_unchanged _ (clean_text_tagless text)).
  rewrite clean_text_eq; apply whitespace_normal_form.
Qed.

(* ================================================================== *)
(** ** [generate_mermaid] of the first extractor *)

Section MiroDocument.

Import DictFacts.
Import MiroExtractor.

Lemma decimal_inj (n m : nat) : decimal n = decimal m -> n = m.
Proof.
  unfold decimal; intros H.
  apply DecimalNat.Unsigned.to_uint_inj.
  assert (Some (Nat.to_uint n) = Some (Nat.to_uint m)) as G; [|inversion G; reflexivity].
  rewrite <- !NilEmpty.usu; f_equal.
  rewrite <- (string_of_list_ascii_of_string (NilEmpty.string_of_uint (Nat.to_uint n))).
  rewrite <- (string_of_list_ascii_of_string (NilEmpty.string_of_uint (Nat.to_uint m))).
  f_equal.
  revert H.
  generalize (list_ascii_of_string (NilEmpty.string_of_uint (Nat.to_uint n))).
  generalize (list_ascii_of_string (NilEmpty.string_of_uint (Nat.to_uint m))).
  intros l2 l1; revert l2; induction l1 as [|a l1 IH]; intros [|b l2] H;
    try discriminate; [reflexivity|].
  simpl in H; inversion H as [[Ha Hl]]; f_equal; [|apply IH; exact Hl].
  rewrite <- (ascii_N_embedding a), <- (ascii_N_embedding b), Ha; reflexivity.
Qed.

Lemma numbered_id_inj (i j : nat) : numbered_id i = numbered_id j -> i = j.
Proof.
  unfold numbered_id; intros H; apply app_inv_head, decimal_inj in H; lia.
Qed.

Lemma get_assign_ids_other (ks : list pystr) (k : pystr) :
  ~ In k ks -> forall m i, get (assign_ids m i ks) k = get m k.
Proof.
  induction ks as [|a r IH]; intros H m i; simpl; [reflexivity|].
  rewrite IH by (intros G; apply H; right; exact G).
  apply get_set_other; intros ->; apply H; left; reflexivity.
Qed.

(** With distinct keys, the key at position [j] gets the identifier
    numbered [i + j + 1]. *)
Lemma get_assign_ids (ks : list pystr) :
  NoDup ks ->
  forall m i j k,
    nth_error ks j = Some k ->
    get (assign_ids m i ks) k = Some (numbered_id (i + j)).
Proof.
  induction 1 as [|a r Ha _ IH]; intros m i j k Hj; [destruct j; discriminate Hj|].
  simpl assign_ids; destruct j as [|j]; simpl in Hj.
  - inversion Hj; subst a.
    rewrite (get_assign_ids_other r k Ha), get_set_same, Nat.add_0_r.
    reflexivity.
  - rewrite (IH _ (S i) j k Hj); f_equal; f_equal; lia.
Qed.

Lemma mem_assign_ids (ks : list pystr) (k : pystr) :
  forall m i, mem k (assign_ids m i ks) = true <-> mem k m = true \/ In k ks.
Proof.
  induction ks as [|a r IH]; intros m i; simpl; [tauto|].
  rewrite IH, mem_set; tauto.
Qed.

Lemma miro_node_lines_total (id_mapping : dict pystr) (l : dict tree_node) :
  (forall k, In k (keys l) -> mem k id_mapping = true) ->
  exists lines,
    node_lines id_mapping l = Ok lines /\ length lines = length l.
Proof.
  induction l as [|[k nd] r IH]; intros H; simpl; [exists []; auto|].
  destruct IH as [ls [E L]]; [intros k' Hk'; apply H; right; exact Hk'|].
  destruct (subscript_mem id_mapping k) as [mid M];
    [apply H; left; reflexivity|].
  unfold node_line; rewrite M; simpl bind at 1.
  destruct (if PyStr.eqb (type nd) (str "start") then (str "([", str "])")
            else if PyStr.eqb (type nd) (str "question") then (str "{", str "}")
                 else (str "[", str "]")) as [a b].
  simpl bind at 1; rewrite E; simpl.
  eexists; split; [reflexivity | simpl; f_equal; exact L].
Qed.

Lemma miro_connection_lines_total (id_mapping : dict pystr)
    (l : dict tree_node) :
  (forall k, In k (keys l) -> mem k id_mapping = true) ->
  exists lines, connection_lines id_mapping l = Ok lines.
Proof.
  induction l as [|[k nd] r IH]; intros H; simpl; [eauto|].
  destruct IH as [ls E]; [intros k' Hk'; apply H; right; exact Hk'|].
  destruct (subscript_mem id_mapping k) as [mid ->];
    [apply H; left; reflexivity|].
  simpl; rewrite E; simpl; eauto.
Qed.

Lemma option_line_cases (id_mapping : dict pystr) (from : pystr)
    (opt : tree_option) :
  (forall k v, get id_mapping k = Some v -> nonempty v = true) ->
  if mem (next opt) id_mapping
  then exists line, option_line id_mapping from opt = [line]
  else option_line id_mapping from opt = [].
Proof.
  intros H; unfold option_line, mem.
  destruct (get id_mapping (next opt)) as [v|] eqn:G; [|reflexivity].
  rewrite (H _ _ G).
  destruct (nonempty _); eauto.
Qed.

Lemma assign_ids_values (ks : list pystr) :
  forall m i,
    (forall k v, get m k = Some v -> nonempty v = true) ->
    forall k v, get (assign_ids m i ks) k = Some v -> nonempty v = true.
Proof.
  induction ks as [|a r IH]; intros m i H; simpl; [exact H|].
  apply IH; intros k v.
  destruct (PyStr.eqb a k) eqn:E.
  - apply pystr_eqb_eq in E; subst a; rewrite get_set_same.
    intros G; inversion G; reflexivity.
  - apply pystr_eqb_neq in E; rewrite (get_set_other m a k _ E); apply H.
Qed.

End MiroDocument.

(** The first extractor numbers the nodes: with distinct keys, the key at
    position [j] of the tree is mapped to the identifier "node" followed by
    the decimal numeral of [j + 1], and two different keys never get the
    same identifier. *)
Theorem miro_ids_numbered (tree : MiroExtractor.decision_tree) :
  NoDup (keys (MiroExtractor.nodes tree)) ->
  let id_mapping :=
    MiroExtractor.assign_ids [] 0 (keys (MiroExtractor.nodes tree)) in
  (forall j k,
      nth_error (keys (MiroExtractor.nodes tree)) j = Some k ->
      get id_mapping k = Some (numbered_id j))
  /\ (forall k1 k2 v,
         get id_mapping k1 = Some v -> get id_mapping k2 = Some v -> k1 = k2).
Proof.
  intros N id_mapping.
  assert (forall j k,
             nth_error (keys (MiroExtractor.nodes tree)) j = Some k ->
             get id_mapping k = Some (numbered_id j)) as G
    by (intros j k H; apply (get_assign_ids _ N [] 0 j k H)).
  split; [exact G|].
  assert (forall k v, get id_mapping k = Some v ->
                      exists j, nth_error (keys (MiroExtractor.nodes tree)) j = Some k
                                /\ v = numbered_id j) as Inv.
  { intros k v H.
    destruct (in_dec (list_eq_dec N.eq_dec) k (keys (MiroExtractor.nodes tree)))
      as [Hin | Hout].
    - apply In_nth_error in Hin; destruct Hin as [j Hj].
      exists j; split; [exact Hj|].
      rewrite (G j k Hj) in H; inversion H; reflexivity.
    - unfold id_mapping in H.
      rewrite (get_assign_ids_other _ k Hout) in H; discriminate H. }
  intros k1 k2 v H1 H2.
  destruct (Inv k1 v H1) as [j1 [E1 ->]].
  destruct (Inv k2 _ H2) as [j2 [E2 E]].
  apply numbered_id_inj in E; subst j2; congruence.
Qed.

Lemma option_lines_count (id_mapping : dict pystr) (from : pystr)
    (opts : list MiroExtractor.tree_option) :
  (forall k v, get id_mapping k = Some v -> nonempty v = true) ->
  length (flat_map (MiroExtractor.option_line id_mapping from) opts)
  = length (filter (fun o => mem (MiroExtractor.next o) id_mapping) opts).
Proof.
  intros H; induction opts as [|o rest IH]; [reflexivity|].
  simpl flat_map; simpl filter; rewrite length_app, IH.
  pose proof (option_line_cases id_mapping from o H) as C.
  destruct (mem (MiroExtractor.next o) id_mapping).
  - destruct C as [line ->]; reflexivity.
  - rewrite C; reflexivity.
Qed.

Lemma miro_connection_lines_count (id_mapping : dict pystr)
    (l : dict MiroExtractor.tree_node) :
  (forall k v, get id_mapping k = Some v -> nonempty v = true) ->
  (forall k, In k (keys l) -> mem k id_mapping = true) ->
  exists lines,
    MiroExtractor.connection_lines id_mapping l = Ok lines
    /\ length lines
       = length (filter (fun o => mem (MiroExtractor.next o) id_mapping)
                   (flat_map (fun e => MiroExtractor.options (snd e)) l)).
Proof.
  intros Hv; induction l as [|[k nd] r IH]; intros H; simpl; [exists []; auto|].
  destruct IH as [ls [E L]]; [intros k' Hk'; apply H; right; exact Hk'|].
  destruct (DictFacts.subscript_mem id_mapping k) as [mid ->];
    [apply H; left; reflexivity|].
  simpl; rewrite E; simpl.
  eexists; split; [reflexivity|].
  rewrite length_app, filter_app, length_app, L.
  rewrite (option_lines_count id_mapping mid _ Hv); reflexivity.
Qed.

(** The first extractor's generator never fails on a tree: it returns the
    header, one declaration line for every node, an empty line and one
    connection line for every option whose target is a key of the tree; on
    a tree without nodes that is the header and the empty line. *)
Theorem miro_generate_mermaid_total (tree : MiroExtractor.decision_tree) :
  exists declarations connections,
    length declarations = length (MiroExtractor.nodes tree)
    /\ length connections
       = length (filter
                   (fun o => mem (MiroExtractor.next o) (MiroExtractor.nodes tree))
                   (flat_map (fun e => MiroExtractor.options (snd e))
                      (MiroExtractor.nodes tree)))
    /\ MiroExtractor.generate_mermaid tree
       = Ok (join [newline]
               ([str "flowchart TD"] ++ declarations ++ [[]] ++ connections)).
Proof.
  unfold MiroExtractor.generate_mermaid.
  set (id_mapping := MiroExtractor.assign_ids [] 0
                       (keys (MiroExtractor.nodes tree))).
  assert (forall k, mem k id_mapping = mem k (MiroExtractor.nodes tree)) as Mb.
  { intros k; pose proof (mem_assign_ids (keys (MiroExtractor.nodes tree)) k [] 0) as I.
    fold id_mapping in I.
    pose proof (DictFacts.mem_In (MiroExtractor.nodes tree) k) as J.
    destruct (mem k id_mapping), (mem k (MiroExtractor.nodes tree));
      try reflexivity.
    - destruct (proj1 I eq_refl) as [G | G]; [discriminate G|].
      apply J in G; discriminate G.
    - assert (true = true) as T by reflexivity.
      apply J in T; assert (false = true) as G by (apply I; right; exact T).
      discriminate G. }
  assert (forall k, In k (keys (MiroExtractor.nodes tree)) ->
                    mem k id_mapping = true) as M
    by (intros k H; apply mem_assign_ids; right; exact H).
  assert (forall k v, get id_mapping k = Some v -> nonempty v = true) as V.
  { apply assign_ids_values; intros k v H; discriminate H. }
  destruct (miro_node_lines_total _ _ M) as [ds [-> L]].
  destruct (miro_connection_lines_count id_mapping _ V M) as [cs [-> C]].
  exists ds, cs; split; [exact L|]; split; [|reflexivity].
  etransitivity; [exact C|]; f_equal; apply filter_ext; intros o; apply Mb.
Qed.

(** An option of a node yields one connection line when its target is a
    key of the tree and no line otherwise. *)
Theorem miro_option_resolved (tree : MiroExtractor.decision_tree)
    (from : pystr) (opt : MiroExtractor.tree_option) :
  let id_mapping :=
    MiroExtractor.assign_ids [] 0 (keys (MiroExtractor.nodes tree)) in
  (In (MiroExtractor.next opt) (keys (MiroExtractor.nodes tree)) ->
   exists line, MiroExtractor.option_line id_mapping from opt = [line])
  /\ (~ In (MiroExtractor.next opt) (keys (MiroExtractor.nodes tree)) ->
      MiroExtractor.option_line id_mapping from opt = []).
Proof.
  intros id_mapping.
  assert (forall k v, get (@nil (pystr * pystr)) k = Some v ->
                      nonempty v = true) as E0
    by (intros k v H; discriminate H).
  pose proof (option_line_cases id_mapping from opt
                (assign_ids_values _ [] 0 E0)) as C.
  destruct (mem (MiroExtractor.next opt) id_mapping) eqn:E.
  - split; [intros _; exact C|].
    intros H; exfalso; apply H.
    apply mem_assign_ids in E; destruct E as [E | E]; [discriminate E | exact E].
  - split; [|intros _; exact C].
    intros H.
    assert (mem (MiroExtractor.next opt) id_mapping = true) as G
      by (apply mem_assign_ids; right; exact H).
    congruence.
Qed.

(* ================================================================== *)
(** ** The plain converter *)

Section PlainConverter.

Import DictFacts.
Import GptRawToMermaid.

Variable html5 : pystr -> option pystr.

Lemma included_type_nonempty (t : pystr) :
  str_in t NODE_TYPES_INCLUDE = true -> nonempty t = true.
Proof.
  unfold NODE_TYPES_INCLUDE, str_in; simpl existsb.
  destruct t; [intros H; vm_compute in H; discriminate H | reflexivity].
Qed.

Lemma item_label_bounds (t : pystr) (it : item) :
  nonempty t = true ->
  item_label html5 t it <> [] /\ length (item_label html5 t it) <= 80.
Proof.
  intros Ht; unfold item_label.
  set (label := _html_to_text html5 _).
  set (l := if nonempty label then label else t).
  assert (nonempty l = true) as Hl
    by (unfold l; destruct (nonempty label) eqn:E; [exact E | exact Ht]).
  split; [|apply (truncated_length 77)].
  destruct (Nat.ltb 80 (length l)) eqn:L.
  - destruct (firstn 77 l); discriminate.
  - destruct l; [discriminate Hl | discriminate].
Qed.

Lemma plain_add_item_cases (nodes : dict pystr) (it : item) :
  add_item html5 nodes it = nodes
  \/ exists k t,
      id it = Some k /\ nonempty k = true /\ type it = Some t
      /\ str_in t NODE_TYPES_INCLUDE = true
      /\ add_item html5 nodes it = set nodes k (item_label html5 t it).
Proof.
  unfold add_item.
  destruct (id it) as [k|]; [|left; reflexivity].
  destruct (nonempty k) eqn:N; cbn [negb]; [|left; reflexivity].
  destruct (type it) as [t|]; [|left; reflexivity].
  destruct (str_in t NODE_TYPES_INCLUDE) eqn:S; cbn [negb]; [|left; reflexivity].
  right; exists k, t; auto.
Qed.

Lemma plain_keys_kept (nodes : dict pystr) (it : item) (k : pystr) :
  In k (keys nodes) -> In k (keys (add_item html5 nodes it)).
Proof.
  intros H; destruct (plain_add_item_cases nodes it)
    as [-> | [k' [t [_ [_ [_ [_ ->]]]]]]]; [exact H|].
  rewrite keys_set; destruct (mem k' nodes); [exact H|].
  apply in_or_app; left; exact H.
Qed.

Lemma plain_fold_keys_kept (its : list item) (k : pystr) :
  forall nodes,
    In k (keys nodes) -> In k (keys (fold_left (add_item html5) its nodes)).
Proof.
  induction its as [|it rest IH]; intros nodes H; simpl; [exact H|].
  apply IH, plain_keys_kept; exact H.
Qed.

Lemma plain_labels_invariant (its : list item) :
  forall nodes,
    (forall k l, In (k, l) nodes -> l <> [] /\ length l <= 80) ->
    forall k l, In (k, l) (fold_left (add_item html5) its nodes) ->
                l <> [] /\ length l <= 80.
Proof.
  induction its as [|it rest IH]; intros nodes H; simpl; [exact H|].
  apply IH.
  destruct (plain_add_item_cases nodes it)
    as [-> | [k' [t [_ [_ [_ [Ht ->]]]]]]]; [exact H|].
  apply entries_set; [|exact H].
  apply item_label_bounds, included_type_nonempty; exact Ht.
Qed.

Lemma plain_get_id_map (nodes : dict pystr) (k : pystr) :
  get (fold_left (fun m orig => set m orig (sanitize_id orig)) (keys nodes) []) k
  = if mem k nodes then Some (sanitize_id k) else None.
Proof. rewrite get_sanitized, mem_keys; reflexivity. Qed.

Lemma and_then_f_write (s s' : pystr) (k k' : unit -> writing unit)
    (file : pystr) :
  s = s' -> (forall file', k tt file' = k' tt file') ->
  and_then (f_write s) k file = and_then (f_write s') k' file.
Proof.
  intros <- K; unfold and_then.
  destruct (f_write s file) as [[[]|e] file']; [apply K | reflexivity].
Qed.

Lemma and_then_lookup (id_map : dict pystr) (key v : pystr)
    (k : pystr -> writing unit) (file : pystr) :
  get id_map key = Some v ->
  and_then (lookup id_map key) k file = k v file.
Proof. intros G; unfold and_then, lookup; rewrite G; reflexivity. Qed.

Lemma plain_write_nodes (id_map : dict pystr) (l : dict pystr) (file : pystr) :
  (forall k, In k (keys l) -> get id_map k = Some (sanitize_id k)) ->
  write_nodes id_map l file
  = write_lines (List.map plain_node_declaration l) file.
Proof.
  revert file; induction l as [|[k label] r IH]; intros file H; [reflexivity|].
  cbn [write_nodes List.map write_lines].
  rewrite (and_then_lookup id_map k (sanitize_id k))
    by exact (H k (or_introl eq_refl)).
  apply and_then_f_write.
  - unfold plain_node_declaration; cbn [fst snd].
    rewrite <- !app_assoc; reflexivity.
  - intros file'; apply IH; intros k' Hk'; apply H; right; exact Hk'.
Qed.

Lemma plain_write_edges (nodes : dict pystr) (id_map : dict pystr)
    (edges : list connection) (file : pystr) :
  (forall k, get id_map k = if mem k nodes then Some (sanitize_id k) else None) ->
  write_edges id_map edges file
  = write_lines
      (List.map plain_edge_declaration (filter (resolvedb nodes) edges)) file.
Proof.
  intros H.
  assert (forall k, mem k id_map = mem k nodes) as M
    by (intros k; unfold mem at 1; rewrite H; destruct (mem k nodes); reflexivity).
  revert file; induction edges as [|[[s d] l] rest IH]; intros file;
    [reflexivity|].
  cbn [write_edges filter]; unfold resolvedb at 1; cbn [fst snd].
  rewrite !M.
  pose proof (H s) as Hs; pose proof (H d) as Hd.
  destruct (mem s nodes); [|apply IH].
  destruct (mem d nodes); [|apply IH].
  cbn [negb orb andb List.map write_lines].
  unfold plain_edge_declaration.
  destruct (nonempty l);
    rewrite (and_then_lookup id_map s (sanitize_id s)) by exact Hs;
    rewrite (and_then_lookup id_map d (sanitize_id d)) by exact Hd;
    (apply and_then_f_write;
     [rewrite <- !app_assoc; reflexivity | intros file'; apply IH]).
Qed.

Lemma write_lines_app (a b : list pystr) (file : pystr) :
  write_lines (a ++ b) file
  = and_then (write_lines a) (fun _ => write_lines b) file.
Proof.
  revert file; induction a as [|line a IH]; intros file; [reflexivity|].
  simpl app; simpl write_lines; unfold and_then at 1 2 3.
  destruct (f_write _ file) as [[u|e] file']; [|reflexivity].
  rewrite IH; reflexivity.
Qed.

Lemma has_surrogate_line (line : pystr) :
  has_surrogate (line ++ [newline]) = has_surrogate line.
Proof.
  unfold has_surrogate; rewrite existsb_app; simpl existsb.
  rewrite !orb_false_r; reflexivity.
Qed.

Lemma write_lines_cases (lines : list pystr) (file : pystr) :
  write_lines lines file
  = (inl tt, file ++ concat (List.map (fun line => line ++ [newline]) lines))
  \/ (exists written,
        write_lines lines file = (inr UnicodeEncodeErrorRaised, written))
     /\ (exists line, In line lines /\ has_surrogate line = true).
Proof.
  revert file; induction lines as [|line r IH]; intros file.
  - left; simpl; unfold ret; rewrite app_nil_r; reflexivity.
  - simpl write_lines; unfold and_then, f_write.
    rewrite has_surrogate_line.
    destruct (has_surrogate line) eqn:S.
    + right; split; [exists file; reflexivity|].
      exists line; split; [left; reflexivity | exact S].
    + destruct (IH (file ++ line ++ [newline])) as [E | [[w E] [l [I Hl]]]].
      * left; rewrite E; simpl List.map; simpl concat.
        rewrite <- !app_assoc; reflexivity.
      * right; split; [exists w; exact E|].
        exists l; split; [right; exact I | exact Hl].
Qed.

Lemma write_mermaid_lines (nodes : dict pystr) (edges : list connection) :
  write_mermaid nodes edges
  = match write_lines (plain_lines nodes edges) [] with
    | (inl _, file) =>
        (inl (fold_left (fun m orig => set m orig (sanitize_id orig))
                (keys nodes) []), file)
    | (inr e, file) => (inr e, file)
    end.
Proof.
  unfold write_mermaid, plain_lines.
  set (id_map := fold_left (fun m orig => set m orig (sanitize_id orig))
                   (keys nodes) []).
  pose proof (plain_get_id_map nodes) as G; fold id_map in G.
  simpl app; simpl write_lines; unfold and_then at 1 4.
  destruct (f_write _ []) as [[u|e] file]; [|reflexivity].
  rewrite write_lines_app; unfold and_then.
  rewrite plain_write_nodes
    by (intros k Hk; rewrite G;
        rewrite (proj2 (DictFacts.mem_In nodes k) Hk); reflexivity).
  destruct (write_lines _ file) as [[u'|e] file']; [|reflexivity].
  rewrite (plain_write_edges nodes id_map edges file' G).
  destruct (write_lines _ file') as [[u''|e] file'']; reflexivity.
Qed.

End PlainConverter.

(** Every label the plain converter extracts is non-empty and has at most
    80 characters. *)
Theorem plain_labels_bounded (html5 : pystr -> option pystr)
    (its : list GptRawToMermaid.item) (cs : list RawConnector)
    (k label : pystr) :
  In (k, label) (fst (GptRawToMermaid.extract_nodes_and_edges html5 its cs)) ->
  label <> [] /\ length label <= 80.
Proof.
  unfold GptRawToMermaid.extract_nodes_and_edges; simpl fst.
  apply plain_labels_invariant; intros k' l' [].
Qed.

(** The plain converter drops no eligible item: every item with a non-empty
    identifier and a type among shape, sticky_note, text and doc_format has
    its identifier among the keys of the extracted nodes. *)
Theorem plain_items_kept (html5 : pystr -> option pystr)
    (its : list GptRawToMermaid.item) (cs : list RawConnector)
    (it : GptRawToMermaid.item) (k t : pystr) :
  In it its ->
  GptRawToMermaid.id it = Some k ->
  nonempty k = true ->
  GptRawToMermaid.type it = Some t ->
  str_in t GptRawToMermaid.NODE_TYPES_INCLUDE = true ->
  In k (keys (fst (GptRawToMermaid.extract_nodes_and_edges html5 its cs))).
Proof.
  unfold GptRawToMermaid.extract_nodes_and_edges; simpl fst.
  intros Hin Hid Hk Ht Hs.
  generalize (@nil (pystr * pystr)).
  induction its as [|a rest IH]; [destruct Hin|]; intros nodes; simpl.
  destruct Hin as [-> | Hin]; [|apply IH; exact Hin].
  apply plain_fold_keys_kept.
  unfold GptRawToMermaid.add_item; rewrite Hid, Hk, Ht, Hs; cbn [negb].
  apply DictFacts.mem_In, DictFacts.mem_set; left; reflexivity.
Qed.

(** What the plain converter writes: no subscript of its [id_map] fails;
    when it returns, the file holds the header, one line for every node in
    insertion order and one line for each edge whose two identifiers are
    keys of the nodes, each line ended by a newline, and the returned map
    sends each node key to its sanitized form; when a write raises
    [UnicodeEncodeError], one of these lines holds a surrogate. *)
Theorem plain_write_mermaid (nodes : dict pystr) (edges : list connection) :
  fst (GptRawToMermaid.write_mermaid nodes edges)
    <> inr GptRawToMermaid.KeyErrorRaised
  /\ (forall id_map,
        fst (GptRawToMermaid.write_mermaid nodes edges) = inl id_map ->
        snd (GptRawToMermaid.write_mermaid nodes edges)
        = concat (List.map (fun line => line ++ [newline])
                    (plain_lines nodes edges))
        /\ forall k,
            get id_map k = if mem k nodes then Some (sanitize_id k) else None)
  /\ (fst (GptRawToMermaid.write_mermaid nodes edges)
        = inr GptRawToMermaid.UnicodeEncodeErrorRaised ->
      exists line,
        In line (plain_lines nodes edges) /\ has_surrogate line = true).
Proof.
  rewrite write_mermaid_lines.
  destruct (write_lines_cases (plain_lines nodes edges) [])
    as [E | [[w E] S]]; rewrite E; simpl fst; simpl snd.
  - split; [discriminate|]; split; [|discriminate].
    intros id_map H; split; [reflexivity|].
    injection H as <-; apply plain_get_id_map.
  - split; [discriminate|]; split; [discriminate|].
    intros _; exact S.
Qed.

Lemma plain_write_mermaid_witness :
  snd (GptRawToMermaid.write_mermaid
         [(str "1", str "A<b"); (str "x", str "End")]
         [(str "1", str "x", str "yes"); (str "1", str "9", [])])
  = str "flowchart TD" ++ [newline]
      ++ str "    N1[A&lt;b]" ++ [newline]
      ++ str "    x[End]" ++ [newline]
      ++ str "    N1 -->|yes| x" ++ [newline].
Proof.
  exact (proj1 (proj1 (proj2
           (plain_write_mermaid
              [(str "1", str "A<b"); (str "x", str "End")]
              [(str "1", str "x", str "yes"); (str "1", str "9", [])]))
           [(str "1", str "N1"); (str "x", str "x")] eq_refl)).
Defined.

(** A label with a lone surrogate: the header is written, then the write of
    the node line raises. *)
Example plain_write_mermaid_surrogate :
  GptRawToMermaid.write_mermaid [(str "1", [0xD800%N])] []
  = (inr GptRawToMermaid.UnicodeEncodeErrorRaised,
     str "flowchart TD" ++ [newline]).
Proof. reflexivity. Qed.

(* ================================================================== *)
(** ** Labels cannot break the lines of the document *)

Section Lines.

Variable html5 : pystr -> option pystr.

Lemma unbroken_app (a b : pystr) : unbroken a -> unbroken b -> unbroken (a ++ b).
Proof. intros Ha Hb; apply Forall_app; split; assumption. Qed.

Lemma unbroken_literals :
  unbroken (str "    ") /\ unbroken (str " -->|") /\ unbroken (str "| ")
  /\ unbroken (str " --> ") /\ unbroken [dquote] /\ unbroken (str "flowchart TD")
  /\ unbroken (str " / ").
Proof. repeat split; repeat constructor; discriminate. Qed.

Lemma join_unbroken (sep : pystr) (parts : list pystr) :
  unbroken sep -> Forall unbroken parts -> unbroken (join sep parts).
Proof.
  intros Hs; induction 1 as [|p rest Hp Hr IH]; [constructor|].
  destruct rest as [|q rest]; [exact Hp|].
  change (join sep (p :: q :: rest)) with (p ++ sep ++ join sep (q :: rest)).
  apply unbroken_app; [exact Hp | apply unbroken_app; [exact Hs | exact IH]].
Qed.

Lemma content_text_unbroken (o : option pystr) : unbroken (content_text html5 o).
Proof.
  unfold content_text; destruct o as [html|]; [|constructor].
  eapply Forall_impl;
    [|apply collapsed_spaces, (proj1 (html_to_text_normal html5 html))].
  intros c H ->; discriminate (H eq_refl).
Qed.

Lemma connection_label_unbroken (conn : RawConnector) (s e l : pystr) :
  connection_of html5 conn = Some (s, e, l) -> unbroken l.
Proof.
  unfold connection_of.
  destruct (startItem conn) as [rs|]; [|discriminate].
  destruct (ref_id rs); [|discriminate].
  destruct (endItem conn) as [re|]; [|discriminate].
  destruct (ref_id re); [|discriminate].
  destruct (negb _ || negb _); [discriminate|].
  intros H; inversion H; subst; clear H.
  destruct (captions conn) as [|c0 cs]; [constructor|].
  pose (texts := List.map (fun c => content_text html5 (caption_content c))
                   (c0 :: cs)).
  assert (Forall unbroken (filter nonempty texts)) as F.
  { apply Forall_forall; intros p Hp.
    apply filter_In in Hp; destruct Hp as [Hp _].
    unfold texts in Hp; apply in_map_iff in Hp; destruct Hp as [c [<- _]].
    apply content_text_unbroken. }
  exact (join_unbroken (str " / ") (filter nonempty texts)
           (proj2 (proj2 (proj2 (proj2 (proj2 (proj2 unbroken_literals)))))) F).
Qed.

Lemma edge_label_unbroken (label : pystr) : unbroken label -> unbroken (edge_label label).
Proof.
  intros H; unfold edge_label.
  apply truncated_Forall; [discriminate|].
  unfold clean_edge_text.
  eapply Forall_impl;
    [|apply sub_bracket_Forall with (P := fun c => c <> newline)];
    [intros c [Hc _]; exact Hc|].
  apply strip_Forall.
  repeat (apply replace_Forall;
          [repeat constructor; discriminate
          |intros c Hc _; revert c Hc; apply Forall_forall]).
  exact H.
Qed.

Lemma sanitize_id_unbroken (k : pystr) : unbroken (sanitize_id k).
Proof.
  eapply Forall_impl;
    [|eapply runs_replaced_words; apply sanitize_id_runs_replaced].
  intros c H ->; discriminate H.
Qed.

Lemma node_declaration_unbroken (e : pystr * node_info) :
  unbroken (node_declaration e).
Proof.
  assert (unbroken (node_label (text (snd e)))) as L
    by (eapply Forall_impl; [|apply node_label_chars]; intros c [_ H]; exact H).
  unfold node_declaration, get_mermaid_shape.
  destruct unbroken_literals as [P1 [_ [_ [_ [P5 _]]]]].
  destruct (mermaid_shape (snd e)); simpl fst; simpl snd;
    repeat first [ assumption
                 | apply sanitize_id_unbroken
                 | solve [repeat constructor; discriminate]
                 | apply unbroken_app
                 | apply Forall_cons; [discriminate|] ].
Qed.

Lemma edge_declaration_unbroken (c : connection) :
  unbroken (snd c) -> unbroken (edge_declaration c).
Proof.
  destruct c as [[s e] l]; simpl snd; intros H; unfold edge_declaration.
  destruct unbroken_literals as [P1 [P2 [P3 [P4 [P5 _]]]]].
  pose proof (edge_label_unbroken l H) as L.
  destruct (nonempty l);
    repeat first [ assumption
                 | apply sanitize_id_unbroken
                 | apply unbroken_app ].
Qed.

(** Joined lines that hold no newline are separated by one newline each. *)
Lemma count_join (lines : list pystr) :
  Forall unbroken lines ->
  count_occ N.eq_dec (join [newline] lines) newline = length lines - 1.
Proof.
  assert (forall p, unbroken p -> count_occ N.eq_dec p newline = 0) as Z.
  { intros p Hp; apply count_occ_not_In; intros Hin.
    unfold unbroken in Hp; rewrite Forall_forall in Hp.
    apply (Hp _ Hin); reflexivity. }
  induction 1 as [|p rest Hp Hr IH]; [reflexivity|].
  destruct rest as [|q rest]; [simpl; apply Z; exact Hp|].
  change (join [newline] (p :: q :: rest))
    with (p ++ [newline] ++ join [newline] (q :: rest)).
  rewrite !count_occ_app.
  pose proof (Z p Hp) as Zp.
  change (count_occ N.eq_dec [newline] newline) with 1.
  unfold pystr, char in *; rewrite Zp, IH; simpl; lia.
Qed.

Lemma document_lines_unbroken (data : BoardData) (sid : pystr) (info : node_info) :
  let nodes := fst (extract_nodes_and_connections html5 data) in
  let connections := snd (extract_nodes_and_connections html5 data) in
  Forall unbroken
    ([str "flowchart TD"; node_declaration (sid, info)]
       ++ List.map node_declaration
            (filter (fun e => negb (PyStr.eqb (fst e) sid)) nodes)
       ++ [[]]
       ++ List.map edge_declaration (filter (resolvedb nodes) connections)).
Proof.
  intros nodes connections.
  apply Forall_app; split; [|apply Forall_app; split; [|apply Forall_app; split]].
  - constructor; [apply unbroken_literals|].
    constructor; [apply node_declaration_unbroken | constructor].
  - apply Forall_forall; intros line H; apply in_map_iff in H.
    destruct H as [e [<- _]]; apply node_declaration_unbroken.
  - repeat constructor.
  - apply Forall_forall; intros line H; apply in_map_iff in H.
    destruct H as [[[s e] l] [<- H]]; apply edge_declaration_unbroken.
    apply filter_In in H; destruct H as [H _].
    unfold connections, extract_nodes_and_connections in H; simpl snd in H.
    apply in_flat_map in H; destruct H as [conn [_ H]].
    destruct (connection_of html5 conn) as [c|] eqn:E; [|destruct H].
    destruct H as [-> | []].
    apply (connection_label_unbroken conn s e l E).
Qed.

End Lines.

(** No label breaks a line: a written document has exactly one newline
    after the header, after every node declaration and after the empty
    line, and one before every line of a resolved connection - as many
    newlines as there are nodes and resolved connections, plus one. *)
Theorem document_line_count (html5 : pystr -> option pystr)
    (data : BoardData) (doc : pystr) :
  generate_mermaid html5 data = Written doc ->
  count_occ N.eq_dec doc newline
  = length (fst (extract_nodes_and_connections html5 data))
    + length (filter (resolvedb (fst (extract_nodes_and_connections html5 data)))
                (snd (extract_nodes_and_connections html5 data)))
    + 1.
Proof.
  intros H.
  destruct (written_document_shape html5 data doc H)
    as [sid [info [_ [_ [L ->]]]]].
  etransitivity; [apply count_join, document_lines_unbroken|].
  rewrite !length_app, !length_map; simpl length.
  unfold extract_nodes_and_connections in L |- *.
  simpl fst in L |- *; simpl snd in L |- *; lia.
Qed.

Lemma document_line_count_witness :
  count_occ N.eq_dec
    (join [newline]
       [ str "flowchart TD";
         str "    N1{" ++ [dquote] ++ str "Is X true?" ++ [dquote] ++ str "}";
         str "    N2([" ++ [dquote] ++ str "Conclusion" ++ [dquote] ++ str "])";
         [];
         str "    N1 -->|" ++ [dquote] ++ str "Yes" ++ [dquote] ++ str "| N2" ])
    newline
  = length (fst (extract_nodes_and_connections no_entities
                   board_with_dangling_connector))
    + length (filter
                (resolvedb (fst (extract_nodes_and_connections no_entities
                                   board_with_dangling_connector)))
                (snd (extract_nodes_and_connections no_entities
                        board_with_dangling_connector)))
    + 1.
Proof.
  apply (document_line_count no_entities board_with_dangling_connector).
  reflexivity.
Defined.

(* ================================================================== *)
(** ** Instances of the conditional statements *)

Lemma extracted_roles_witness :
  NodeType.question <> NodeType.unknown
  /\ MermaidShape.diamond = shape_of_type NodeType.question.
Proof.
  apply (extracted_roles no_entities board_with_dangling_connector (str "1")
           {| text := str "Is X true?";
              mermaid_shape := MermaidShape.diamond;
              type := NodeType.question |}).
  vm_compute; left; reflexivity.
Defined.

Lemma extracted_labels_witness :
  (str "Conclusion" <> [] /\ str "Conclusion" <> str "shape")
  \/ In (str "2") (keys conclusion_text_map).
Proof.
  apply (extracted_labels no_entities board_with_dangling_connector (str "2")
           {| text := str "Conclusion";
              mermaid_shape := MermaidShape.stadium;
              type := NodeType.conclusion |}).
  vm_compute; right; left; reflexivity.
Defined.

Lemma extracted_connections_witness :
  nonempty (str "1") = true /\ nonempty (str "9") = true.
Proof.
  assert (In (str "1", str "9", str "No")
            (snd (extract_nodes_and_connections no_entities
                    board_with_dangling_connector))) as H
    by (vm_compute; right; left; reflexivity).
  destruct (extracted_connections no_entities board_with_dangling_connector
              (str "1") (str "9") (str "No") H) as [A [B _]].
  split; [exact A | exact B].
Defined.

Lemma html_to_text_is_clean_text_witness :
  _html_to_text no_entities (str "<b>Is  X</b> true? ")
  = MiroExtractor._clean_text (str "<b>Is  X</b> true? ").
Proof.
  apply (html_to_text_is_clean_text no_entities (str "<b>Is  X</b> true? "));
    vm_compute; reflexivity.
Defined.

Lemma miro_ids_numbered_witness :
  get (MiroExtractor.assign_ids [] 0 [str "3458764636475175262"; str "7"])
    (str "7")
  = Some (numbered_id 1).
Proof.
  assert (NoDup [str "3458764636475175262"; str "7"]) as N.
  { constructor; [intros [H | []]; discriminate H|].
    constructor; [intros [] | constructor]. }
  exact (proj1 (miro_ids_numbered
                  {| MiroExtractor.nodes :=
                       [ (str "3458764636475175262",
                          {| MiroExtractor.type := str "question";
                             MiroExtractor.text := str "Is X true?";
                             MiroExtractor.options := [] |});
                         (str "7",
                          {| MiroExtractor.type := str "conclusion";
                             MiroExtractor.text := str "Conclusion";
                             MiroExtractor.options := [] |}) ] |}
                  N) 1 (str "7") eq_refl).
Defined.

Lemma plain_labels_bounded_witness :
  str "doc_format" <> [] /\ length (str "doc_format") <= 80.
Proof.
  apply (plain_labels_bounded no_entities
           [ {| GptRawToMermaid.id := Some (str "1");
                GptRawToMermaid.type := Some (str "doc_format");
                GptRawToMermaid.data := None |} ]
           [] (str "1") (str "doc_format")).
  vm_compute; left; reflexivity.
Defined.

Lemma plain_items_kept_witness :
  In (str "1")
    (keys (fst (GptRawToMermaid.extract_nodes_and_edges no_entities
                  [ {| GptRawToMermaid.id := Some (str "1");
                       GptRawToMermaid.type := Some (str "doc_format");
                       GptRawToMermaid.data := None |} ]
                  []))).
Proof.
  apply (plain_items_kept no_entities _ []
           {| GptRawToMermaid.id := Some (str "1");
              GptRawToMermaid.type := Some (str "doc_format");
              GptRawToMermaid.data := None |}
           (str "1") (str "doc_format")).
  - left; reflexivity.
  - reflexivity.
  - reflexivity.
  - reflexivity.
  - reflexivity.
Defined.

(* ================================================================== *)
(** ** The normalizer on text without character references *)

Section EntityFree.

Import ReFacts.

Lemma br_or_close_p_some (s : pystr) (n : nat) (repl : pystr) :
  br_or_close_p s = Some (n, repl) ->
  n = 4 /\ repl = [newline]
  /\ exists b c r, s = ch "<" :: b :: c :: ch ">" :: r
                   /\ b <> ch ">" /\ c <> ch ">".
Proof.
  unfold br_or_close_p.
  destruct s as [|a [|b [|c [|d r]]]]; try discriminate.
  destruct (char_eqb a (ch "<")) eqn:Ea; [|discriminate].
  destruct (char_eqb d (ch ">")) eqn:Ed; [|rewrite andb_false_r; discriminate].
  apply char_eqb_eq in Ea, Ed; subst a d.
  destruct ((char_eqb (lower_char b) (ch "b") && char_eqb (lower_char c) (ch "r"))
            || (char_eqb b (ch "/") && char_eqb (lower_char c) (ch "p"))) eqn:E;
    [|discriminate].
  simpl; intros H; inversion H; subst; clear H.
  split; [reflexivity|]; split; [reflexivity|].
  exists b, c, r; split; [reflexivity|].
  apply orb_true_iff in E; destruct E as [E | E];
    apply andb_true_iff in E; destruct E as [E1 E2];
    split; intros ->; vm_compute in E1, E2; discriminate.
Qed.

(** A line-break tag is a tag. *)
Lemma br_is_tag (s : pystr) :
  any_tag s = None -> br_or_close_p s = None.
Proof.
  intros H; destruct (br_or_close_p s) as [[n repl]|] eqn:B; [|reflexivity].
  destruct (br_or_close_p_some s n repl B) as [_ [_ [b [c [r [-> [Hb Hc]]]]]]].
  exfalso; apply any_tag_none in H.
  destruct H as [H | H]; [contradiction|].
  apply H; right; right; left; reflexivity.
Qed.

Lemma tagless_no_br (s : pystr) : tagless s -> Re.sub br_or_close_p s = s.
Proof.
  induction s as [|c r IH]; [reflexivity|].
  intros [H T].
  assert (any_tag (c :: r) = None) as M.
  { destruct (N.eq_dec c (ch "<")) as [-> | Hne];
      [apply any_tag_none, H; reflexivity | apply any_tag_start; exact Hne]. }
  rewrite (sub_nomatch _ _ _ (br_is_tag _ M)), (IH T); reflexivity.
Qed.

Lemma sub_br_In (c : char) (s : pystr) :
  In c (Re.sub br_or_close_p s) -> In c s \/ c = newline.
Proof.
  pattern s; apply suffix_induction; clear s.
  intros [|a r] IH; [intros []|].
  destruct (br_or_close_p (a :: r)) as [[n repl]|] eqn:M.
  - destruct (br_or_close_p_some _ _ _ M) as [-> [-> _]].
    rewrite (sub_match _ _ _ _ _ M).
    intros [<- | H]; [right; reflexivity|].
    apply IH in H; [|rewrite length_skipn; simpl; lia].
    destruct H as [H | H]; [left; right | right; exact H].
    rewrite <- (firstn_skipn 3 r); apply in_or_app; right; exact H.
  - rewrite (sub_nomatch _ _ _ M).
    intros [<- | H]; [left; left; reflexivity|].
    apply IH in H; [|simpl; lia].
    destruct H as [H | H]; [left; right; exact H | right; exact H].
Qed.

Lemma notin_mem_false (c : char) (s : pystr) :
  ~ In c s -> PyStr.mem c s = false.
Proof.
  intros H; unfold PyStr.mem.
  destruct (existsb (char_eqb c) s) eqn:E; [|reflexivity].
  apply existsb_exists in E; destruct E as [x [Hx Ex]].
  apply char_eqb_eq in Ex; subst x; contradiction.
Qed.

(** Without character references in the input, the normalized text holds
    no tag and no [&]. *)
Lemma html_to_text_entity_free (html5 : pystr -> option pystr) (html : pystr) :
  PyStr.mem (ch "&") html = false ->
  tagless (_html_to_text html5 html)
  /\ ~ In (ch "&") (_html_to_text html5 html).
Proof.
  intros H; apply mem_false_notin in H.
  unfold _html_to_text.
  destruct (negb (nonempty html)); [split; [exact I | intros []]|].
  set (y := Re.sub br_or_close_p html).
  assert (~ In (ch "&") (Re.sub any_tag y)) as Hz.
  { intros G; apply sub_any_tag_In, sub_br_In in G.
    destruct G as [G | G]; [contradiction | discriminate G]. }
  rewrite (unescape_plain html5 _ (notin_mem_false _ _ Hz)).
  split.
  - eapply whitespace_edit_tagless; [apply whitespace_edit_strip|].
    eapply whitespace_edit_tagless; [apply whitespace_edit_collapse|].
    apply sub_any_tag_tagless.
  - intros G.
    destruct (whitespace_edit_In _ _ _ (whitespace_edit_strip _) G) as [G1 | G1];
      [|discriminate G1].
    destruct (whitespace_edit_In _ _ _ (whitespace_edit_collapse _) G1)
      as [G2 | G2]; [contradiction | discriminate G2].
Qed.

Lemma html_to_text_fixed (html5 : pystr -> option pystr) (html : pystr) :
  strip (Re.sub whitespace_run (_html_to_text html5 html))
  = _html_to_text html5 html.
Proof.
  unfold _html_to_text.
  destruct (negb (nonempty html)); [reflexivity|].
  apply whitespace_normal_form.
Qed.

End EntityFree.

(** On input that holds no [&], normalizing twice gives what normalizing
    once gives, whatever tags the input holds. *)
Theorem html_to_text_idempotent_without_entities
    (html5 : pystr -> option pystr) (html : pystr) :
  PyStr.mem (ch "&") html = false ->
  _html_to_text html5 (_html_to_text html5 html) = _html_to_text html5 html.
Proof.
  intros H.
  destruct (html_to_text_entity_free html5 html H) as [T A].
  pose proof (html_to_text_fixed html5 html) as F.
  set (t := _html_to_text html5 html) in *.
  unfold _html_to_text at 1.
  destruct (negb (nonempty t)) eqn:E.
  - destruct t; [reflexivity | discriminate E].
  - rewrite (tagless_no_br t T), (tagless_unchanged t T).
    rewrite (unescape_plain html5 t (notin_mem_false _ _ A)).
    exact F.
Qed.

Lemma html_to_text_idempotent_without_entities_witness :
  _html_to_text no_entities
    (_html_to_text no_entities (str "<p>a <> b<br>c < d</p>"))
  = _html_to_text no_entities (str "<p>a <> b<br>c < d</p>").
Proof.
  apply (html_to_text_idempotent_without_entities no_entities
           (str "<p>a <> b<br>c < d</p>")).
  vm_compute; reflexivity.
Defined.
